(** * Payment backend: checkout, session verification, webhook, notification

    A shallow embedding of the HTTP handlers of the payment backend
    ([index.js], [routes/paymentRoutes.js], [utils/emailService.js]) and the
    properties of their request/response behaviour.

    - JavaScript numbers are IEEE 754 binary64 values, taken from the
      standard library's executable specification [SpecFloat] at
      [prec = 53], [emax = 1024].
    - JavaScript values that cross the HTTP boundary (JSON bodies, Stripe
      metadata) are the inductive [JsValue]: everything [JSON.parse] can
      produce, and [undefined].
    - A string is a sequence of UTF-16 code units; the strings of this
      development are those whose code units are all below 256, one
      [ascii] per code unit.
    - Handlers are [async] functions whose only suspension points are calls
      to the payment processor and the mail transport.  They are written in
      a small monad [IO] that records every external call in a trace and
      carries JavaScript exceptions; the answers of the outside world are
      the fields of a [World] record. *)

From Stdlib Require Import ZArith List String Ascii Bool Lia.
From Stdlib Require Import Floats.SpecFloat Numbers.DecimalString.
From Stdlib Require DecimalPos DecimalN.
Import ListNotations.

Local Open Scope string_scope.
Local Open Scope Z_scope.

#[local] Set Warnings "-register-all".

(* ================================================================= *)
(** ** The Number type *)

Module JsNumber.

(** A Number is a binary64 value. *)
Definition number : Type := spec_float.

Definition prec : Z := 53.
Definition emax : Z := 1024.

Definition NaN : number := S754_nan.
Definition Infinity : number := S754_infinity false.

(** The Number nearest to an integer (round to nearest, ties to even);
    an integer literal such as [100] or [10000] in the source. *)
Definition of_Z (z : Z) : number := binary_normalize prec emax z 0 false.

(** The Number nearest to [m / d] for positive integers [m] and [d]:
    the quotient is computed with enough bits for one correct rounding. *)
Definition of_ratio (s : bool) (m d : positive) : number :=
  let '(mz, ez, lz) := SFdiv_core_binary prec emax (Zpos m) 0 (Zpos d) 0 in
  binary_round_aux prec emax s mz ez lz.

(** The Number nearest to [(-1)^s * m * 10^e]. *)
Definition of_decimal (s : bool) (m : Z) (e : Z) : number :=
  match m with
  | Zpos p =>
      match e with
      | Zneg k => of_ratio s p (Pos.pow 10 k)
      | _ => binary_round prec emax s (p * Z.to_pos (10 ^ e))%positive 0
      end
  | _ => S754_zero s
  end.

Definition mul (x y : number) : number := SFmul prec emax x y.
Definition div (x y : number) : number := SFdiv prec emax x y.
Definition add (x y : number) : number := SFadd prec emax x y.

(** [x <= y] and [x > y]: false as soon as one side is NaN. *)
Definition leb (x y : number) : bool := SFleb x y.
Definition gtb (x y : number) : bool := SFltb y x.

(** The global [isNaN] on a Number. *)
Definition isNaN (x : number) : bool :=
  match x with S754_nan => true | _ => false end.

(** Truthiness of a Number: [+0], [-0] and NaN are falsy. *)
Definition truthy (x : number) : bool :=
  match x with
  | S754_zero _ | S754_nan => false
  | _ => true
  end.

(** [floor (m * 2^e)] for an integer mantissa [m]. *)
Definition floor_scaled (m e : Z) : Z :=
  match e with
  | Zneg k => m / Zpos (Pos.pow 2 k)
  | _ => m * 2 ^ e
  end.

(** [floor (m * 2^e + 1/2)]. *)
Definition round_half_up_scaled (m e : Z) : Z :=
  match e with
  | Zneg k => (2 * m + Zpos (Pos.pow 2 k)) / (2 * Zpos (Pos.pow 2 k))
  | _ => m * 2 ^ e
  end.

(** [Math.round]: the integer nearest to [x], ties towards +Infinity;
    the sign of [x] is kept when the result is zero. *)
Definition Math_round (x : number) : number :=
  match x with
  | S754_finite s m e =>
      if 0 <=? e then x
      else binary_normalize prec emax
             (round_half_up_scaled (cond_Zopp s (Zpos m)) e) 0 s
  | _ => x
  end.

(** [Math.floor]. *)
Definition Math_floor (x : number) : number :=
  match x with
  | S754_finite s m e =>
      if 0 <=? e then x
      else binary_normalize prec emax
             (floor_scaled (cond_Zopp s (Zpos m)) e) 0 s
  | _ => x
  end.

(** The integer a Number denotes, when it denotes one. *)
Definition to_Z (x : number) : option Z :=
  match x with
  | S754_zero _ => Some 0
  | S754_finite s m e =>
      if 0 <=? e then Some (cond_Zopp s (Zpos m) * 2 ^ e)
      else if (Zpos m) mod (2 ^ (- e)) =? 0
           then Some (cond_Zopp s (Zpos m) / 2 ^ (- e))
           else None
  | _ => None
  end.

End JsNumber.
Import JsNumber.

(* ================================================================= *)
(** ** Strings *)

Module JsString.

(** [s.includes(pat)]. *)
Definition includes (pat s : string) : bool :=
  match index 0 pat s with Some _ => true | None => false end.

(** [s.startsWith(pat)]. *)
Definition startsWith (pat s : string) : bool := prefix pat s.

(** [s.replace(pat, '')] for a pattern without metacharacters: the
    first occurrence of [pat] is removed. *)
Definition remove_first (pat s : string) : string :=
  match index 0 pat s with
  | Some i =>
      substring 0 i s
      ++ substring (i + String.length pat)
                   (String.length s - (i + String.length pat)) s
  | None => s
  end.

(** Decimal digits of a natural number given as [Z]. *)
Definition of_nonneg (z : Z) : string :=
  NilZero.string_of_uint (N.to_uint (Z.to_N z)).

End JsString.
Import JsString.

(* ================================================================= *)
(** ** Values *)

(** The JavaScript values that reach the handlers: what [JSON.parse]
    produces for a request body or a processor event, and [undefined] for
    a missing property.  Objects are plain objects and arrays are plain
    arrays, with data properties only and the built-in prototypes. *)
Inductive JsValue : Type :=
| VUndefined
| VNull
| VBool (b : bool)
| VNumber (n : number)
| VString (s : string)
| VArray (items : list JsValue)
| VObject (fields : list (string * JsValue)).

(** [ToBoolean]; [!v] is its negation. *)
Definition ToBoolean (v : JsValue) : bool :=
  match v with
  | VUndefined | VNull => false
  | VBool b => b
  | VNumber n => truthy n
  | VString s => negb (s =? "")%string
  | VArray _ | VObject _ => true
  end.

(** [a || b] on values. *)
Definition js_or (a b : JsValue) : JsValue := if ToBoolean a then a else b.

(** Property lookup on an object literal; the first binding of a key is
    the one a reader sees. *)
Fixpoint get_field (k : string) (fs : list (string * JsValue)) : option JsValue :=
  match fs with
  | [] => None
  | (k', v) :: fs' => if (k =? k')%string then Some v else get_field k fs'
  end.

(** A property is present in the JSON text of an object when it is bound
    to something other than [undefined] ([JSON.stringify] drops those). *)
Definition has_field (k : string) (v : JsValue) : bool :=
  match v with
  | VObject fs =>
      match get_field k fs with
      | Some VUndefined | None => false
      | Some _ => true
      end
  | _ => false
  end.

Definition of_option_string (o : option string) : JsValue :=
  match o with Some s => VString s | None => VNull end.

(** An object as a list of bindings, in the order of the literal. *)
Definition JsObject : Type := list (string * JsValue).

(** [o.k], [undefined] when the property is missing. *)
Definition prop (k : string) (o : JsObject) : JsValue :=
  match get_field k o with Some v => v | None => VUndefined end.

(** [v === 'text']. *)
Definition strict_eq_string (v : JsValue) (text : string) : bool :=
  match v with VString s => (s =? text)%string | _ => false end.

(** A thrown error: its class name, the [type] property the payment
    processor's client library sets on its errors ([undefined] on any
    other error), and its message. *)
Record JsError : Type := {
  err_name : string;
  err_type : JsValue;
  err_message : string
}.

Definition TypeError (msg : string) : JsError :=
  {| err_name := "TypeError"; err_type := VUndefined; err_message := msg |}.

(** What the JavaScript host decides and the program does not: the digits
    [Number::toString] prints for a finite non-zero Number, the clock, and
    the locale rendering of the current date. *)
Record Host : Type := {
  finite_toString : number -> string;
  Date_now : Z;
  Date_toLocaleString : string
}.

Section WithHost.

Variable host : Host.

(** [Number::toString]. *)
Definition Number_toString (x : number) : string :=
  match x with
  | S754_nan => "NaN"
  | S754_infinity false => "Infinity"
  | S754_infinity true => "-Infinity"
  | S754_zero _ => "0"
  | S754_finite _ _ _ => finite_toString host x
  end.

(** [ToString], as applied by template literals and by [parseFloat]; it
    returns the string or the error it throws.

    An object is converted by the method [toString].  A plain object
    without a property of that name inherits the one that answers
    ['[object Object]'].  A property of that name hides the inherited
    method and, being data, cannot be called; the fallback [valueOf]
    (inherited, or hidden in the same way) yields no primitive either,
    and the conversion throws a TypeError.

    An array is converted by [join]: its elements, converted in order
    and separated by commas, [undefined] and [null] counting as the
    empty string. *)
Fixpoint ToString (v : JsValue) : JsError + string :=
  match v with
  | VUndefined => inr "undefined"
  | VNull => inr "null"
  | VBool true => inr "true"
  | VBool false => inr "false"
  | VNumber n => inr (Number_toString n)
  | VString s => inr s
  | VArray items =>
      (fix join (l : list JsValue) : JsError + string :=
         match l with
         | [] => inr ""
         | x :: rest =>
             match
               match x with
               | VUndefined | VNull => inr ""
               | _ => ToString x
               end
             with
             | inl e => inl e
             | inr s =>
                 match rest with
                 | [] => inr s
                 | _ :: _ =>
                     match join rest with
                     | inl e => inl e
                     | inr t => inr (s ++ "," ++ t)
                     end
                 end
             end
         end) items
  | VObject fields =>
      match get_field "toString" fields with
      | Some _ => inl (TypeError "Cannot convert object to primitive value")
      | None => inr "[object Object]"
      end
  end.

End WithHost.

(* ================================================================= *)
(** ** [parseFloat] and [toFixed] *)

Module Parse.

Definition is_digit (c : ascii) : bool :=
  let n := nat_of_ascii c in (48 <=? n)%nat && (n <=? 57)%nat.

Definition digit_val (c : ascii) : Z := Z.of_nat (nat_of_ascii c) - 48.

(** [WhiteSpace] and [LineTerminator] among the code units below 256:
    TAB, LF, VT, FF, CR, the space and the no-break space U+00A0. *)
Definition is_space (c : ascii) : bool :=
  let n := nat_of_ascii c in
  ((9 <=? n)%nat && (n <=? 13)%nat) || (n =? 32)%nat || (n =? 160)%nat.

Fixpoint trimStart (s : string) : string :=
  match s with
  | String c s' => if is_space c then trimStart s' else s
  | EmptyString => s
  end.

(** The longest run of decimal digits at the head of [s]: their value
    on top of [acc], how many there were on top of [n], and the rest. *)
Fixpoint digits (s : string) (acc n : Z) : Z * Z * string :=
  match s with
  | String c s' =>
      if is_digit c then digits s' (10 * acc + digit_val c) (n + 1)
      else (acc, n, s)
  | EmptyString => (acc, n, s)
  end.

Definition exponent_digits (sgn : bool) (s : string) : Z :=
  let '(v, n, _) := digits s 0 0 in
  if 0 <? n then cond_Zopp sgn v else 0.

(** The value of an [ExponentPart] at the head of [s]; [0] when the
    longest literal stops before it. *)
Definition exponent_part (s : string) : Z :=
  match s with
  | String c s1 =>
      if (Ascii.eqb c "e" || Ascii.eqb c "E")%bool then
        match s1 with
        | String "+" s2 => exponent_digits false s2
        | String "-" s2 => exponent_digits true s2
        | _ => exponent_digits false s1
        end
      else 0
  | EmptyString => 0
  end.

(** The longest prefix that is a [StrUnsignedDecimalLiteral], rounded to
    a Number; NaN when there is none. *)
Definition unsigned_literal (sgn : bool) (s : string) : number :=
  if prefix "Infinity" s then S754_infinity sgn
  else
    let '(ip, ni, r1) := digits s 0 0 in
    match r1 with
    | String "." r2 =>
        let '(m, nf, r3) := digits r2 ip 0 in
        if (ni =? 0) && (nf =? 0) then NaN
        else of_decimal sgn m (exponent_part r3 - nf)
    | _ =>
        if ni =? 0 then NaN else of_decimal sgn ip (exponent_part r1)
    end.

(** [parseFloat] on a string. *)
Definition parseFloat_string (s : string) : number :=
  match trimStart s with
  | String "+" r => unsigned_literal false r
  | String "-" r => unsigned_literal true r
  | t => unsigned_literal false t
  end.

(** [n] hundredths printed with two decimals, [n >= 0]. *)
Definition hundredths (n : Z) : string :=
  of_nonneg (n / 100)
  ++ "." ++ of_nonneg (n mod 100 / 10) ++ of_nonneg (n mod 10).

End Parse.
Import Parse.

Section Builtins.

Variable host : Host.

(** The global [parseFloat]: the argument is converted to a string
    first, which can throw. *)
Definition parseFloat (v : JsValue) : JsError + number :=
  match ToString host v with
  | inl e => inl e
  | inr s => inr (parseFloat_string s)
  end.

(** [x.toFixed(2)]: the integer [n] with [n / 100] closest to [|x|],
    the larger one on a tie, printed with two decimals; from [10^21] on,
    and for values that are not finite, the plain conversion. *)
Definition toFixed2 (x : number) : string :=
  match x with
  | S754_finite s m e =>
      if leb (of_Z (10 ^ 21)) (S754_finite false m e)
      then (if s then "-" else "") ++ Number_toString host (S754_finite false m e)
      else (if s then "-" else "")
           ++ hundredths (round_half_up_scaled (Zpos m * 100) e)
  | S754_zero _ => "0.00"
  | _ => Number_toString host x
  end.

End Builtins.

(* ================================================================= *)
(** ** Data of the outside world *)

Record CustomerDetails : Type := {
  email : option string;
  name : option string
}.

Record Charge : Type := { receipt_url : option string }.

(** An expanded payment intent. *)
Record PaymentIntent : Type := {
  pi_id : string;
  payment_method_types : option (list string);
  charges : option (list Charge)
}.

(** A checkout session as the processor's client library types it.
    [amount_total] is an integer number of minor units or [null];
    [metadata] is the object attached at creation or [null]. *)
Record Session : Type := {
  sess_id : string;
  sess_url : option string;
  payment_status : string;
  amount_total : option Z;
  metadata : option JsObject;
  customer_details : option CustomerDetails;
  payment_intent : option PaymentIntent
}.

(** A verified processor event.  For event types other than
    ['checkout.session.completed'] the payload is not a session; the
    handler never reads it then. *)
Record Event : Type := {
  ev_type : string;
  ev_data_object : Session
}.

Record LineItem : Type := {
  currency : string;
  product_name : string;
  product_metadata : JsObject;
  unit_amount : number;
  quantity : Z
}.

(** The argument of [stripe.checkout.sessions.create]. *)
Record CreateParams : Type := {
  line_items : list LineItem;
  mode : string;
  cp_metadata : JsObject;
  allowed_countries : list string;
  success_url : string;
  cancel_url : string;
  locale : string;
  expires_at : number
}.

(** The argument of [transporter.sendMail]. *)
Record MailOptions : Type := {
  mail_from : JsValue;
  mail_to : string;
  mail_subject : string;
  mail_headers : JsObject;
  mail_html : string
}.

(** Everything a handler does that can be observed from outside. *)
Inductive Effect : Type :=
| ConsoleLog (text : string) (args : list JsValue)
| ConsoleError (text : string) (error : option JsError)
| StripeSessionsCreate (params : CreateParams)
| StripeSessionsRetrieve (sessionId : string) (expand : list string)
| SenderInvoked (paymentData : JsObject)
| SendMail (mailOptions : MailOptions).

(** The answers of the outside world: the process environment, whose
    variables are strings, the payment processor and the mail transport.
    A call either returns or throws. *)
Record World : Type := {
  host : Host;
  environment : string -> option string;
  stripe_webhooks_constructEvent : string -> JsValue -> JsValue -> JsError + Event;
  stripe_checkout_sessions_create : CreateParams -> JsError + Session;
  stripe_checkout_sessions_retrieve : string -> list string -> JsError + Session;
  transporter_sendMail : MailOptions -> JsError + unit
}.

(** [process.env.NAME]: the string, or [undefined] for a variable that
    is not set. *)
Definition process_env (W : World) (name : string) : JsValue :=
  match environment W name with
  | Some s => VString s
  | None => VUndefined
  end.

(* ================================================================= *)
(** ** Sequential code with exceptions and a trace *)

Inductive Completion (A : Type) : Type :=
| Normal (a : A)
| Throw (e : JsError).
Arguments Normal {A} a.
Arguments Throw {A} e.

(** A computation: how it completes and what it did, oldest first. *)
Definition IO (A : Type) : Type := Completion A * list Effect.

Definition ret {A} (a : A) : IO A := (Normal a, []).

Definition throw {A} (e : JsError) : IO A := (Throw e, []).

Definition emit (e : Effect) : IO unit := (Normal tt, [e]).

Definition bind {A B} (m : IO A) (k : A -> IO B) : IO B :=
  match m with
  | (Normal a, t) => let '(r, t') := k a in (r, (t ++ t')%list)
  | (Throw e, t) => (Throw e, t)
  end.

(** [try { m } catch (error) { h error }]. *)
Definition try_catch {A} (m : IO A) (h : JsError -> IO A) : IO A :=
  match m with
  | (Throw e, t) => let '(r, t') := h e in (r, (t ++ t')%list)
  | done => done
  end.

(** A call into the outside world: recorded, then answered. *)
Definition external {A} (e : Effect) (answer : JsError + A) : IO A :=
  bind (emit e) (fun _ =>
    match answer with
    | inl err => throw err
    | inr a => ret a
    end).

(** An operation of the language that returns or throws, and does
    nothing else. *)
Definition lift {A} (r : JsError + A) : IO A :=
  match r with
  | inl e => throw e
  | inr a => ret a
  end.

Declare Scope io_scope.
Delimit Scope io_scope with io.
Notation "x <- m ;; k" := (bind m (fun x => k))
  (at level 61, m at next level, right associativity) : io_scope.
Notation "m ;; k" := (bind m (fun _ => k))
  (at level 61, right associativity) : io_scope.

Definition completion {A} (m : IO A) : Completion A := fst m.
Definition trace {A} (m : IO A) : list Effect := snd m.

(** ** Responses *)

Inductive Body : Type :=
| BodyJson (v : JsValue)
| BodyText (s : string)
| BodyEmpty.

Record Response : Type := {
  status : Z;
  body : Body
}.

(** [res.status(code).json({...})]. *)
Definition json (code : Z) (o : JsObject) : Response :=
  {| status := code; body := BodyJson (VObject o) |}.

(** [res.status(code).send(text)]. *)
Definition send_text (code : Z) (text : string) : Response :=
  {| status := code; body := BodyText text |}.

(** [res.send()]: the status is left at its default. *)
Definition send_empty : Response := {| status := 200; body := BodyEmpty |}.

Definition body_has (k : string) (r : Response) : bool :=
  match body r with
  | BodyJson v => has_field k v
  | _ => false
  end.

Definition body_field (k : string) (r : Response) : option JsValue :=
  match body r with
  | BodyJson (VObject fs) => get_field k fs
  | _ => None
  end.

(** The calls to the payment processor in a trace. *)
Definition is_stripe_call (e : Effect) : bool :=
  match e with
  | StripeSessionsCreate _ | StripeSessionsRetrieve _ _ => true
  | _ => false
  end.

(** Calls that leave the process: processor, sender, mail transport. *)
Definition is_external_call (e : Effect) : bool :=
  match e with
  | ConsoleLog _ _ | ConsoleError _ _ => false
  | _ => true
  end.

(** The invocations of the Notification Sender in a trace, with their
    argument. *)
Definition sender_calls (t : list Effect) : list JsObject :=
  flat_map (fun e => match e with SenderInvoked pd => [pd] | _ => [] end) t.

(** The messages handed to the mail transport in a trace. *)
Definition mail_calls (t : list Effect) : list MailOptions :=
  flat_map (fun e => match e with SendMail opts => [opts] | _ => [] end) t.

(** The session-creation requests sent to the processor in a trace. *)
Definition create_calls (t : list Effect) : list CreateParams :=
  flat_map (fun e => match e with StripeSessionsCreate p => [p] | _ => [] end) t.

(* ================================================================= *)
(** ** Requests *)

(** A [POST /checkout] request after the JSON body parser and the
    request-id middleware: [req.id], [req.ip], and [req.body], an object. *)
Record CheckoutRequest : Type := {
  req_id : string;
  req_ip : string;
  req_body : JsObject
}.

(** A [GET /verify-payment/:sessionId] request: [req.id] and the route
    parameter, which the router hands over as a string. *)
Record VerifyRequest : Type := {
  vreq_id : string;
  sessionId : string
}.

(** A [POST /webhook] request: the headers and the raw, unparsed body. *)
Record WebhookRequest : Type := {
  headers : JsObject;
  raw_body : string
}.

(* ================================================================= *)
(** ** The handlers *)

(** The markup of the notification, line by line as the template literal
    of [utils/emailService.js] has it, the substitutions already
    converted; [reference] is the paragraph that the earlier revision
    does not have. *)
Definition nl : string := String (ascii_of_nat 10) "".
Definition dq : string := String (ascii_of_nat 34) "".

Definition html_lines (amount serverProvider username paymentId date : string)
           (reference : list string) : list string :=
  List.app
   [ "";
     "        <div style=" ++ dq ++ "font-family: Arial, sans-serif; max-width: 600px; margin: 0 auto; padding: 20px; border: 1px solid #eee; border-radius: 10px;" ++ dq ++ ">";
     "          <h2 style=" ++ dq ++ "color: #333; text-align: center;" ++ dq ++ ">Payment Notification</h2>";
     "          <div style=" ++ dq ++ "background-color: #f8f8f8; padding: 15px; border-radius: 5px; margin: 20px 0;" ++ dq ++ ">";
     "            <p>A new payment has been successfully processed.</p>";
     "            ";
     "            <h3 style=" ++ dq ++ "margin-top: 20px;" ++ dq ++ ">Payment Details:</h3>";
     "            <ul style=" ++ dq ++ "list-style: none; padding-left: 0;" ++ dq ++ ">";
     "              <li><strong>Amount:</strong> $" ++ amount ++ "</li>";
     "              <li><strong>Server Provider:</strong> " ++ serverProvider ++ "</li>";
     "              <li><strong>Username:</strong> " ++ username ++ "</li>";
     "              <li><strong>Transaction ID:</strong> " ++ paymentId ++ "</li>";
     "              <li><strong>Date:</strong> " ++ date ++ "</li>";
     "            </ul>";
     "          </div>";
     "          ";
     "          <p>This payment has been processed and the customer's account will be credited shortly.</p>";
     "          ";
     "          <div style=" ++ dq ++ "text-align: center; margin-top: 30px; color: #777; font-size: 0.9em;" ++ dq ++ ">";
     "            <p>This is an automated email notification.</p>" ]
   (List.app reference
      [ "          </div>";
        "        </div>";
        "      " ]).

Definition html_text (amount serverProvider username paymentId date : string)
           (reference : list string) : string :=
  String.concat nl
    (html_lines amount serverProvider username paymentId date reference).

Section Handlers.

Variable W : World.

Local Open Scope io_scope.

(** [`${v}`] and every other place where running code converts a value
    to a string. *)
Definition to_string (v : JsValue) : IO string := lift (ToString (host W) v).

(** [const { first, ... } = v], where [what] is the source text of [v].
    [undefined] and [null] have no properties to read; a string, a
    number, a boolean or an array has none of the names the handlers ask
    for, and neither has the prototype of a plain object. *)
Definition destructure (first what : string) (v : JsValue) : IO JsObject :=
  match v with
  | VUndefined =>
      throw (TypeError ("Cannot destructure property '" ++ first ++ "' of '"
                        ++ what ++ "' as it is undefined."))
  | VNull =>
      throw (TypeError ("Cannot destructure property '" ++ first ++ "' of '"
                        ++ what ++ "' as it is null."))
  | VObject fields => ret fields
  | _ => ret []
  end.

(** *** utils/emailService.js *)

(** [paymentId.substring(0, 8)]: only a string has the method. *)
Definition substring_0_8 (paymentId : JsValue) : IO string :=
  match paymentId with
  | VString s => ret (substring 0 8 s)
  | VUndefined =>
      throw (TypeError "Cannot read properties of undefined (reading 'substring')")
  | VNull =>
      throw (TypeError "Cannot read properties of null (reading 'substring')")
  | _ => throw (TypeError "paymentId.substring is not a function")
  end.

(** The template literal of the [html] property.  Its substitutions are
    evaluated from left to right: [parseFloat(amount).toFixed(2)], then
    the conversions of [serverProvider], [username] and [paymentId], the
    date, and [paymentId] once more. *)
Definition payment_html (serverProvider username amount paymentId : JsValue)
  : IO string :=
  amountFloat <- lift (parseFloat (host W) amount) ;;
  provider <- to_string serverProvider ;;
  user <- to_string username ;;
  id <- to_string paymentId ;;
  reference <- to_string paymentId ;;
  ret (html_text (toFixed2 (host W) amountFloat) provider user id
         (Date_toLocaleString (host W))
         ["            <p>Transaction Reference: " ++ reference ++ "</p>"]).

(** The [mailOptions] object literal, its properties evaluated in the
    order of the source: the subject first, then the headers and the
    body. *)
Definition mailOptions (serverProvider username amount paymentId : JsValue)
  : IO MailOptions :=
  provider <- to_string serverProvider ;;
  user <- to_string username ;;
  short <- substring_0_8 paymentId ;;
  let uniqueSubject :=
    "New Payment Received - " ++ provider ++ " - " ++ user
    ++ " - ID: " ++ short in
  id <- to_string paymentId ;;
  html <- payment_html serverProvider username amount paymentId ;;
  ret {| mail_from := process_env W "EMAIL_USER";
         mail_to := "storemf69@gmail.com";
         mail_subject := uniqueSubject;
         mail_headers :=
           [("X-Transaction-ID", paymentId);
            ("Message-ID", VString ("<payment-" ++ id ++ "@bigwin.gold>"))];
         mail_html := html |}.

(** The destructuring of the parameter stands before the [try]. *)
Definition sendPaymentConfirmation (paymentData : JsValue) : IO bool :=
  fields <- destructure "serverProvider" "paymentData" paymentData ;;
  let serverProvider := prop "serverProvider" fields in
  let username := prop "username" fields in
  let amount := prop "amount" fields in
  let paymentId := prop "paymentId" fields in
  try_catch
    (mail <- mailOptions serverProvider username amount paymentId ;;
     external (SendMail mail) (transporter_sendMail W mail) ;;
     emit (ConsoleLog "Payment confirmation email sent to storemf69@gmail.com" []) ;;
     ret true)
    (fun error =>
       emit (ConsoleError "Error sending payment confirmation email:" (Some error)) ;;
       ret false).

(** *** routes/paymentRoutes.js: the webhook *)

(** [session.amount_total] as a Number: [null] converts to [+0]. *)
Definition amount_total_number (session : Session) : number :=
  match amount_total session with
  | Some a => of_Z a
  | None => of_Z 0
  end.

(** [session.metadata] *)
Definition session_metadata (session : Session) : JsValue :=
  match metadata session with
  | Some fields => VObject fields
  | None => VNull
  end.

(** The object literal handed to the sender, given the properties of
    the metadata. *)
Definition confirmation_of (session : Session) (fields : JsObject) : JsObject :=
  [("serverProvider", prop "serverProvider" fields);
   ("username", prop "username" fields);
   ("amount", VNumber (div (amount_total_number session) (of_Z 100)));
   ("paymentId", VString (sess_id session))].

(** [await sender(paymentData)], entered once per call. *)
Definition invoke_sender (sender : JsObject -> IO bool) (paymentData : JsObject)
  : IO bool :=
  emit (SenderInvoked paymentData) ;; sender paymentData.

(** The handler, for any Notification Sender.  The metadata is
    destructured inside the [try]. *)
Definition handleWebhook_with (sender : JsObject -> IO bool)
                              (req : WebhookRequest) : IO Response :=
  let sig := prop "stripe-signature" (headers req) in
  match stripe_webhooks_constructEvent W (raw_body req) sig
          (process_env W "STRIPE_WEBHOOK_SECRET") with
  | inl err =>
      emit (ConsoleError
              ("Webhook signature verification failed: " ++ err_message err)
              None) ;;
      ret (send_text 400 ("Webhook Error: " ++ err_message err))
  | inr event =>
      (if (ev_type event =? "checkout.session.completed")%string then
         let session := ev_data_object event in
         if (payment_status session =? "paid")%string then
           try_catch
             (fields <- destructure "username" "session.metadata"
                          (session_metadata session) ;;
              invoke_sender sender (confirmation_of session fields) ;;
              emit (ConsoleLog
                      ("Payment confirmation email sent for payment: "
                       ++ sess_id session) []))
             (fun error =>
                emit (ConsoleError "Error processing webhook:" (Some error)))
         else ret tt
       else ret tt) ;;
      ret send_empty
  end.

(** The handler with the sender of [utils/emailService.js], which gets
    the object literal. *)
Definition handleWebhook : WebhookRequest -> IO Response :=
  handleWebhook_with (fun paymentData => sendPaymentConfirmation (VObject paymentData)).

(** *** index.js: POST /checkout *)

Definition error_body (message : string) : JsObject :=
  [("status", VString "error"); ("message", VString message)].

(** [process.env.NODE_ENV === 'development' ? error.message : '...']. *)
Definition error_details (error : JsError) : JsValue :=
  if strict_eq_string (process_env W "NODE_ENV") "development"
  then VString (err_message error)
  else VString "Internal server error".

(** The argument of [stripe.checkout.sessions.create].  The template
    literals of the product name and of the two URLs are evaluated in
    the order of the source. *)
Definition checkout_params (req : CheckoutRequest)
           (serverProvider username : JsValue) (amountFloat : number)
  : IO CreateParams :=
  let metadata :=
    [("requestId", VString (req_id req));
     ("userIp", VString (remove_first "::ffff:" (req_ip req)));
     ("username", username);
     ("serverProvider", serverProvider)] in
  provider <- to_string serverProvider ;;
  user <- to_string username ;;
  success <- to_string (process_env W "FRONTEND_URL") ;;
  cancel <- to_string (process_env W "FRONTEND_URL") ;;
  ret {| line_items :=
           [{| currency := "usd";
               product_name := "Game: " ++ provider ++ " - Username: " ++ user;
               product_metadata := metadata;
               unit_amount := Math_round (mul amountFloat (of_Z 100));
               quantity := 1 |}];
         mode := "payment";
         cp_metadata := metadata;
         allowed_countries := ["US"; "BR"; "CA"];
         success_url :=
           success ++ "/payment-success?session_id={CHECKOUT_SESSION_ID}";
         cancel_url := cancel ++ "/payment-cancel";
         locale := "en";
         expires_at :=
           add (Math_floor (div (of_Z (Date_now (host W))) (of_Z 1000)))
               (mul (of_Z 30) (of_Z 60)) |}.

(** The validation of the amount: [true] when it is refused. *)
Definition amount_refused (amountFloat : number) : bool :=
  isNaN amountFloat || leb amountFloat (of_Z 0) || gtb amountFloat (of_Z 10000).

Definition post_checkout (req : CheckoutRequest) : IO Response :=
  try_catch
    (let serverProvider := prop "serverProvider" (req_body req) in
     let username := prop "username" (req_body req) in
     let amount := prop "amount" (req_body req) in
     emit (ConsoleLog ("[ReqID: " ++ req_id req ++ "] Deposit Data:")
             [VObject [("serverProvider", serverProvider);
                       ("username", username);
                       ("amount", amount)]]) ;;
     if negb (ToBoolean serverProvider) || negb (ToBoolean username)
        || negb (ToBoolean amount)
     then ret (json 400 (error_body "Missing required fields"))
     else
       amountFloat <- lift (parseFloat (host W) amount) ;;
       if amount_refused amountFloat
       then ret (json 400 (error_body
                   "Invalid amount. Must be a positive number less than 10,000"))
       else
         params <- checkout_params req serverProvider username amountFloat ;;
         session <- external (StripeSessionsCreate params)
                             (stripe_checkout_sessions_create W params) ;;
         ret (json 200 [("status", VString "success");
                        ("url", of_option_string (sess_url session));
                        ("sessionId", VString (sess_id session))]))
    (fun error =>
       emit (ConsoleError ("[ReqID: " ++ req_id req ++ "] Error in /checkout:")
               (Some error)) ;;
       ret (json 500
              [("status", VString "error");
               ("message", VString "An error occurred while processing the payment");
               ("details", error_details error)])).

(** *** index.js: GET /verify-payment/:sessionId *)

(** [session.amount_total ? (session.amount_total / 100).toFixed(2) : null] *)
Definition verify_amount (session : Session) : JsValue :=
  match amount_total session with
  | Some a =>
      if truthy (of_Z a)
      then VString (toFixed2 (host W) (div (of_Z a) (of_Z 100)))
      else VNull
  | None => VNull
  end.

Definition verify_customerDetails (session : Session) : JsValue :=
  let cd := customer_details session in
  VObject
    [("email",
      js_or (match cd with
             | Some d => of_option_string (email d)
             | None => VUndefined
             end) VNull);
     ("name",
      js_or (match cd with
             | Some d => of_option_string (name d)
             | None => VUndefined
             end) VNull)].

Definition verify_paymentDetails (session : Session) : JsValue :=
  if (payment_status session =? "paid")%string then
    let intent := payment_intent session in
    VObject
      [("paymentMethod",
        js_or (match intent with
               | Some i =>
                   match payment_method_types i with
                   | Some (first :: _) => VString first
                   | _ => VUndefined
                   end
               | None => VUndefined
               end) VNull);
       ("paymentId",
        js_or (match intent with
               | Some i => VString (pi_id i)
               | None => VUndefined
               end) VNull);
       ("receiptUrl",
        js_or (match intent with
               | Some i =>
                   match charges i with
                   | Some (first :: _) => of_option_string (receipt_url first)
                   | _ => VUndefined
                   end
               | None => VUndefined
               end) VNull)]
  else VNull.

(** The test of the [catch] block for a session the processor does not
    know. *)
Definition is_not_found (error : JsError) : bool :=
  strict_eq_string (err_type error) "StripeInvalidRequestError"
  && includes "No such checkout.session" (err_message error).

Definition get_verify_payment (req : VerifyRequest) : IO Response :=
  try_catch
    (let sessionId := sessionId req in
     if (sessionId =? "")%string || (Z.of_nat (String.length sessionId) <? 10)
     then ret (json 400 (error_body "Valid session ID is required"))
     else if negb (startsWith "cs_" sessionId)
     then ret (json 400 (error_body "Invalid session ID format"))
     else
       let expand := ["payment_intent"; "line_items"] in
       session <- external (StripeSessionsRetrieve sessionId expand)
                           (stripe_checkout_sessions_retrieve W sessionId expand) ;;
       ret (json 200 [("status", VString "success");
                      ("paymentStatus", VString (payment_status session));
                      ("amount", verify_amount session);
                      ("customerDetails", verify_customerDetails session);
                      ("paymentDetails", verify_paymentDetails session)]))
    (fun error =>
       emit (ConsoleError ("[ReqID: " ++ vreq_id req ++ "] Error verifying payment:")
               (Some error)) ;;
       if is_not_found error
       then ret (json 404 (error_body "Payment session not found"))
       else ret (json 500
                   [("status", VString "error");
                    ("message", VString "Failed to verify payment status");
                    ("details", error_details error)])).

End Handlers.

(** What the processor's client library throws for a session id it does
    not know: an invalid-request error whose message names the missing
    checkout session. *)
Definition reports_unknown_session (error : JsError) : Prop :=
  err_type error = VString "StripeInvalidRequestError"
  /\ exists pre post,
       err_message error = pre ++ "No such checkout.session" ++ post.

(** A session id that passes the checks of the route: at least ten
    characters, starting with [cs_]. *)
Definition well_formed_session_id (sessionId : string) : Prop :=
  (10 <= String.length sessionId)%nat /\ prefix "cs_" sessionId = true.

(* ================================================================= *)
(** ** A concrete world *)

(** One processor session, one world in which every call succeeds, and a
    few requests, for running the handlers on concrete inputs. *)
Module Sample.

(** [Number::toString] is tabulated on the Numbers that occur below:
    the integers and 25.99. *)
Definition sample_host : Host :=
  {| finite_toString := fun x =>
       match to_Z x with
       | Some (Zneg p) => "-" ++ of_nonneg (Zpos p)
       | Some z => of_nonneg z
       | None => "25.99"
       end;
     Date_now := 1700000000123;
     Date_toLocaleString := "11/14/2023, 10:13:20 PM" |}.

Definition paid_session : Session :=
  {| sess_id := "cs_test_a1b2c3d4e5";
     sess_url := Some "https://checkout.stripe.com/c/pay/cs_test_a1b2c3d4e5";
     payment_status := "paid";
     amount_total := Some 2599;
     metadata := Some [("requestId", VString "9f3c");
                       ("userIp", VString "10.0.0.1");
                       ("username", VString "player1");
                       ("serverProvider", VString "Orion")];
     customer_details := None;
     payment_intent := None |}.

Definition unknown_session (sessionId : string) : JsError :=
  {| err_name := "StripeInvalidRequestError";
     err_type := VString "StripeInvalidRequestError";
     err_message := "No such checkout.session: " ++ sessionId |}.

Definition bad_signature : JsError :=
  {| err_name := "StripeSignatureVerificationError";
     err_type := VString "StripeSignatureVerificationError";
     err_message := "No signatures found matching the expected signature for payload" |}.

Definition smtp_down : JsError :=
  {| err_name := "Error"; err_type := VUndefined;
     err_message := "connect ECONNREFUSED 127.0.0.1:587" |}.

(** Signatures verify exactly when the header is ["t=1,v1=good"]; the
    processor knows exactly [paid_session]; the mail transport works. *)
Definition world : World :=
  {| host := sample_host;
     environment := fun k =>
       if (k =? "STRIPE_WEBHOOK_SECRET")%string then Some "whsec_test"
       else if (k =? "FRONTEND_URL")%string then Some "https://shop.example"
       else None;
     stripe_webhooks_constructEvent := fun _ sig _ =>
       if strict_eq_string sig "t=1,v1=good"
       then inr {| ev_type := "checkout.session.completed";
                   ev_data_object := paid_session |}
       else inl bad_signature;
     stripe_checkout_sessions_create := fun _ => inr paid_session;
     stripe_checkout_sessions_retrieve := fun sessionId _ =>
       if (sessionId =? sess_id paid_session)%string then inr paid_session
       else inl (unknown_session sessionId);
     transporter_sendMail := fun _ => inr tt |}.

(** The same world with a mail transport that always throws. *)
Definition world_smtp_down : World :=
  {| host := host world;
     environment := environment world;
     stripe_webhooks_constructEvent := stripe_webhooks_constructEvent world;
     stripe_checkout_sessions_create := stripe_checkout_sessions_create world;
     stripe_checkout_sessions_retrieve := stripe_checkout_sessions_retrieve world;
     transporter_sendMail := fun _ => inl smtp_down |}.

Definition signed_webhook : WebhookRequest :=
  {| headers := [("stripe-signature", VString "t=1,v1=good")];
     raw_body := "{...}" |}.

Definition forged_webhook : WebhookRequest :=
  {| headers := [("stripe-signature", VString "t=1,v1=forged")];
     raw_body := "{...}" |}.

Definition checkout_request (amount : JsValue) : CheckoutRequest :=
  {| req_id := "9f3c";
     req_ip := "::ffff:10.0.0.1";
     req_body := [("serverProvider", VString "Orion");
                  ("username", VString "player1");
                  ("amount", amount)] |}.

Definition verify_request (sessionId : string) : VerifyRequest :=
  {| vreq_id := "9f3c"; sessionId := sessionId |}.

(** What the processor is asked for [checkout_request "25.99"], the
    payer being sent back to [frontend] afterwards. *)
Definition created_params (frontend : string) : CreateParams :=
  {| line_items :=
       [{| currency := "usd";
           product_name := "Game: Orion - Username: player1";
           product_metadata :=
             [("requestId", VString "9f3c");
              ("userIp", VString "10.0.0.1");
              ("username", VString "player1");
              ("serverProvider", VString "Orion")];
           unit_amount := of_Z 2599;
           quantity := 1 |}];
     mode := "payment";
     cp_metadata :=
       [("requestId", VString "9f3c");
        ("userIp", VString "10.0.0.1");
        ("username", VString "player1");
        ("serverProvider", VString "Orion")];
     allowed_countries := ["US"; "BR"; "CA"];
     success_url :=
       frontend ++ "/payment-success?session_id={CHECKOUT_SESSION_ID}";
     cancel_url := frontend ++ "/payment-cancel";
     locale := "en";
     expires_at := of_Z 1700001800 |}.

End Sample.

(* ================================================================= *)
(** ** The other route files *)

(** The router of [routes/paymentRoutes.js] serves the same two routes as
    [index.js], and earlier revisions of [index.js] and of
    [utils/emailService.js] are kept beside the current ones. *)

Section OtherRoutes.

Variable W : World.

(** [session.currency], a property of the session object that the other
    handlers do not read. *)
Variable session_currency : Session -> JsValue.

Local Open Scope io_scope.

(** *** routes/paymentRoutes.js: POST /checkout *)

(** [process.env.FRONTEND_URL || 'http://localhost:5173'] *)
Definition frontend_or_default : JsValue :=
  js_or (process_env W "FRONTEND_URL") (VString "http://localhost:5173").

Definition router_checkout_params (req : CheckoutRequest)
           (serverProvider username : JsValue) (amountFloat : number)
  : IO CreateParams :=
  let metadata :=
    [("requestId", VString (req_id req));
     ("userIp", VString (remove_first "::ffff:" (req_ip req)));
     ("username", username);
     ("serverProvider", serverProvider)] in
  provider <- to_string W serverProvider ;;
  user <- to_string W username ;;
  success <- to_string W frontend_or_default ;;
  cancel <- to_string W frontend_or_default ;;
  ret {| line_items :=
           [{| currency := "usd";
               product_name := "Game: " ++ provider ++ " - Username: " ++ user;
               product_metadata := metadata;
               unit_amount := Math_round (mul amountFloat (of_Z 100));
               quantity := 1 |}];
         mode := "payment";
         cp_metadata := metadata;
         allowed_countries := ["US"; "BR"; "CA"];
         success_url :=
           success ++ "/payment-success?session_id={CHECKOUT_SESSION_ID}";
         cancel_url := cancel ++ "/payment-cancel";
         locale := "en";
         expires_at :=
           add (Math_floor (div (of_Z (Date_now (host W))) (of_Z 1000)))
               (mul (of_Z 30) (of_Z 60)) |}.

Definition router_post_checkout (req : CheckoutRequest) : IO Response :=
  try_catch
    (let serverProvider := prop "serverProvider" (req_body req) in
     let username := prop "username" (req_body req) in
     let amount := prop "amount" (req_body req) in
     emit (ConsoleLog ("[ReqID: " ++ req_id req ++ "] Deposit Data:")
             [VObject [("serverProvider", serverProvider);
                       ("username", username);
                       ("amount", amount)]]) ;;
     if negb (ToBoolean serverProvider) || negb (ToBoolean username)
        || negb (ToBoolean amount)
     then ret (json 400 (error_body "Missing required fields"))
     else
       amountFloat <- lift (parseFloat (host W) amount) ;;
       if isNaN amountFloat || leb amountFloat (of_Z 0)
          || gtb amountFloat (of_Z 10000)
       then ret (json 400 (error_body
                   "Invalid amount. Must be a positive number less than 10,000"))
       else
         params <-
           router_checkout_params req serverProvider username amountFloat ;;
         session <- external (StripeSessionsCreate params)
                             (stripe_checkout_sessions_create W params) ;;
         ret (json 200 [("status", VString "success");
                        ("url", of_option_string (sess_url session));
                        ("sessionId", VString (sess_id session))]))
    (fun error =>
       emit (ConsoleError ("[ReqID: " ++ req_id req ++ "] Error in /checkout:")
               (Some error)) ;;
       ret (json 500
              [("status", VString "error");
               ("message", VString "An error occurred while processing the payment");
               ("details", error_details W error)])).

(** *** routes/paymentRoutes.js: GET /verify-payment/:sessionId *)

(** [{ amount: session.amount_total / 100, currency: session.currency }] *)
Definition router_paymentDetails (session : Session) : JsValue :=
  VObject [("amount", VNumber (div (amount_total_number session) (of_Z 100)));
           ("currency", session_currency session)].

(** The session is retrieved without options: nothing is expanded. *)
Definition router_get_verify_payment (req : VerifyRequest) : IO Response :=
  try_catch
    (let sessionId := sessionId req in
     if (sessionId =? "")%string
     then ret (json 400 (error_body "Session ID is required"))
     else
       session <- external (StripeSessionsRetrieve sessionId [])
                           (stripe_checkout_sessions_retrieve W sessionId []) ;;
       if (payment_status session =? "paid")%string
       then ret (json 200 [("status", VString "success");
                           ("paymentStatus", VString "paid");
                           ("paymentDetails", router_paymentDetails session)])
       else ret (json 200 [("status", VString "success");
                           ("paymentStatus", VString (payment_status session));
                           ("paymentDetails", router_paymentDetails session)]))
    (fun error =>
       emit (ConsoleError "Error verifying payment:" (Some error)) ;;
       ret (json 500 (error_body "Failed to verify payment"))).

(** *** index.js, earlier revision: GET /verify-payment/:sessionId *)

Definition legacy_get_verify_payment (req : VerifyRequest) : IO Response :=
  try_catch
    (let sessionId := sessionId req in
     if (sessionId =? "")%string
     then ret (json 400 (error_body "Session ID is required"))
     else
       let expand := ["payment_intent"; "line_items"] in
       session <- external (StripeSessionsRetrieve sessionId expand)
                           (stripe_checkout_sessions_retrieve W sessionId expand) ;;
       ret (json 200 [("status", VString "success");
                      ("paymentStatus", VString (payment_status session));
                      ("amount", verify_amount W session);
                      ("customerDetails", verify_customerDetails session)]))
    (fun error =>
       emit (ConsoleError "Error verifying payment:" (Some error)) ;;
       ret (json 500
              [("status", VString "error");
               ("message", VString "Failed to verify payment status");
               ("details", VString (err_message error))])).

(** *** utils/emailService.js, earlier revision *)

(** The same template without the reference paragraph. *)
Definition legacy_payment_html (serverProvider username amount paymentId : JsValue)
  : IO string :=
  amountFloat <- lift (parseFloat (host W) amount) ;;
  provider <- to_string W serverProvider ;;
  user <- to_string W username ;;
  id <- to_string W paymentId ;;
  ret (html_text (toFixed2 (host W) amountFloat) provider user id
         (Date_toLocaleString (host W)) []).

(** A message without a [headers] property has no bindings there. *)
Definition legacy_mailOptions (serverProvider username amount paymentId : JsValue)
  : IO MailOptions :=
  html <- legacy_payment_html serverProvider username amount paymentId ;;
  ret {| mail_from := process_env W "EMAIL_USER";
         mail_to := "storemf69@gmail.com";
         mail_subject := "New Payment Received";
         mail_headers := [];
         mail_html := html |}.

Definition legacy_sendPaymentConfirmation (paymentData : JsValue) : IO bool :=
  fields <- destructure "serverProvider" "paymentData" paymentData ;;
  let serverProvider := prop "serverProvider" fields in
  let username := prop "username" fields in
  let amount := prop "amount" fields in
  let paymentId := prop "paymentId" fields in
  try_catch
    (mail <- legacy_mailOptions serverProvider username amount paymentId ;;
     external (SendMail mail) (transporter_sendMail W mail) ;;
     emit (ConsoleLog "Payment confirmation email sent to exmarine@gmail.com" []) ;;
     ret true)
    (fun error =>
       emit (ConsoleError "Error sending payment confirmation email:" (Some error)) ;;
       ret false).

(** [sendEmail(to, subject, html)], for string arguments. *)
Definition sendEmail (to subject html : string) : IO bool :=
  try_catch
    (let mail :=
       {| mail_from := process_env W "EMAIL_USER";
          mail_to := to;
          mail_subject := subject;
          mail_headers := [];
          mail_html := html |} in
     external (SendMail mail) (transporter_sendMail W mail) ;;
     ret true)
    (fun error =>
       emit (ConsoleError "Email sending error:" (Some error)) ;;
       ret false).

End OtherRoutes.

(** The retrieval requests sent to the processor in a trace. *)
Definition retrieve_calls (t : list Effect) : list (string * list string) :=
  flat_map (fun e => match e with
                     | StripeSessionsRetrieve i x => [(i, x)]
                     | _ => []
                     end) t.

(** The lines written to the console in a trace. *)
Definition log_lines (t : list Effect) : list string :=
  flat_map (fun e => match e with
                     | ConsoleLog text _ | ConsoleError text _ => [text]
                     | _ => []
                     end) t.

(** The properties a destructuring pattern can read from a value that
    is neither [undefined] nor [null]. *)
Definition properties_of (v : JsValue) : JsObject :=
  match v with
  | VObject fields => fields
  | _ => []
  end.

(** The payment data of which the notification can be built:
    [paymentId] is a string, and [serverProvider], [username] and
    [amount] convert to strings. *)
Definition notifiable (h : Host) (fields : JsObject) : Prop :=
  (exists s, prop "paymentId" fields = VString s)
  /\ (exists p, ToString h (prop "serverProvider" fields) = inr p)
  /\ (exists u, ToString h (prop "username" fields) = inr u)
  /\ (exists a, ToString h (prop "amount" fields) = inr a).

(** Rounding half up at the third decimal, as a rule on decimal
    numerals: the cents of an amount of [t] thousandths. *)
Definition round_half_up_cents (t : Z) : Z := (t + 5) / 10.

(** A value that is [null] or a non-empty string: what [x || null] leaves
    of a string-valued property. *)
Definition null_or_text (v : JsValue) : Prop :=
  v = VNull \/ exists s, v = VString s /\ s <> "".

(** ** Worlds with failures *)

Module Outage.

Definition processor_down : JsError :=
  {| err_name := "StripeConnectionError";
     err_type := VString "StripeConnectionError";
     err_message := "An error occurred with our connection to Stripe." |}.

(** The world of [Sample] with a processor that cannot be reached. *)
Definition world_processor_down : World :=
  {| host := host Sample.world;
     environment := environment Sample.world;
     stripe_webhooks_constructEvent :=
       stripe_webhooks_constructEvent Sample.world;
     stripe_checkout_sessions_create := fun _ => inl processor_down;
     stripe_checkout_sessions_retrieve := fun _ _ => inl processor_down;
     transporter_sendMail := transporter_sendMail Sample.world |}.

(** The world of [Sample] without the [FRONTEND_URL] variable. *)
Definition world_no_frontend : World :=
  {| host := host Sample.world;
     environment := fun k =>
       if (k =? "FRONTEND_URL")%string then None
       else environment Sample.world k;
     stripe_webhooks_constructEvent :=
       stripe_webhooks_constructEvent Sample.world;
     stripe_checkout_sessions_create :=
       stripe_checkout_sessions_create Sample.world;
     stripe_checkout_sessions_retrieve :=
       stripe_checkout_sessions_retrieve Sample.world;
     transporter_sendMail := transporter_sendMail Sample.world |}.

(** A paid session whose customer and payment intent are disclosed. *)
Definition disclosed_session : Session :=
  {| sess_id := "cs_test_a1b2c3d4e5";
     sess_url := None;
     payment_status := "paid";
     amount_total := Some 2599;
     metadata := Some [];
     customer_details := Some {| email := Some "p1@example.org"; name := Some "" |};
     payment_intent :=
       Some {| pi_id := "pi_3Nabc";
               payment_method_types := Some ["card"];
               charges := Some [{| receipt_url := None |}] |} |}.

(** A world whose processor knows [disclosed_session] under every id. *)
Definition world_disclosed : World :=
  {| host := host Sample.world;
     environment := environment Sample.world;
     stripe_webhooks_constructEvent :=
       stripe_webhooks_constructEvent Sample.world;
     stripe_checkout_sessions_create := fun _ => inr disclosed_session;
     stripe_checkout_sessions_retrieve := fun _ _ => inr disclosed_session;
     transporter_sendMail := transporter_sendMail Sample.world |}.

(** [session.currency] of the sample sessions. *)
Definition usd (_ : Session) : JsValue := VString "usd".

(** The JSON value [{"toString": 1}], which cannot be converted to a
    string. *)
Definition unprintable : JsValue := VObject [("toString", VNumber (of_Z 1))].

(** A paid session whose metadata is [null]. *)
Definition bare_session : Session :=
  {| sess_id := "cs_test_f6g7h8i9j0";
     sess_url := None;
     payment_status := "paid";
     amount_total := Some 2599;
     metadata := None;
     customer_details := None;
     payment_intent := None |}.

(** The world of [Sample] in which the signed event announces
    [bare_session]. *)
Definition world_bare : World :=
  {| host := host Sample.world;
     environment := environment Sample.world;
     stripe_webhooks_constructEvent := fun _ sig _ =>
       if strict_eq_string sig "t=1,v1=good"
       then inr {| ev_type := "checkout.session.completed";
                   ev_data_object := bare_session |}
       else inl Sample.bad_signature;
     stripe_checkout_sessions_create :=
       stripe_checkout_sessions_create Sample.world;
     stripe_checkout_sessions_retrieve :=
       stripe_checkout_sessions_retrieve Sample.world;
     transporter_sendMail := transporter_sendMail Sample.world |}.

End Outage.

(* ================================================================= *)
(** ** Rounding and decimal numerals: what is proved about them *)

(** The mantissa [m] and the location [l] handed to [binary_round_aux]
    stand for the quotient [N / D]: [m] is its integer part and [l] says
    where the remainder lies with respect to one half. *)

Definition loc_of (r d : Z) : location :=
  if r =? 0 then loc_Exact else loc_Inexact (2 * r ?= d).

Definition bracket (rec : shr_record) (N D : Z) : Prop :=
  0 < D /\ 0 <= N
  /\ shr_m rec = N / D
  /\ loc_of_shr_record rec = loc_of (N mod D) D.

(** The value [digits] accumulates along a decimal numeral. *)
Fixpoint uint_acc (d : Decimal.uint) (acc : Z) : Z :=
  match d with
  | Decimal.Nil => acc
  | Decimal.D0 d => uint_acc d (10 * acc + 0)
  | Decimal.D1 d => uint_acc d (10 * acc + 1)
  | Decimal.D2 d => uint_acc d (10 * acc + 2)
  | Decimal.D3 d => uint_acc d (10 * acc + 3)
  | Decimal.D4 d => uint_acc d (10 * acc + 4)
  | Decimal.D5 d => uint_acc d (10 * acc + 5)
  | Decimal.D6 d => uint_acc d (10 * acc + 6)
  | Decimal.D7 d => uint_acc d (10 * acc + 7)
  | Decimal.D8 d => uint_acc d (10 * acc + 8)
  | Decimal.D9 d => uint_acc d (10 * acc + 9)
  end.

Definition starts_with_digit (s : string) : bool :=
  match s with
  | String c _ => is_digit c
  | EmptyString => false
  end.

(* ================================================================= *)
(** ** Properties *)

(** *** Strings *)

Lemma prefix_app (p s : string) :
  prefix p s = true <-> exists post, s = p ++ post.
Proof.
  revert s. induction p as [| a p IH]; intros s; simpl.
  - destruct s; split; intros _; try reflexivity; eexists; reflexivity.
  - destruct s as [| b s].
    + split; [discriminate | intros [post H]; discriminate].
    + simpl. destruct (ascii_dec a b) as [-> | Hab].
      * rewrite IH. split; intros [post H]; exists post.
        -- now rewrite H.
        -- now inversion H.
      * split; [discriminate | intros [post H]; inversion H; congruence].
Qed.

(** [includes] finds the pattern exactly when it occurs somewhere. *)
Lemma includes_occurs (pat s : string) :
  includes pat s = true <-> exists pre post, s = pre ++ pat ++ post.
Proof.
  unfold includes.
  assert (H : (exists i, index 0 pat s = Some i)
              <-> exists pre post, s = pre ++ pat ++ post).
  { induction s as [| b s IH].
    - simpl. destruct pat as [| a pat]; split.
      + intros _. exists "", "". reflexivity.
      + intros _. exists 0%nat. reflexivity.
      + intros [i H]. discriminate.
      + intros [pre [post H]]. destruct pre; discriminate.
    - change (index 0 pat (String b s))
        with (if prefix pat (String b s) then Some 0%nat
              else match index 0 pat s with
                   | Some n => Some (S n)
                   | None => None
                   end).
      destruct (prefix pat (String b s)) eqn:Hp.
      + split; [intros _ | intros _; eexists; reflexivity].
        apply prefix_app in Hp. destruct Hp as [post Hp].
        exists "", post. exact Hp.
      + split.
        * intros [i Hi]. destruct (index 0 pat s) as [j |] eqn:Hj; [| discriminate].
          destruct (proj1 IH (ex_intro _ j eq_refl)) as [pre [post H]].
          exists (String b pre), post. simpl. now rewrite H.
        * intros [pre [post H]]. destruct pre as [| c pre].
          -- simpl in H. assert (Ht : prefix pat (String b s) = true)
               by (apply prefix_app; exists post; exact H).
             congruence.
          -- simpl in H. inversion H; subst.
             destruct (proj2 IH (ex_intro _ pre (ex_intro _ post eq_refl))) as [j Hj].
             rewrite Hj. eexists; reflexivity. }
  destruct (index 0 pat s) as [i |].
  - split; [intros _; apply H; eexists; reflexivity | reflexivity].
  - split; [discriminate |].
    intros Hex. apply H in Hex. destruct Hex as [i Hi]. discriminate.
Qed.

(** *** Conversions to strings *)

(** An environment variable always converts: it is a string or
    [undefined]. *)
Lemma ToString_process_env h W k :
  ToString h (process_env W k)
  = inr (match environment W k with Some s => s | None => "undefined" end).
Proof. unfold process_env. destruct (environment W k); reflexivity. Qed.

Lemma VString_dec (v : JsValue) : {s | v = VString s} + {forall s, v <> VString s}.
Proof.
  destruct v; try (right; intros s0; discriminate).
  left. eexists. reflexivity.
Qed.

Lemma notifiable_dec h fields : {notifiable h fields} + {~ notifiable h fields}.
Proof.
  unfold notifiable.
  destruct (VString_dec (prop "paymentId" fields)) as [[s Hs] | Hn];
    [| right; intros [[s Hs] _]; exact (Hn s Hs)].
  destruct (ToString h (prop "serverProvider" fields)) as [e | p];
    [right; intros [_ [[p Hp] _]]; discriminate |].
  destruct (ToString h (prop "username" fields)) as [e | u];
    [right; intros [_ [_ [[u Hu] _]]]; discriminate |].
  destruct (ToString h (prop "amount" fields)) as [e | a];
    [right; intros [_ [_ [_ [a Ha]]]]; discriminate |].
  left. repeat split; eexists; (eassumption || reflexivity).
Qed.

(** *** The Notification Sender *)

(** The message built from printable fields and a string [paymentId]. *)
Lemma mailOptions_built W sp un amount s p u a :
  ToString (host W) sp = inr p ->
  ToString (host W) un = inr u ->
  ToString (host W) amount = inr a ->
  mailOptions W sp un amount (VString s)
  = (Normal
       {| mail_from := process_env W "EMAIL_USER";
          mail_to := "storemf69@gmail.com";
          mail_subject :=
            "New Payment Received - " ++ p ++ " - " ++ u
            ++ " - ID: " ++ substring 0 8 s;
          mail_headers :=
            [("X-Transaction-ID", VString s);
             ("Message-ID", VString ("<payment-" ++ s ++ "@bigwin.gold>"))];
          mail_html :=
            html_text (toFixed2 (host W) (parseFloat_string a)) p u s
              (Date_toLocaleString (host W))
              ["            <p>Transaction Reference: " ++ s ++ "</p>"] |},
     []).
Proof.
  intros Hp Hu Ha. unfold mailOptions, payment_html, to_string, parseFloat.
  rewrite Hp, Hu, Ha. reflexivity.
Qed.

(** No message is built from any other payment data: the first step that
    cannot be taken throws. *)
Lemma mailOptions_unbuilt W fields :
  ~ notifiable (host W) fields ->
  exists e,
    mailOptions W (prop "serverProvider" fields) (prop "username" fields)
      (prop "amount" fields) (prop "paymentId" fields)
    = (Throw e, []).
Proof.
  intros Hn. unfold mailOptions, payment_html, to_string, parseFloat.
  destruct (ToString (host W) (prop "serverProvider" fields)) as [e | p] eqn:Hp;
    [eexists; reflexivity |].
  destruct (ToString (host W) (prop "username" fields)) as [e | u] eqn:Hu;
    [eexists; reflexivity |].
  destruct (prop "paymentId" fields) as [| | b | n | s | l | o] eqn:Hid;
    try (eexists; reflexivity).
  destruct (ToString (host W) (prop "amount" fields)) as [e | a] eqn:Ha;
    [eexists; reflexivity |].
  exfalso. apply Hn. repeat split; eexists; (eassumption || reflexivity).
Qed.

(** The run of the sender on an object, by whether the message is
    built. *)
Lemma sendPaymentConfirmation_sent W fields mail :
  mailOptions W (prop "serverProvider" fields) (prop "username" fields)
    (prop "amount" fields) (prop "paymentId" fields)
  = (Normal mail, []) ->
  sendPaymentConfirmation W (VObject fields)
  = match transporter_sendMail W mail with
    | inr _ =>
        (Normal true,
         [SendMail mail;
          ConsoleLog "Payment confirmation email sent to storemf69@gmail.com" []])
    | inl err =>
        (Normal false,
         [SendMail mail;
          ConsoleError "Error sending payment confirmation email:" (Some err)])
    end.
Proof.
  intros H. unfold sendPaymentConfirmation. cbn [destructure].
  unfold bind at 1. cbn [ret]. rewrite H. unfold external.
  cbn [bind emit app].
  destruct (transporter_sendMail W mail) as [err | []]; reflexivity.
Qed.

Lemma sendPaymentConfirmation_unsent W fields e :
  mailOptions W (prop "serverProvider" fields) (prop "username" fields)
    (prop "amount" fields) (prop "paymentId" fields)
  = (Throw e, []) ->
  sendPaymentConfirmation W (VObject fields)
  = (Normal false,
     [ConsoleError "Error sending payment confirmation email:" (Some e)]).
Proof.
  intros H. unfold sendPaymentConfirmation. cbn [destructure].
  unfold bind at 1. cbn [ret]. rewrite H. reflexivity.
Qed.

(** A string, a number, a boolean or an array is read as an object
    without properties. *)
Lemma sendPaymentConfirmation_properties_of W paymentData :
  paymentData <> VUndefined -> paymentData <> VNull ->
  sendPaymentConfirmation W paymentData
  = sendPaymentConfirmation W (VObject (properties_of paymentData)).
Proof.
  intros Hu Hn. destruct paymentData; try reflexivity; contradiction.
Qed.

(** What the sender does with payment data of which the message can be
    built. *)
Lemma sendPaymentConfirmation_notifiable W fields :
  notifiable (host W) fields ->
  exists s p u mail,
    prop "paymentId" fields = VString s
    /\ ToString (host W) (prop "serverProvider" fields) = inr p
    /\ ToString (host W) (prop "username" fields) = inr u
    /\ mail_to mail = "storemf69@gmail.com"
    /\ mail_from mail = process_env W "EMAIL_USER"
    /\ mail_subject mail
       = "New Payment Received - " ++ p ++ " - " ++ u
         ++ " - ID: " ++ substring 0 8 s
    /\ mail_headers mail
       = [("X-Transaction-ID", VString s);
          ("Message-ID", VString ("<payment-" ++ s ++ "@bigwin.gold>"))]
    /\ sendPaymentConfirmation W (VObject fields)
       = match transporter_sendMail W mail with
         | inr _ =>
             (Normal true,
              [SendMail mail;
               ConsoleLog "Payment confirmation email sent to storemf69@gmail.com" []])
         | inl err =>
             (Normal false,
              [SendMail mail;
               ConsoleError "Error sending payment confirmation email:" (Some err)])
         end.
Proof.
  intros [[s Hs] [[p Hp] [[u Hu] [a Ha]]]].
  pose proof (mailOptions_built W _ _ _ s p u a Hp Hu Ha) as Hb.
  exists s, p, u.
  match type of Hb with _ = (Normal ?m, _) => exists m end.
  split; [exact Hs |]. split; [exact Hp |]. split; [exact Hu |].
  repeat (split; [reflexivity |]).
  apply sendPaymentConfirmation_sent.
  rewrite Hs. exact Hb.
Qed.

Lemma sendPaymentConfirmation_not_notifiable W fields :
  ~ notifiable (host W) fields ->
  exists e,
    sendPaymentConfirmation W (VObject fields)
    = (Normal false,
       [ConsoleError "Error sending payment confirmation email:" (Some e)]).
Proof.
  intros Hn. destruct (mailOptions_unbuilt W fields Hn) as [e He].
  exists e. apply sendPaymentConfirmation_unsent. exact He.
Qed.

Lemma sendPaymentConfirmation_no_reentry W paymentData :
  sender_calls (trace (sendPaymentConfirmation W paymentData)) = [].
Proof.
  destruct paymentData as [| | b | n | s | l | fields]; try reflexivity.
  destruct (notifiable_dec (host W) fields) as [Hy | Hn].
  - destruct (sendPaymentConfirmation_notifiable W fields Hy)
      as (s & p & u & mail & _ & _ & _ & _ & _ & _ & _ & ->).
    destruct (transporter_sendMail W mail); reflexivity.
  - destruct (sendPaymentConfirmation_not_notifiable W fields Hn) as [e ->].
    reflexivity.
Qed.

(** C9, as amended.  For every payment data other than [undefined] and
    [null], and every behaviour of the mail transport,
    [sendPaymentConfirmation] completes normally with a boolean and never
    throws.  When the message can be built ([paymentId] is a string, the
    other fields convert to strings) exactly one message is handed to the
    transport, and the result is [true] when that send succeeds and
    [false] when it throws.  Otherwise the transport is not reached and
    the result is [false]. *)
Theorem sendPaymentConfirmation_returns_boolean :
  forall (W : World) (paymentData : JsValue),
    paymentData <> VUndefined ->
    paymentData <> VNull ->
    let run := sendPaymentConfirmation W paymentData in
    let fields := properties_of paymentData in
    (notifiable (host W) fields
     /\ exists mail,
          mail_calls (trace run) = [mail]
          /\ completion run
             = Normal (match transporter_sendMail W mail with
                       | inr _ => true
                       | inl _ => false
                       end))
    \/ (~ notifiable (host W) fields
        /\ mail_calls (trace run) = []
        /\ completion run = Normal false).
Proof.
  intros W paymentData Hu Hn run fields. subst run fields.
  rewrite (sendPaymentConfirmation_properties_of W paymentData Hu Hn).
  set (fields := properties_of paymentData).
  destruct (notifiable_dec (host W) fields) as [Hy | Hno].
  - left. split; [exact Hy |].
    destruct (sendPaymentConfirmation_notifiable W fields Hy)
      as (s & p & u & mail & _ & _ & _ & _ & _ & _ & _ & ->).
    exists mail.
    destruct (transporter_sendMail W mail) eqn:E; split; reflexivity.
  - right. split; [exact Hno |].
    destruct (sendPaymentConfirmation_not_notifiable W fields Hno) as [e ->].
    split; reflexivity.
Qed.

(** The payment data of the sample session, with a working transport:
    one message, result [true]. *)
Lemma sendPaymentConfirmation_returns_boolean_witness :
  let paymentData :=
    VObject [("serverProvider", VString "Orion");
             ("username", VString "player1");
             ("amount", VNumber (div (of_Z 2599) (of_Z 100)));
             ("paymentId", VString "cs_test_a1b2c3d4e5")] in
  let run := sendPaymentConfirmation Sample.world paymentData in
  let fields := properties_of paymentData in
  (notifiable Sample.sample_host fields
   /\ exists mail,
        mail_calls (trace run) = [mail]
        /\ completion run
           = Normal (match transporter_sendMail Sample.world mail with
                     | inr _ => true
                     | inl _ => false
                     end))
  \/ (~ notifiable Sample.sample_host fields
      /\ mail_calls (trace run) = []
      /\ completion run = Normal false).
Proof.
  apply (sendPaymentConfirmation_returns_boolean Sample.world
           (VObject [("serverProvider", VString "Orion");
                     ("username", VString "player1");
                     ("amount", VNumber (div (of_Z 2599) (of_Z 100)));
                     ("paymentId", VString "cs_test_a1b2c3d4e5")]));
    discriminate.
Defined.

(** C9, the claim at [null].  The parameter is destructured before the
    [try]: for [null] (and for [undefined]) the TypeError leaves the
    function, and no boolean is returned. *)
Lemma sendPaymentConfirmation_null_throws :
  completion (sendPaymentConfirmation Sample.world VNull)
  = Throw (TypeError
      "Cannot destructure property 'serverProvider' of 'paymentData' as it is null.")
  /\ ~ (exists b : bool,
         completion (sendPaymentConfirmation Sample.world VNull) = Normal b).
Proof. split; [reflexivity | intros [b H]; discriminate H]. Qed.

(** With a transport that throws, the sender returns [false]. *)
Example sendPaymentConfirmation_smtp_down :
  completion (sendPaymentConfirmation Sample.world_smtp_down
                (VObject (confirmation_of Sample.paid_session
                            [("username", VString "player1");
                             ("serverProvider", VString "Orion")])))
  = Normal false.
Proof. vm_compute. reflexivity. Qed.

Example sendPaymentConfirmation_smtp_up :
  completion (sendPaymentConfirmation Sample.world
                (VObject (confirmation_of Sample.paid_session
                            [("username", VString "player1");
                             ("serverProvider", VString "Orion")])))
  = Normal true.
Proof. vm_compute. reflexivity. Qed.

(** Each field that cannot be printed keeps the message from being
    sent. *)
Example sendPaymentConfirmation_unprintable_username :
  sendPaymentConfirmation Sample.world
    (VObject [("serverProvider", VString "Orion");
              ("username", Outage.unprintable);
              ("amount", VNumber (of_Z 25));
              ("paymentId", VString "cs_test_a1b2c3d4e5")])
  = (Normal false,
     [ConsoleError "Error sending payment confirmation email:"
        (Some (TypeError "Cannot convert object to primitive value"))]).
Proof. vm_compute. reflexivity. Qed.

(** *** The webhook *)

Lemma sender_calls_app (t u : list Effect) :
  sender_calls (t ++ u) = (sender_calls t ++ sender_calls u)%list.
Proof. apply flat_map_app. Qed.

(** The run of the handler on a verified event, for any sender. *)
Lemma handleWebhook_with_verified W sender req event :
  stripe_webhooks_constructEvent W (raw_body req)
    (prop "stripe-signature" (headers req))
    (process_env W "STRIPE_WEBHOOK_SECRET") = inr event ->
  handleWebhook_with W sender req
  = (Normal send_empty,
     if ((ev_type event =? "checkout.session.completed")
         && (payment_status (ev_data_object event) =? "paid"))%string
     then
       match metadata (ev_data_object event) with
       | Some fields =>
           let paymentData := confirmation_of (ev_data_object event) fields in
           (SenderInvoked paymentData :: trace (sender paymentData)
            ++ [match completion (sender paymentData) with
                | Normal _ =>
                    ConsoleLog ("Payment confirmation email sent for payment: "
                                ++ sess_id (ev_data_object event)) []
                | Throw e => ConsoleError "Error processing webhook:" (Some e)
                end])%list
       | None =>
           [ConsoleError "Error processing webhook:"
              (Some (TypeError
                 "Cannot destructure property 'username' of 'session.metadata' as it is null."))]
       end
     else []).
Proof.
  intros Hev. unfold handleWebhook_with. rewrite Hev.
  destruct (ev_type event =? "checkout.session.completed")%string; [| reflexivity].
  destruct (payment_status (ev_data_object event) =? "paid")%string; [| reflexivity].
  cbn [andb]. unfold session_metadata.
  destruct (metadata (ev_data_object event)) as [fields |]; [| reflexivity].
  cbn [destructure]. unfold invoke_sender, completion, trace.
  cbn [bind ret emit app].
  destruct (sender (confirmation_of (ev_data_object event) fields)) as [[b | e] t];
    cbn; rewrite ?app_nil_r; reflexivity.
Qed.

(** C1, as amended.  A webhook request whose signature verifies, whose
    event type is ['checkout.session.completed'], whose session is
    ['paid'] and whose session metadata is an object invokes the
    Notification Sender exactly once, with the metadata's
    [serverProvider] and [username], the session id as [paymentId], and
    [amount_total / 100] as [amount]. *)
Theorem handleWebhook_paid_session_notifies_once :
  forall (W : World) (req : WebhookRequest) (event : Event) (fields : JsObject),
    stripe_webhooks_constructEvent W (raw_body req)
      (prop "stripe-signature" (headers req))
      (process_env W "STRIPE_WEBHOOK_SECRET") = inr event ->
    ev_type event = "checkout.session.completed" ->
    payment_status (ev_data_object event) = "paid" ->
    metadata (ev_data_object event) = Some fields ->
    let session := ev_data_object event in
    sender_calls (trace (handleWebhook W req))
    = [ [("serverProvider", prop "serverProvider" fields);
         ("username", prop "username" fields);
         ("amount", VNumber (div (amount_total_number session) (of_Z 100)));
         ("paymentId", VString (sess_id session))] ].
Proof.
  intros W req event fields Hev Hty Hpaid Hmeta session.
  unfold handleWebhook.
  rewrite (handleWebhook_with_verified W _ req event Hev).
  rewrite Hty, Hpaid, Hmeta. cbn [String.eqb Ascii.eqb Bool.eqb andb trace snd].
  cbn zeta. cbn [sender_calls flat_map app].
  rewrite sender_calls_app, sendPaymentConfirmation_no_reentry.
  destruct (completion _); reflexivity.
Qed.

Lemma handleWebhook_paid_session_notifies_once_witness :
  sender_calls (trace (handleWebhook Sample.world Sample.signed_webhook))
  = [ [("serverProvider", VString "Orion");
       ("username", VString "player1");
       ("amount", VNumber (div (of_Z 2599) (of_Z 100)));
       ("paymentId", VString "cs_test_a1b2c3d4e5")] ].
Proof.
  exact (handleWebhook_paid_session_notifies_once
           Sample.world Sample.signed_webhook
           {| ev_type := "checkout.session.completed";
              ev_data_object := Sample.paid_session |}
           [("requestId", VString "9f3c");
            ("userIp", VString "10.0.0.1");
            ("username", VString "player1");
            ("serverProvider", VString "Orion")]
           eq_refl eq_refl eq_refl eq_refl).
Defined.

(** C1, the claim at a session without metadata.  The signature
    verifies, the event is a paid ['checkout.session.completed'], and the
    Notification Sender is not invoked: reading the properties of [null]
    throws inside the [try], which is logged. *)
Lemma handleWebhook_null_metadata_not_notified :
  exists event,
    stripe_webhooks_constructEvent Outage.world_bare
      (raw_body Sample.signed_webhook)
      (prop "stripe-signature" (headers Sample.signed_webhook))
      (process_env Outage.world_bare "STRIPE_WEBHOOK_SECRET") = inr event
    /\ ev_type event = "checkout.session.completed"
    /\ payment_status (ev_data_object event) = "paid"
    /\ sender_calls (trace (handleWebhook Outage.world_bare Sample.signed_webhook))
       = []
    /\ handleWebhook Outage.world_bare Sample.signed_webhook
       = (Normal {| status := 200; body := BodyEmpty |},
          [ConsoleError "Error processing webhook:"
             (Some (TypeError
                "Cannot destructure property 'username' of 'session.metadata' as it is null."))]).
Proof.
  eexists. split; [reflexivity |]. repeat split.
Qed.

(** An [amount_total] of 2599 minor units is passed on as 25.99. *)
Example amount_2599_is_25_99 :
  div (amount_total_number Sample.paid_session) (of_Z 100)
  = parseFloat_string "25.99".
Proof. vm_compute. reflexivity. Qed.

(** C2. A webhook request whose signature does not verify is answered
    with 400 and the failure reason; the Notification Sender is not
    invoked and nothing leaves the process: the only thing done before
    the response is one line on the error log.  This holds whatever the
    sender is. *)
Theorem handleWebhook_bad_signature_400 :
  forall (W : World) (sender : JsObject -> IO bool)
         (req : WebhookRequest) (err : JsError),
    stripe_webhooks_constructEvent W (raw_body req)
      (prop "stripe-signature" (headers req))
      (process_env W "STRIPE_WEBHOOK_SECRET") = inl err ->
    let run := handleWebhook_with W sender req in
    completion run
    = Normal {| status := 400;
                body := BodyText ("Webhook Error: " ++ err_message err) |}
    /\ sender_calls (trace run) = []
    /\ filter is_external_call (trace run) = []
    /\ trace run
       = [ConsoleError
            ("Webhook signature verification failed: " ++ err_message err) None].
Proof.
  intros W sender req err Hsig run. subst run.
  unfold handleWebhook_with. rewrite Hsig.
  repeat split.
Qed.

Lemma handleWebhook_bad_signature_400_witness :
  let run := handleWebhook Sample.world Sample.forged_webhook in
  completion run
  = Normal {| status := 400;
              body := BodyText ("Webhook Error: "
                                ++ err_message Sample.bad_signature) |}
  /\ sender_calls (trace run) = []
  /\ filter is_external_call (trace run) = []
  /\ trace run
     = [ConsoleError
          ("Webhook signature verification failed: "
           ++ err_message Sample.bad_signature) None].
Proof.
  exact (handleWebhook_bad_signature_400
           Sample.world
           (fun paymentData =>
              sendPaymentConfirmation Sample.world (VObject paymentData))
           Sample.forged_webhook Sample.bad_signature eq_refl).
Defined.

(** C3. A webhook request whose signature verifies is answered with 200,
    whatever the event type and whatever the Notification Sender does
    (return [true], return [false] or throw).  An event of another type,
    or a session that is not paid, causes no effect at all; a sender that
    throws is caught and only logged, and so is a session whose metadata
    is [null], for which the sender is not invoked. *)
Theorem handleWebhook_verified_always_200 :
  forall (W : World) (sender : JsObject -> IO bool)
         (req : WebhookRequest) (event : Event),
    stripe_webhooks_constructEvent W (raw_body req)
      (prop "stripe-signature" (headers req))
      (process_env W "STRIPE_WEBHOOK_SECRET") = inr event ->
    let run := handleWebhook_with W sender req in
    let session := ev_data_object event in
    completion run = Normal {| status := 200; body := BodyEmpty |}
    /\ trace run
       = if ((ev_type event =? "checkout.session.completed")
             && (payment_status session =? "paid"))%string
         then
           match metadata session with
           | Some fields =>
               let paymentData := confirmation_of session fields in
               (SenderInvoked paymentData :: trace (sender paymentData)
                ++ [match completion (sender paymentData) with
                    | Normal _ =>
                        ConsoleLog ("Payment confirmation email sent for payment: "
                                    ++ sess_id session) []
                    | Throw e => ConsoleError "Error processing webhook:" (Some e)
                    end])%list
           | None =>
               [ConsoleError "Error processing webhook:"
                  (Some (TypeError
                     "Cannot destructure property 'username' of 'session.metadata' as it is null."))]
           end
         else [].
Proof.
  intros W sender req event Hev run session.
  subst run session.
  rewrite (handleWebhook_with_verified W sender req event Hev).
  split; reflexivity.
Qed.

(** A sender that throws on every call. *)
Lemma handleWebhook_verified_always_200_witness :
  let sender := fun _ : JsObject => @throw bool Sample.smtp_down in
  let run := handleWebhook_with Sample.world sender Sample.signed_webhook in
  let paymentData :=
    [("serverProvider", VString "Orion");
     ("username", VString "player1");
     ("amount", VNumber (div (of_Z 2599) (of_Z 100)));
     ("paymentId", VString "cs_test_a1b2c3d4e5")] in
  completion run = Normal {| status := 200; body := BodyEmpty |}
  /\ trace run
     = [SenderInvoked paymentData;
        ConsoleError "Error processing webhook:" (Some Sample.smtp_down)].
Proof.
  exact (handleWebhook_verified_always_200
           Sample.world (fun _ => throw Sample.smtp_down) Sample.signed_webhook
           {| ev_type := "checkout.session.completed";
              ev_data_object := Sample.paid_session |}
           eq_refl).
Defined.

(** An unrelated event type: acknowledged, nothing else happens. *)
Lemma handleWebhook_unrelated_event W sender req event :
  stripe_webhooks_constructEvent W (raw_body req)
    (prop "stripe-signature" (headers req))
    (process_env W "STRIPE_WEBHOOK_SECRET") = inr event ->
  ev_type event <> "checkout.session.completed" ->
  handleWebhook_with W sender req = (Normal send_empty, []).
Proof.
  intros Hev Hty.
  rewrite (handleWebhook_with_verified W sender req event Hev).
  apply String.eqb_neq in Hty. rewrite Hty. reflexivity.
Qed.

(** *** POST /checkout *)

(** The argument of the processor call: it is built when
    [serverProvider] and [username] convert to strings, and the first
    conversion that fails throws. *)
Lemma checkout_params_cases W req sp un a :
  (exists e,
     checkout_params W req sp un a = (Throw e, [])
     /\ (ToString (host W) sp = inl e
         \/ (exists p, ToString (host W) sp = inr p)
            /\ ToString (host W) un = inl e))
  \/ (exists p u,
        ToString (host W) sp = inr p
        /\ ToString (host W) un = inr u
        /\ checkout_params W req sp un a
           = (Normal
                {| line_items :=
                     [{| currency := "usd";
                         product_name := "Game: " ++ p ++ " - Username: " ++ u;
                         product_metadata :=
                           [("requestId", VString (req_id req));
                            ("userIp",
                             VString (remove_first "::ffff:" (req_ip req)));
                            ("username", un);
                            ("serverProvider", sp)];
                         unit_amount := Math_round (mul a (of_Z 100));
                         quantity := 1 |}];
                   mode := "payment";
                   cp_metadata :=
                     [("requestId", VString (req_id req));
                      ("userIp", VString (remove_first "::ffff:" (req_ip req)));
                      ("username", un);
                      ("serverProvider", sp)];
                   allowed_countries := ["US"; "BR"; "CA"];
                   success_url :=
                     match environment W "FRONTEND_URL" with
                     | Some s => s
                     | None => "undefined"
                     end ++ "/payment-success?session_id={CHECKOUT_SESSION_ID}";
                   cancel_url :=
                     match environment W "FRONTEND_URL" with
                     | Some s => s
                     | None => "undefined"
                     end ++ "/payment-cancel";
                   locale := "en";
                   expires_at :=
                     add (Math_floor (div (of_Z (Date_now (host W))) (of_Z 1000)))
                         (mul (of_Z 30) (of_Z 60)) |},
              [])).
Proof.
  unfold checkout_params, to_string.
  rewrite ToString_process_env.
  destruct (ToString (host W) sp) as [e | p] eqn:Hp.
  - left. exists e. split; [reflexivity | left; reflexivity].
  - destruct (ToString (host W) un) as [e | u] eqn:Hu.
    + left. exists e. split; [reflexivity |]. right. split; [eexists |]; reflexivity.
    + right. exists p, u. repeat split.
Qed.

(** The run of the handler, by the outcome of validation, of the
    conversions and of the processor call. *)
Lemma post_checkout_cases W req :
  let sp := prop "serverProvider" (req_body req) in
  let un := prop "username" (req_body req) in
  let amount := prop "amount" (req_body req) in
  let log :=
    ConsoleLog ("[ReqID: " ++ req_id req ++ "] Deposit Data:")
      [VObject [("serverProvider", sp); ("username", un); ("amount", amount)]] in
  let missing :=
    negb (ToBoolean sp) || negb (ToBoolean un) || negb (ToBoolean amount) in
  let failed error :=
    json 500
      [("status", VString "error");
       ("message", VString "An error occurred while processing the payment");
       ("details", error_details W error)] in
  let caught error :=
    ConsoleError ("[ReqID: " ++ req_id req ++ "] Error in /checkout:")
      (Some error) in
  (missing = true
   /\ post_checkout W req
      = (Normal (json 400 (error_body "Missing required fields")), [log]))
  \/ (missing = false
      /\ exists e,
           parseFloat (host W) amount = inl e
           /\ post_checkout W req = (Normal (failed e), [log; caught e]))
  \/ (missing = false
      /\ exists a,
           parseFloat (host W) amount = inr a
           /\ amount_refused a = true
           /\ post_checkout W req
              = (Normal (json 400 (error_body
                   "Invalid amount. Must be a positive number less than 10,000")),
                 [log]))
  \/ (missing = false
      /\ exists a e,
           parseFloat (host W) amount = inr a
           /\ amount_refused a = false
           /\ checkout_params W req sp un a = (Throw e, [])
           /\ post_checkout W req = (Normal (failed e), [log; caught e]))
  \/ (missing = false
      /\ exists a params,
           parseFloat (host W) amount = inr a
           /\ amount_refused a = false
           /\ checkout_params W req sp un a = (Normal params, [])
           /\ post_checkout W req
              = match stripe_checkout_sessions_create W params with
                | inr session =>
                    (Normal (json 200
                               [("status", VString "success");
                                ("url", of_option_string (sess_url session));
                                ("sessionId", VString (sess_id session))]),
                     [log; StripeSessionsCreate params])
                | inl error =>
                    (Normal (failed error),
                     [log; StripeSessionsCreate params; caught error])
                end).
Proof.
  intros sp un amount log missing failed caught.
  unfold post_checkout. cbn zeta. fold sp un amount. fold missing.
  destruct missing eqn:Hm; [left; split; reflexivity | right].
  destruct (parseFloat (host W) amount) as [e | a] eqn:Hpf.
  { left. split; [reflexivity |]. exists e. split; reflexivity. }
  right. cbn [lift bind ret emit app].
  destruct (amount_refused a) eqn:Hr.
  { left. split; [reflexivity |]. exists a.
    split; [reflexivity |]. split; [exact Hr | reflexivity]. }
  right.
  destruct (checkout_params_cases W req sp un a)
    as [(e & He & _) | (p & u & _ & _ & Hp)].
  - left. split; [reflexivity |]. exists a, e.
    split; [reflexivity |]. split; [exact Hr |]. split; [exact He |].
    rewrite He. reflexivity.
  - right. split; [reflexivity |]. exists a. eexists.
    split; [reflexivity |]. split; [exact Hr |]. split; [exact Hp |].
    rewrite Hp. unfold external. cbn [bind emit app].
    destruct (stripe_checkout_sessions_create W _); reflexivity.
Qed.

Ltac checkout_cases W req :=
  let H := fresh "H" in
  pose proof (post_checkout_cases W req) as H; cbv zeta in H;
  destruct H as
    [ [Hmissing Hrun]
    | [ [Hmissing (e & Hparse & Hrun)]
      | [ [Hmissing (a & Hparse & Hrefused & Hrun)]
        | [ [Hmissing (a & e & Hparse & Hrefused & Hparams & Hrun)]
          | [Hmissing (a & params & Hparse & Hrefused & Hparams & Hrun)] ] ] ] ].

(** A falsy value is a primitive, and [parseFloat] reads it. *)
Lemma falsy_parses h v :
  ToBoolean v = false -> exists a, parseFloat h v = inr a.
Proof.
  destruct v as [| | [] | n | t | l | o]; cbn; intros H;
    try discriminate; eexists; reflexivity.
Qed.

(** C4, as amended.  A [POST /checkout] request whose amount parses to a
    value [<= 0], to a value [> 10000] or to NaN is answered with 400 and
    a body [{status: 'error', message}].  An amount that cannot be
    parsed because its conversion to a string throws is answered with the
    500 of the [catch] block, whose body is [{status: 'error', message,
    details}], when the other two fields are present, and with the 400
    of a missing field otherwise.  In every one of these cases no call to
    the payment processor, nor any other call out of the process, is
    made. *)
Theorem post_checkout_invalid_amount_400 :
  forall (W : World) (req : CheckoutRequest),
    let serverProvider := prop "serverProvider" (req_body req) in
    let username := prop "username" (req_body req) in
    let amount := prop "amount" (req_body req) in
    (forall a,
       parseFloat (host W) amount = inr a ->
       isNaN a = true \/ leb a (of_Z 0) = true \/ gtb a (of_Z 10000) = true) ->
    exists resp message,
      completion (post_checkout W req) = Normal resp
      /\ ((status resp = 400
           /\ body resp
              = BodyJson (VObject [("status", VString "error");
                                   ("message", VString message)])
           /\ ((exists a, parseFloat (host W) amount = inr a)
               \/ ToBoolean serverProvider = false
               \/ ToBoolean username = false))
          \/ (status resp = 500
              /\ (exists details,
                    body resp
                    = BodyJson (VObject [("status", VString "error");
                                         ("message", VString message);
                                         ("details", VString details)]))
              /\ (exists e, parseFloat (host W) amount = inl e)
              /\ ToBoolean serverProvider = true
              /\ ToBoolean username = true))
      /\ filter is_stripe_call (trace (post_checkout W req)) = []
      /\ filter is_external_call (trace (post_checkout W req)) = [].
Proof.
  intros W req serverProvider username amount Ha.
  subst serverProvider username amount.
  assert (Href : forall a,
             parseFloat (host W) (prop "amount" (req_body req)) = inr a ->
             amount_refused a = true).
  { intros a Hp. unfold amount_refused.
    destruct (Ha a Hp) as [-> | [-> | ->]]; rewrite ?orb_true_r; reflexivity. }
  checkout_cases W req; try (rewrite (Href a Hparse) in Hrefused; discriminate);
    rewrite Hrun; do 2 eexists;
    (split; [reflexivity |]); (split; [| split; reflexivity]).
  - left. split; [reflexivity |]. split; [reflexivity |].
    destruct (ToBoolean (prop "serverProvider" (req_body req))) eqn:E1;
      [| right; left; reflexivity].
    destruct (ToBoolean (prop "username" (req_body req))) eqn:E2;
      [| right; right; reflexivity].
    left. apply falsy_parses. apply negb_true_iff. exact Hmissing.
  - right. split; [reflexivity |]. split.
    + unfold error_details.
      destruct (strict_eq_string _ _); eexists; reflexivity.
    + split; [exists e; exact Hparse |].
      destruct (ToBoolean (prop "serverProvider" (req_body req)));
        [| discriminate].
      destruct (ToBoolean (prop "username" (req_body req))); [| discriminate].
      split; reflexivity.
  - left. split; [reflexivity |]. split; [reflexivity |].
    left. exists a. exact Hparse.
Qed.

Lemma post_checkout_invalid_amount_400_witness :
  let run := post_checkout Sample.world
               (Sample.checkout_request (VString "10000.01")) in
  exists resp message,
    completion run = Normal resp
    /\ ((status resp = 400
         /\ body resp
            = BodyJson (VObject [("status", VString "error");
                                 ("message", VString message)])
         /\ ((exists a,
                parseFloat Sample.sample_host (VString "10000.01") = inr a)
             \/ ToBoolean (VString "Orion") = false
             \/ ToBoolean (VString "player1") = false))
        \/ (status resp = 500
            /\ (exists details,
                  body resp
                  = BodyJson (VObject [("status", VString "error");
                                       ("message", VString message);
                                       ("details", VString details)]))
            /\ (exists e,
                  parseFloat Sample.sample_host (VString "10000.01") = inl e)
            /\ ToBoolean (VString "Orion") = true
            /\ ToBoolean (VString "player1") = true))
    /\ filter is_stripe_call (trace run) = []
    /\ filter is_external_call (trace run) = [].
Proof.
  apply (post_checkout_invalid_amount_400
           Sample.world (Sample.checkout_request (VString "10000.01"))).
  intros a Ha. right; right.
  assert (E : a = parseFloat_string "10000.01") by (cbn in Ha; congruence).
  rewrite E. vm_compute. reflexivity.
Defined.

(** C4, the claim at the amount [{"toString": 1}].  It does not parse as
    a number: [parseFloat] throws while converting it to a string, and
    the response is the 500 of the [catch] block, not a 400. *)
Lemma post_checkout_unprintable_amount_500 :
  let req := Sample.checkout_request Outage.unprintable in
  parseFloat Sample.sample_host (prop "amount" (req_body req))
  = inl (TypeError "Cannot convert object to primitive value")
  /\ completion (post_checkout Sample.world req)
     = Normal {| status := 500;
                 body := BodyJson
                   (VObject
                      [("status", VString "error");
                       ("message",
                        VString "An error occurred while processing the payment");
                       ("details", VString "Internal server error")]) |}.
Proof. split; vm_compute; reflexivity. Qed.

(** Each of the three ways in which an amount is refused, run. *)
Example post_checkout_rejects_zero :
  completion (post_checkout Sample.world (Sample.checkout_request (VString "0")))
  = Normal (json 400 (error_body
      "Invalid amount. Must be a positive number less than 10,000")).
Proof. vm_compute. reflexivity. Qed.

Example post_checkout_rejects_text :
  completion (post_checkout Sample.world (Sample.checkout_request (VString "ten")))
  = Normal (json 400 (error_body
      "Invalid amount. Must be a positive number less than 10,000")).
Proof. vm_compute. reflexivity. Qed.

Example post_checkout_rejects_absent :
  completion (post_checkout Sample.world (Sample.checkout_request VUndefined))
  = Normal (json 400 (error_body "Missing required fields")).
Proof. vm_compute. reflexivity. Qed.

(** White space before the number is skipped, the no-break space
    included, and an array of one numeral reads as that numeral. *)
Example post_checkout_accepts_nbsp_25 :
  create_calls
    (trace (post_checkout Sample.world
              (Sample.checkout_request
                 (VString (String (ascii_of_nat 160) "25")))))
  = create_calls
      (trace (post_checkout Sample.world (Sample.checkout_request (VString "25")))).
Proof. vm_compute. reflexivity. Qed.

Example post_checkout_accepts_array_25 :
  map (fun p => map unit_amount (line_items p))
    (create_calls
       (trace (post_checkout Sample.world
                 (Sample.checkout_request (VArray [VString "25"])))))
  = [[of_Z 2500]].
Proof. vm_compute. reflexivity. Qed.

(** What the argument of the processor call holds, once built. *)
Lemma checkout_params_built W req sp un a params t :
  checkout_params W req sp un a = (Normal params, t) ->
  exists p u,
    ToString (host W) sp = inr p
    /\ ToString (host W) un = inr u
    /\ cp_metadata params
       = [("requestId", VString (req_id req));
          ("userIp", VString (remove_first "::ffff:" (req_ip req)));
          ("username", un);
          ("serverProvider", sp)]
    /\ map product_metadata (line_items params) = [cp_metadata params]
    /\ map product_name (line_items params)
       = ["Game: " ++ p ++ " - Username: " ++ u]
    /\ map unit_amount (line_items params) = [Math_round (mul a (of_Z 100))]
    /\ success_url params
       = match environment W "FRONTEND_URL" with
         | Some s => s
         | None => "undefined"
         end ++ "/payment-success?session_id={CHECKOUT_SESSION_ID}"
    /\ cancel_url params
       = match environment W "FRONTEND_URL" with
         | Some s => s
         | None => "undefined"
         end ++ "/payment-cancel".
Proof.
  intros H.
  destruct (checkout_params_cases W req sp un a)
    as [(e & He & _) | (p & u & Hp & Hu & Hok)]; rewrite H in *; [discriminate |].
  exists p, u. split; [exact Hp |]. split; [exact Hu |].
  inversion Hok; subst. repeat split.
Qed.

Lemma checkout_params_thrown W req sp un a e t :
  checkout_params W req sp un a = (Throw e, t) ->
  ToString (host W) sp = inl e \/ ToString (host W) un = inl e.
Proof.
  intros H.
  destruct (checkout_params_cases W req sp un a)
    as [(e' & He & Hwhy) | (p & u & Hp & Hu & Hok)]; rewrite H in *;
    [| discriminate].
  inversion He; subst. destruct Hwhy as [Hs | [_ Hu]]; auto.
Qed.

(** Requests whose three fields pass the first check, with a string for
    the amount and printable [serverProvider] and [username]: the
    response is decided by the amount and by the processor. *)
Lemma post_checkout_printable W req s p u :
  ToBoolean (prop "serverProvider" (req_body req)) = true ->
  ToBoolean (prop "username" (req_body req)) = true ->
  ToString (host W) (prop "serverProvider" (req_body req)) = inr p ->
  ToString (host W) (prop "username" (req_body req)) = inr u ->
  prop "amount" (req_body req) = VString s ->
  s <> "" ->
  amount_refused (parseFloat_string s) = false ->
  exists log params,
    checkout_params W req (prop "serverProvider" (req_body req))
      (prop "username" (req_body req)) (parseFloat_string s)
    = (Normal params, [])
    /\ (exists text args, log = ConsoleLog text args)
    /\ post_checkout W req
       = match stripe_checkout_sessions_create W params with
         | inr session =>
             (Normal (json 200
                        [("status", VString "success");
                         ("url", of_option_string (sess_url session));
                         ("sessionId", VString (sess_id session))]),
              [log; StripeSessionsCreate params])
         | inl error =>
             (Normal (json 500
                        [("status", VString "error");
                         ("message",
                          VString "An error occurred while processing the payment");
                         ("details", error_details W error)]),
              [log; StripeSessionsCreate params;
               ConsoleError ("[ReqID: " ++ req_id req ++ "] Error in /checkout:")
                 (Some error)])
         end.
Proof.
  intros Hsp Hun Hp Hu Hamount Hne Hok.
  assert (Hpf : parseFloat (host W) (prop "amount" (req_body req))
                = inr (parseFloat_string s))
    by (rewrite Hamount; reflexivity).
  assert (Hm : negb (ToBoolean (prop "serverProvider" (req_body req)))
               || negb (ToBoolean (prop "username" (req_body req)))
               || negb (ToBoolean (prop "amount" (req_body req))) = false).
  { rewrite Hsp, Hun, Hamount. cbn.
    destruct (String.eqb_spec s ""); [contradiction | reflexivity]. }
  checkout_cases W req; try congruence.
  - apply checkout_params_thrown in Hparams. destruct Hparams; congruence.
  - rewrite Hpf in Hparse. inversion Hparse; subst.
    eexists. exists params. split; [exact Hparams |]. split; [| exact Hrun].
    do 2 eexists. reflexivity.
Qed.

(** C5, as amended.  For the amount ["49.995"] the product with 100 is
    exactly the Number 4999.5, [Math.round] takes that tie upwards, and
    the minor-unit amount sent to the processor is 5000. *)
Theorem post_checkout_49_995_is_5000 :
  forall (W : World) (req : CheckoutRequest) (p u : string),
    prop "amount" (req_body req) = VString "49.995" ->
    ToBoolean (prop "serverProvider" (req_body req)) = true ->
    ToBoolean (prop "username" (req_body req)) = true ->
    ToString (host W) (prop "serverProvider" (req_body req)) = inr p ->
    ToString (host W) (prop "username" (req_body req)) = inr u ->
    (exists x,
       parseFloat (host W) (VString "49.995") = inr x
       /\ mul x (of_Z 100) = of_decimal false 49995 (-1))
    /\ Math_round (of_decimal false 49995 (-1)) = of_Z 5000
    /\ exists params,
         create_calls (trace (post_checkout W req)) = [params]
         /\ map unit_amount (line_items params) = [of_Z 5000].
Proof.
  intros W req p u Hamount Hsp Hun Hp Hu.
  split; [eexists; split; [reflexivity | vm_compute; reflexivity] |].
  split; [vm_compute; reflexivity |].
  destruct (post_checkout_printable W req "49.995" p u Hsp Hun Hp Hu Hamount)
    as (log & params & Hparams & (text & args & ->) & Hrun);
    [discriminate | vm_compute; reflexivity |].
  exists params. split.
  - rewrite Hrun. destruct (stripe_checkout_sessions_create W params);
      reflexivity.
  - destruct (checkout_params_built W req _ _ _ _ _ Hparams)
      as (p' & u' & _ & _ & _ & _ & _ & -> & _).
    vm_compute. reflexivity.
Qed.

Lemma post_checkout_49_995_is_5000_witness :
  exists params,
    create_calls (trace (post_checkout Sample.world
                           (Sample.checkout_request (VString "49.995"))))
    = [params]
    /\ map unit_amount (line_items params) = [of_Z 5000].
Proof.
  exact (proj2 (proj2 (post_checkout_49_995_is_5000
                         Sample.world
                         (Sample.checkout_request (VString "49.995"))
                         "Orion" "player1"
                         eq_refl eq_refl eq_refl eq_refl eq_refl))).
Defined.

(** C5, the rule at another boundary.  ["1.005"] times 100 is not 100.5
    but the Number below it: the processor is asked for 100 minor units,
    where rounding half up at the third decimal gives 101. *)
Lemma post_checkout_1_005_is_100 :
  map (fun params => map unit_amount (line_items params))
    (create_calls (trace (post_checkout Sample.world
                            (Sample.checkout_request (VString "1.005")))))
  = [[of_Z 100]]
  /\ round_half_up_cents 1005 = 101
  /\ of_Z 100 <> of_Z (round_half_up_cents 1005).
Proof.
  split; [vm_compute; reflexivity |].
  split; [reflexivity |].
  intros H. vm_compute in H. discriminate H.
Qed.

(** The same for ["0.145"], which gives 14 and not 15. *)
Example round_0_145_is_14 :
  Math_round (mul (parseFloat_string "0.145") (of_Z 100)) = of_Z 14
  /\ round_half_up_cents 145 = 15.
Proof. split; vm_compute; reflexivity. Qed.

(** C6, the code at the amount 10000.  The guard refuses only amounts
    above 10000: for ["10000"] the processor is asked for a session of
    1000000 minor units and the response is not the 400 that the message
    of the guard ("less than 10,000") announces. *)
Theorem post_checkout_accepts_10000 :
  forall (W : World),
    let run := post_checkout W (Sample.checkout_request (VString "10000")) in
    (exists a,
       parseFloat (host W) (VString "10000") = inr a
       /\ a = of_Z 10000
       /\ amount_refused a = false)
    /\ (exists params,
          create_calls (trace run) = [params]
          /\ map unit_amount (line_items params) = [of_Z 1000000])
    /\ (exists resp, completion run = Normal resp /\ status resp <> 400).
Proof.
  intros W run. subst run.
  split.
  { eexists. split; [reflexivity |]. split; vm_compute; reflexivity. }
  set (req := Sample.checkout_request (VString "10000")).
  destruct (post_checkout_printable W req "10000" "Orion" "player1"
              eq_refl eq_refl eq_refl eq_refl eq_refl)
    as (log & params & Hparams & (text & args & ->) & Hrun);
    [discriminate | vm_compute; reflexivity |].
  rewrite Hrun. split.
  - exists params. split.
    + destruct (stripe_checkout_sessions_create W params); reflexivity.
    + destruct (checkout_params_built W req _ _ _ _ _ Hparams)
        as (p' & u' & _ & _ & _ & _ & _ & -> & _).
      vm_compute. reflexivity.
  - destruct (stripe_checkout_sessions_create W params);
      eexists; (split; [reflexivity | cbn; lia]).
Qed.

Example post_checkout_10000_response :
  completion (post_checkout Sample.world (Sample.checkout_request (VString "10000")))
  = Normal (json 200
      [("status", VString "success");
       ("url", VString "https://checkout.stripe.com/c/pay/cs_test_a1b2c3d4e5");
       ("sessionId", VString "cs_test_a1b2c3d4e5")]).
Proof. vm_compute. reflexivity. Qed.

(** C7. Every [POST /checkout] request gets a response.  A 200 response
    carries [url] and [sessionId], those of the session the processor
    issued for this request; every other response is a 400 or a 500 and
    carries neither. *)
Theorem post_checkout_url_and_sessionId :
  forall (W : World) (req : CheckoutRequest),
    exists resp,
      completion (post_checkout W req) = Normal resp
      /\ ((status resp = 200
           /\ body_has "url" resp = true
           /\ body_has "sessionId" resp = true
           /\ exists params session,
                create_calls (trace (post_checkout W req)) = [params]
                /\ stripe_checkout_sessions_create W params = inr session
                /\ body_field "url" resp = Some (of_option_string (sess_url session))
                /\ body_field "sessionId" resp = Some (VString (sess_id session)))
          \/ ((status resp = 400 \/ status resp = 500)
              /\ body_has "url" resp = false
              /\ body_has "sessionId" resp = false)).
Proof.
  intros W req.
  checkout_cases W req.
  - rewrite Hrun. eexists. split; [reflexivity |].
    right. repeat split. left. reflexivity.
  - rewrite Hrun. eexists. split; [reflexivity |].
    right. repeat split. right. reflexivity.
  - rewrite Hrun. eexists. split; [reflexivity |].
    right. repeat split. left. reflexivity.
  - rewrite Hrun. eexists. split; [reflexivity |].
    right. repeat split. right. reflexivity.
  - rewrite Hrun.
    destruct (stripe_checkout_sessions_create W params) as [error | session] eqn:Hcreate.
    + eexists. split; [reflexivity |].
      right. repeat split. right. reflexivity.
    + eexists. split; [reflexivity |].
      left. split; [reflexivity |]. split.
      * cbn. destruct (sess_url session); reflexivity.
      * split; [reflexivity |].
        exists params, session. split; [reflexivity |].
        split; [exact Hcreate |]. split; reflexivity.
Qed.

(** *** GET /verify-payment/:sessionId *)

Lemma is_not_found_iff (error : JsError) :
  is_not_found error = true <-> reports_unknown_session error.
Proof.
  unfold is_not_found, reports_unknown_session.
  rewrite andb_true_iff, includes_occurs.
  assert (H : strict_eq_string (err_type error) "StripeInvalidRequestError" = true
              <-> err_type error = VString "StripeInvalidRequestError").
  { destruct (err_type error); simpl; try (split; discriminate).
    rewrite String.eqb_eq. split; [intros ->; reflexivity | intros H; now inversion H]. }
  rewrite H. reflexivity.
Qed.

(** The run of the handler once the session id passes the checks of the
    route. *)
Lemma get_verify_payment_asked W req :
  well_formed_session_id (sessionId req) ->
  let expand := ["payment_intent"; "line_items"] in
  get_verify_payment W req
  = match stripe_checkout_sessions_retrieve W (sessionId req) expand with
    | inr session =>
        (Normal (json 200 [("status", VString "success");
                           ("paymentStatus", VString (payment_status session));
                           ("amount", verify_amount W session);
                           ("customerDetails", verify_customerDetails session);
                           ("paymentDetails", verify_paymentDetails session)]),
         [StripeSessionsRetrieve (sessionId req) expand])
    | inl error =>
        (Normal (if is_not_found error
                 then json 404 (error_body "Payment session not found")
                 else json 500
                        [("status", VString "error");
                         ("message", VString "Failed to verify payment status");
                         ("details", error_details W error)]),
         [StripeSessionsRetrieve (sessionId req) expand;
          ConsoleError ("[ReqID: " ++ vreq_id req ++ "] Error verifying payment:")
            (Some error)])
    end.
Proof.
  intros [Hlen Hpre] expand. unfold get_verify_payment. cbn zeta.
  assert (Hne : (sessionId req =? "")%string = false).
  { destruct (sessionId req); [simpl in Hlen; lia | reflexivity]. }
  assert (Hlt : (Z.of_nat (String.length (sessionId req)) <? 10) = false)
    by (apply Z.ltb_ge; lia).
  rewrite Hne, Hlt. unfold startsWith. rewrite Hpre. cbn [orb negb].
  fold expand. unfold external.
  destruct (stripe_checkout_sessions_retrieve W (sessionId req) expand)
    as [error | session]; [| reflexivity].
  cbn. destruct (is_not_found error); reflexivity.
Qed.

(** C8. When the processor is asked and reports the session id as unknown,
    the response is 404 with the message ['Payment session not found'];
    any other error of the processor gives the 500 with the generic
    message ['Failed to verify payment status']. *)
Theorem get_verify_payment_unknown_session_404 :
  forall (W : World) (req : VerifyRequest) (error : JsError),
    well_formed_session_id (sessionId req) ->
    stripe_checkout_sessions_retrieve W (sessionId req)
      ["payment_intent"; "line_items"] = inl error ->
    (reports_unknown_session error
     /\ completion (get_verify_payment W req)
        = Normal {| status := 404;
                    body := BodyJson
                      (VObject [("status", VString "error");
                                ("message", VString "Payment session not found")]) |})
    \/ (~ reports_unknown_session error
        /\ exists details,
             completion (get_verify_payment W req)
             = Normal {| status := 500;
                         body := BodyJson
                           (VObject [("status", VString "error");
                                     ("message",
                                      VString "Failed to verify payment status");
                                     ("details", VString details)]) |}).
Proof.
  intros W req error Hid Herr.
  rewrite (get_verify_payment_asked W req Hid), Herr.
  destruct (is_not_found error) eqn:Hnf.
  - left. split; [apply is_not_found_iff; exact Hnf | reflexivity].
  - right. split.
    + intros H. apply is_not_found_iff in H. congruence.
    + unfold error_details.
      destruct (strict_eq_string _ _); eexists; reflexivity.
Qed.

Lemma get_verify_payment_unknown_session_404_witness :
  let req := Sample.verify_request "cs_test_unknown000" in
  let error := Sample.unknown_session "cs_test_unknown000" in
  (reports_unknown_session error
   /\ completion (get_verify_payment Sample.world req)
      = Normal {| status := 404;
                  body := BodyJson
                    (VObject [("status", VString "error");
                              ("message", VString "Payment session not found")]) |})
  \/ (~ reports_unknown_session error
      /\ exists details,
           completion (get_verify_payment Sample.world req)
           = Normal {| status := 500;
                       body := BodyJson
                         (VObject [("status", VString "error");
                                   ("message",
                                    VString "Failed to verify payment status");
                                   ("details", VString details)]) |}).
Proof.
  apply (get_verify_payment_unknown_session_404
           Sample.world (Sample.verify_request "cs_test_unknown000")
           (Sample.unknown_session "cs_test_unknown000")).
  - split; [cbn; lia | reflexivity].
  - reflexivity.
Defined.

Example get_verify_payment_unknown_run :
  completion (get_verify_payment Sample.world
                (Sample.verify_request "cs_test_unknown000"))
  = Normal (json 404 (error_body "Payment session not found")).
Proof. vm_compute. reflexivity. Qed.

(** *** Numbers *)

(** Rounding a non-zero integer to a Number never gives zero (nor NaN):
    the right shift that brings the mantissa to 53 bits leaves its leading
    bit in place. *)

Lemma digits2_pos_size (p : positive) : digits2_pos p = Pos.size p.
Proof. induction p; simpl; congruence. Qed.

Lemma Zdigits2_log2 (m : Z) : 0 < m -> Zdigits2 m = Z.log2 m + 1.
Proof.
  destruct m as [| p | p]; try lia. intros _. simpl.
  rewrite digits2_pos_size.
  destruct p; simpl; lia.
Qed.

Lemma shr_1_m (r : shr_record) :
  0 <= shr_m r -> shr_m (shr_1 r) = shr_m r / 2.
Proof.
  destruct r as [m r s]. simpl. intros Hm.
  destruct m as [| [p | p |] | p]; cbn [shr_m]; try reflexivity; try lia;
    (apply Z.div_unique with 1; lia) || (apply Z.div_unique with 0; lia).
Qed.

Lemma iter_shr_1_m (n : positive) :
  forall r, 0 <= shr_m r ->
    shr_m (iter_pos shr_1 n r) = shr_m r / 2 ^ Zpos n.
Proof.
  assert (Hnn : forall r, 0 <= shr_m r -> 0 <= shr_m (shr_1 r)).
  { intros r H. rewrite shr_1_m by exact H. apply Z.div_pos; lia. }
  assert (E0 : forall n, 2 ^ Z.pos n~0 = 2 ^ Z.pos n * 2 ^ Z.pos n).
  { intros k. rewrite <- Z.pow_add_r by lia. f_equal. lia. }
  assert (E1 : forall n, 2 ^ Z.pos n~1 = 2 * (2 ^ Z.pos n * 2 ^ Z.pos n)).
  { intros k. rewrite <- Z.pow_add_r, <- Z.pow_succ_r by lia. f_equal. lia. }
  induction n as [n IH | n IH |]; intros r Hr; simpl iter_pos.
  - rewrite IH, IH, shr_1_m; auto.
    + rewrite !Z.div_div by lia. rewrite E1. reflexivity.
    + rewrite IH by auto. apply Z.div_pos; [auto | lia].
  - rewrite IH, IH; auto.
    + rewrite Z.div_div by lia. rewrite E0. reflexivity.
    + rewrite IH by auto. apply Z.div_pos; [auto | lia].
  - rewrite shr_1_m by exact Hr. reflexivity.
Qed.

Lemma shr_record_of_loc_m m l : shr_m (shr_record_of_loc m l) = m.
Proof. destruct l as [| []]; reflexivity. Qed.

Lemma shr_fexp_positive (m e : Z) (l : location) :
  0 < m -> emin prec emax < Zdigits2 m + e ->
  0 < shr_m (fst (shr_fexp prec emax m e l))
  /\ Zdigits2 (shr_m (fst (shr_fexp prec emax m e l)))
     + snd (shr_fexp prec emax m e l) = Zdigits2 m + e.
Proof.
  intros Hm Hx. unfold shr_fexp, shr.
  set (n := fexp prec emax (Zdigits2 m + e) - e).
  assert (Hn : n < Zdigits2 m).
  { subst n. unfold fexp, prec in *. lia. }
  destruct n as [| p | p] eqn:En; cbn [fst snd];
    rewrite ?shr_record_of_loc_m; try (split; [exact Hm | reflexivity]).
  rewrite iter_shr_1_m by (rewrite shr_record_of_loc_m; lia).
  rewrite shr_record_of_loc_m.
  rewrite Zdigits2_log2 in Hn by exact Hm.
  assert (Hq : 0 < m / 2 ^ Z.pos p).
  { apply Z.div_str_pos. split; [lia |].
    apply Z.le_trans with (2 ^ Z.log2 m).
    - apply Z.pow_le_mono_r; lia.
    - apply Z.log2_spec. exact Hm. }
  split; [exact Hq |].
  rewrite !Zdigits2_log2 by assumption.
  rewrite <- Z.shiftr_div_pow2 by lia.
  rewrite Z.log2_shiftr by exact Hm. lia.
Qed.

Lemma round_nearest_even_ge (m : Z) (l : location) :
  m <= round_nearest_even m l.
Proof. destruct l as [| []]; simpl; try lia. destruct (Z.even m); lia. Qed.

Lemma binary_round_aux_truthy (s : bool) (m e : Z) (l : location) :
  0 < m -> emin prec emax < Zdigits2 m + e ->
  truthy (binary_round_aux prec emax s m e l) = true.
Proof.
  intros Hm Hx. unfold binary_round_aux.
  destruct (shr_fexp_positive m e l Hm Hx) as [H1 H2].
  destruct (shr_fexp prec emax m e l) as [mrs' e'] eqn:E1. cbn [fst snd] in H1, H2.
  set (m'' := round_nearest_even (shr_m mrs') (loc_of_shr_record mrs')).
  assert (Hge : shr_m mrs' <= m'') by apply round_nearest_even_ge.
  assert (Hm'' : 0 < m'') by lia.
  assert (Hx'' : emin prec emax < Zdigits2 m'' + e').
  { rewrite Zdigits2_log2 by exact Hm''. rewrite Zdigits2_log2 in H2 by exact H1.
    pose proof (Z.log2_le_mono _ _ Hge). lia. }
  destruct (shr_fexp_positive m'' e' loc_Exact Hm'' Hx'') as [H3 _].
  destruct (shr_fexp prec emax m'' e' loc_Exact) as [mrs'' e''] eqn:E2.
  cbn [fst] in H3.
  destruct (shr_m mrs'') as [| q | q]; try lia.
  destruct (e'' <=? emax - prec); reflexivity.
Qed.

(** A Number read from an integer is falsy exactly for zero. *)
Lemma of_Z_truthy (a : Z) : truthy (of_Z a) = negb (a =? 0).
Proof.
  unfold of_Z, binary_normalize.
  destruct a as [| p | p]; [reflexivity | |]; cbn [Z.eqb negb];
    unfold binary_round;
    destruct (shl_align p 0 (fexp prec emax (Z.pos (digits2_pos p) + 0)))
      as [mz ez] eqn:Hal;
    apply binary_round_aux_truthy; try lia.
  all: unfold shl_align in Hal.
  all: destruct (fexp prec emax (Z.pos (digits2_pos p) + 0) - 0) as [| d | d] eqn:Hd;
    inversion Hal; subst; clear Hal.
  all: unfold emin, fexp, prec, emax; cbn [Zdigits2]; lia.
Qed.

(** C10. In a success response of [GET /verify-payment/:sessionId] the
    [amount] is [null] when the session's [amount_total] is absent or 0,
    and for any other [amount_total] it is the string
    [(amount_total / 100).toFixed(2)]. *)
Theorem get_verify_payment_amount :
  forall (W : World) (req : VerifyRequest) (session : Session),
    well_formed_session_id (sessionId req) ->
    stripe_checkout_sessions_retrieve W (sessionId req)
      ["payment_intent"; "line_items"] = inr session ->
    exists resp,
      completion (get_verify_payment W req) = Normal resp
      /\ status resp = 200
      /\ body_field "amount" resp
         = Some match amount_total session with
                | None | Some 0 => VNull
                | Some a => VString (toFixed2 (host W) (div (of_Z a) (of_Z 100)))
                end.
Proof.
  intros W req session Hid Hok.
  rewrite (get_verify_payment_asked W req Hid), Hok.
  eexists. split; [reflexivity |]. split; [reflexivity |].
  cbn. unfold verify_amount.
  destruct (amount_total session) as [a |]; [| reflexivity].
  rewrite of_Z_truthy. destruct a; reflexivity.
Qed.

Lemma get_verify_payment_amount_witness :
  exists resp,
    completion (get_verify_payment Sample.world
                  (Sample.verify_request "cs_test_a1b2c3d4e5")) = Normal resp
    /\ status resp = 200
    /\ body_field "amount" resp
       = Some (VString (toFixed2 Sample.sample_host (div (of_Z 2599) (of_Z 100)))).
Proof.
  apply (get_verify_payment_amount
           Sample.world (Sample.verify_request "cs_test_a1b2c3d4e5")
           Sample.paid_session).
  - split; [cbn; lia | reflexivity].
  - reflexivity.
Defined.

(** 2599 minor units are shown as ["25.99"], 5 as ["0.05"], and a session
    without an amount, or with amount 0, shows [null]. *)
Example get_verify_payment_amount_25_99 :
  body_field "amount"
    (json 200 [("amount", verify_amount Sample.world Sample.paid_session)])
  = Some (VString "25.99").
Proof. vm_compute. reflexivity. Qed.

Example toFixed2_examples :
  map (fun a => toFixed2 Sample.sample_host (div (of_Z a) (of_Z 100)))
      [5; 100; 2599; 1000000]
  = ["0.05"; "1.00"; "25.99"; "10000.00"].
Proof. vm_compute. reflexivity. Qed.

(* ================================================================= *)
(** ** Further properties *)

(** *** POST /checkout *)

(** X1. A request in which [serverProvider], [username] or [amount] is
    falsy (absent, [null], the empty string, [0], [false]) is answered
    with 400 'Missing required fields' before the amount is looked at,
    and nothing leaves the process. *)
Theorem post_checkout_missing_field :
  forall (W : World) (req : CheckoutRequest),
    ToBoolean (prop "serverProvider" (req_body req)) = false
    \/ ToBoolean (prop "username" (req_body req)) = false
    \/ ToBoolean (prop "amount" (req_body req)) = false ->
    completion (post_checkout W req)
    = Normal {| status := 400;
                body := BodyJson
                  (VObject [("status", VString "error");
                            ("message", VString "Missing required fields")]) |}
    /\ filter is_external_call (trace (post_checkout W req)) = [].
Proof.
  intros W req H.
  assert (Hm : negb (ToBoolean (prop "serverProvider" (req_body req)))
               || negb (ToBoolean (prop "username" (req_body req)))
               || negb (ToBoolean (prop "amount" (req_body req))) = true).
  { destruct H as [-> | [-> | ->]]; cbn; rewrite ?orb_true_r; reflexivity. }
  checkout_cases W req; try congruence.
  rewrite Hrun. split; reflexivity.
Qed.

(** A numeric amount of zero counts as missing, not as invalid. *)
Lemma post_checkout_missing_field_witness :
  let req := Sample.checkout_request (VNumber (of_Z 0)) in
  completion (post_checkout Sample.world req)
  = Normal {| status := 400;
              body := BodyJson
                (VObject [("status", VString "error");
                          ("message", VString "Missing required fields")]) |}
  /\ filter is_external_call (trace (post_checkout Sample.world req)) = [].
Proof.
  apply (post_checkout_missing_field
           Sample.world (Sample.checkout_request (VNumber (of_Z 0)))).
  right; right. reflexivity.
Defined.

(** X2. Every request gets a response, and the processor is asked at
    most once.  A 400 is a request that never reached the processor; a
    200 answers the one call, which returned a session; a 500 is either
    the one call, which threw, or an exception before the call, and then
    the processor was not asked. *)
Theorem post_checkout_processor_reached :
  forall (W : World) (req : CheckoutRequest),
    let run := post_checkout W req in
    exists resp,
      completion run = Normal resp
      /\ ((status resp = 400 /\ create_calls (trace run) = [])
          \/ (status resp = 200
              /\ exists params session,
                   create_calls (trace run) = [params]
                   /\ stripe_checkout_sessions_create W params = inr session)
          \/ (status resp = 500
              /\ (create_calls (trace run) = []
                  \/ exists params error,
                       create_calls (trace run) = [params]
                       /\ stripe_checkout_sessions_create W params = inl error))).
Proof.
  intros W req run. subst run. checkout_cases W req.
  - rewrite Hrun. eexists. split; [reflexivity |]. left. split; reflexivity.
  - rewrite Hrun. eexists. split; [reflexivity |]. right; right.
    split; [reflexivity |]. left. reflexivity.
  - rewrite Hrun. eexists. split; [reflexivity |]. left. split; reflexivity.
  - rewrite Hrun. eexists. split; [reflexivity |]. right; right.
    split; [reflexivity |]. left. reflexivity.
  - rewrite Hrun.
    destruct (stripe_checkout_sessions_create W params) as [error | session] eqn:Hc;
      (eexists; split; [reflexivity |]; right).
    + right. split; [reflexivity |]. right. exists params, error.
      split; [reflexivity | exact Hc].
    + left. split; [reflexivity |]. exists params, session.
      split; [reflexivity | exact Hc].
Qed.

(** When the processor was not asked and the answer is 500, a field
    could not be converted to a string. *)
Lemma post_checkout_500_without_call W req resp :
  completion (post_checkout W req) = Normal resp ->
  status resp = 500 ->
  create_calls (trace (post_checkout W req)) = [] ->
  exists e,
    ToString (host W) (prop "amount" (req_body req)) = inl e
    \/ ToString (host W) (prop "serverProvider" (req_body req)) = inl e
    \/ ToString (host W) (prop "username" (req_body req)) = inl e.
Proof.
  checkout_cases W req; rewrite Hrun.
  - intros H; inversion H; subst. discriminate.
  - intros _ _ _. exists e. left. unfold parseFloat in Hparse.
    destruct (ToString (host W) (prop "amount" (req_body req)));
      inversion Hparse; reflexivity.
  - intros H; inversion H; subst. discriminate.
  - intros _ _ _. exists e. right.
    apply (checkout_params_thrown _ _ _ _ _ _ _ Hparams).
  - destruct (stripe_checkout_sessions_create W params); intros _ _ H;
      discriminate H.
Qed.

(** A request whose [username] is the JSON object [{"toString": 1}]:
    500, and the processor is not asked. *)
Example post_checkout_unprintable_username :
  let req :=
    {| req_id := "9f3c"; req_ip := "10.0.0.1";
       req_body := [("serverProvider", VString "Orion");
                    ("username", Outage.unprintable);
                    ("amount", VString "25.99")] |} in
  post_checkout Sample.world req
  = (Normal (json 500
               [("status", VString "error");
                ("message", VString "An error occurred while processing the payment");
                ("details", VString "Internal server error")]),
     [ConsoleLog "[ReqID: 9f3c] Deposit Data:"
        [VObject [("serverProvider", VString "Orion");
                  ("username", Outage.unprintable);
                  ("amount", VString "25.99")]];
      ConsoleError "[ReqID: 9f3c] Error in /checkout:"
        (Some (TypeError "Cannot convert object to primitive value"))]).
Proof. vm_compute. reflexivity. Qed.

Lemma error_details_hidden W error :
  process_env W "NODE_ENV" <> VString "development" ->
  error_details W error = VString "Internal server error".
Proof.
  intros Henv. unfold error_details.
  destruct (process_env W "NODE_ENV") eqn:E; try reflexivity.
  cbn. destruct (String.eqb_spec s "development") as [-> | Hne];
    [contradiction | reflexivity].
Qed.

(** X3. Outside development mode a 500 from [/checkout] has one fixed
    body: the message of the error is not disclosed. *)
Theorem post_checkout_500_discloses_nothing :
  forall (W : World) (req : CheckoutRequest) (resp : Response),
    process_env W "NODE_ENV" <> VString "development" ->
    completion (post_checkout W req) = Normal resp ->
    status resp = 500 ->
    body resp
    = BodyJson
        (VObject [("status", VString "error");
                  ("message",
                   VString "An error occurred while processing the payment");
                  ("details", VString "Internal server error")]).
Proof.
  intros W req resp Henv Hc Hst.
  pose proof (fun error => error_details_hidden W error Henv) as Hdet.
  revert Hc. checkout_cases W req; rewrite Hrun.
  - intros H; inversion H; subst. discriminate.
  - intros H; inversion H; subst. cbn. rewrite Hdet. reflexivity.
  - intros H; inversion H; subst. discriminate.
  - intros H; inversion H; subst. cbn. rewrite Hdet. reflexivity.
  - destruct (stripe_checkout_sessions_create W params) as [error | session];
      intros H; inversion H; subst; [| discriminate].
    cbn. rewrite Hdet. reflexivity.
Qed.

(** The processor cannot be reached: the 500 does not say why. *)
Lemma post_checkout_500_discloses_nothing_witness :
  let run :=
    post_checkout Outage.world_processor_down
      (Sample.checkout_request (VString "25.99")) in
  exists resp,
    completion run = Normal resp
    /\ status resp = 500
    /\ body resp
       = BodyJson
           (VObject [("status", VString "error");
                     ("message",
                      VString "An error occurred while processing the payment");
                     ("details", VString "Internal server error")]).
Proof.
  exists (json 500
            [("status", VString "error");
             ("message", VString "An error occurred while processing the payment");
             ("details", VString "Internal server error")]).
  split; [vm_compute; reflexivity |]. split; [reflexivity |].
  apply (post_checkout_500_discloses_nothing
           Outage.world_processor_down
           (Sample.checkout_request (VString "25.99"))).
  - cbn. discriminate.
  - vm_compute. reflexivity.
  - reflexivity.
Defined.

(** In development mode the same 500 carries the error's message. *)
Lemma error_details_development :
  forall W error,
    process_env W "NODE_ENV" = VString "development" ->
    error_details W error = VString (err_message error).
Proof. intros W error H. unfold error_details. rewrite H. reflexivity. Qed.

(** *** Strings, continued *)

Lemma length_append (s t : string) :
  String.length (s ++ t) = (String.length s + String.length t)%nat.
Proof. induction s as [| c s IH]; simpl; [reflexivity | now rewrite IH]. Qed.

Lemma substring_0_all (s : string) : substring 0 (String.length s) s = s.
Proof. induction s as [| c s IH]; simpl; [reflexivity | now rewrite IH]. Qed.

Lemma substring_skip (p s : string) (n : nat) :
  substring (String.length p) n (p ++ s) = substring 0 n s.
Proof. induction p as [| c p IH]; simpl; [reflexivity | exact IH]. Qed.

Lemma index_0_prefix (pat rest : string) : index 0 pat (pat ++ rest) = Some 0%nat.
Proof.
  destruct (pat ++ rest) as [| b s] eqn:E.
  - destruct pat; [reflexivity | discriminate].
  - change (index 0 pat (String b s))
      with (if prefix pat (String b s) then Some 0%nat
            else match index 0 pat s with
                 | Some n => Some (S n)
                 | None => None
                 end).
    assert (H : prefix pat (String b s) = true)
      by (apply prefix_app; exists rest; now rewrite <- E).
    now rewrite H.
Qed.

(** Removing a pattern that stands at the head leaves the rest. *)
Lemma remove_first_head (pat rest : string) :
  remove_first pat (pat ++ rest) = rest.
Proof.
  unfold remove_first. rewrite index_0_prefix.
  cbn [substring Nat.add]. rewrite length_append.
  replace (String.length pat + String.length rest - String.length pat)%nat
    with (String.length rest) by lia.
  rewrite substring_skip, substring_0_all.
  destruct (pat ++ rest); reflexivity.
Qed.

(** A string in which the pattern does not occur is left as it is. *)
Lemma remove_first_absent (pat s : string) :
  includes pat s = false -> remove_first pat s = s.
Proof.
  unfold includes, remove_first.
  destruct (index 0 pat s); [discriminate | reflexivity].
Qed.

(** *** POST /checkout, continued *)

Lemma post_checkout_create_calls W req :
  create_calls (trace (post_checkout W req)) = []
  \/ exists a params,
       parseFloat (host W) (prop "amount" (req_body req)) = inr a
       /\ checkout_params W req (prop "serverProvider" (req_body req))
            (prop "username" (req_body req)) a
          = (Normal params, [])
       /\ create_calls (trace (post_checkout W req)) = [params].
Proof.
  checkout_cases W req; try (left; rewrite Hrun; reflexivity).
  right. exists a, params. split; [exact Hparse |]. split; [exact Hparams |].
  rewrite Hrun. destruct (stripe_checkout_sessions_create W params); reflexivity.
Qed.

(** X4. The tracing metadata sent to the processor carries the request
    id, the caller's address and the submitted [username] and
    [serverProvider]; the same object is attached to the product and to
    the session.  An IPv4-mapped address [::ffff:a.b.c.d] is recorded as
    [a.b.c.d]. *)
Theorem post_checkout_metadata_mapped_ip :
  forall (W : World) (req : CheckoutRequest) (ip : string) (params : CreateParams),
    req_ip req = "::ffff:" ++ ip ->
    In params (create_calls (trace (post_checkout W req))) ->
    cp_metadata params
    = [("requestId", VString (req_id req));
       ("userIp", VString ip);
       ("username", prop "username" (req_body req));
       ("serverProvider", prop "serverProvider" (req_body req))]
    /\ map product_metadata (line_items params) = [cp_metadata params].
Proof.
  intros W req ip params Hip Hin.
  destruct (post_checkout_create_calls W req) as [Hc | (a & built & _ & Hb & Hc)];
    rewrite Hc in Hin; [contradiction |].
  destruct Hin as [<- | []].
  destruct (checkout_params_built W req _ _ _ _ _ Hb)
    as (p & u & _ & _ & Hmeta & Hprod & _).
  rewrite Hprod, Hmeta, Hip, remove_first_head. split; reflexivity.
Qed.

Lemma post_checkout_metadata_mapped_ip_witness :
  let params := Sample.created_params "https://shop.example" in
  cp_metadata params
  = [("requestId", VString "9f3c");
     ("userIp", VString "10.0.0.1");
     ("username", VString "player1");
     ("serverProvider", VString "Orion")]
  /\ map product_metadata (line_items params) = [cp_metadata params].
Proof.
  apply (post_checkout_metadata_mapped_ip
           Sample.world (Sample.checkout_request (VString "25.99")) "10.0.0.1").
  - reflexivity.
  - vm_compute. left. reflexivity.
Defined.

(** An address without the mapping prefix is recorded unchanged. *)
Lemma post_checkout_metadata_plain_ip W req params :
  includes "::ffff:" (req_ip req) = false ->
  In params (create_calls (trace (post_checkout W req))) ->
  prop "userIp" (cp_metadata params) = VString (req_ip req).
Proof.
  intros Hip Hin.
  destruct (post_checkout_create_calls W req) as [Hc | (a & built & _ & Hb & Hc)];
    rewrite Hc in Hin; [contradiction |].
  destruct Hin as [<- | []].
  destruct (checkout_params_built W req _ _ _ _ _ Hb)
    as (p & u & _ & _ & Hmeta & _).
  rewrite Hmeta. cbn. rewrite (remove_first_absent _ _ Hip). reflexivity.
Qed.

(** X5. From checkout to notification.  When the processor hands back,
    in a paid 'checkout.session.completed' event, the metadata that
    [/checkout] attached to the session, the Notification Sender is
    invoked with the [serverProvider] and [username] of the checkout
    request body. *)
Theorem checkout_metadata_reaches_sender :
  forall (W : World) (req : CheckoutRequest) (params : CreateParams)
         (hook : WebhookRequest) (event : Event),
    In params (create_calls (trace (post_checkout W req))) ->
    stripe_webhooks_constructEvent W (raw_body hook)
      (prop "stripe-signature" (headers hook))
      (process_env W "STRIPE_WEBHOOK_SECRET") = inr event ->
    ev_type event = "checkout.session.completed" ->
    payment_status (ev_data_object event) = "paid" ->
    metadata (ev_data_object event) = Some (cp_metadata params) ->
    exists amount paymentId,
      sender_calls (trace (handleWebhook W hook))
      = [ [("serverProvider", prop "serverProvider" (req_body req));
           ("username", prop "username" (req_body req));
           ("amount", amount);
           ("paymentId", paymentId)] ].
Proof.
  intros W req params hook event Hin Hev Hty Hpaid Hmeta.
  destruct (post_checkout_create_calls W req) as [Hc | (a & built & _ & Hb & Hc)];
    rewrite Hc in Hin; [contradiction |].
  destruct Hin as [<- | []].
  destruct (checkout_params_built W req _ _ _ _ _ Hb)
    as (p & u & _ & _ & Hcp & _).
  unfold handleWebhook.
  rewrite (handleWebhook_with_verified W _ hook event Hev).
  rewrite Hty, Hpaid, Hmeta, Hcp.
  cbn [String.eqb Ascii.eqb Bool.eqb andb trace snd].
  cbn zeta. cbn [sender_calls flat_map app].
  rewrite sender_calls_app, sendPaymentConfirmation_no_reentry.
  do 2 eexists. destruct (completion _); reflexivity.
Qed.

Lemma checkout_metadata_reaches_sender_witness :
  exists amount paymentId,
    sender_calls (trace (handleWebhook Sample.world Sample.signed_webhook))
    = [ [("serverProvider", VString "Orion");
         ("username", VString "player1");
         ("amount", amount);
         ("paymentId", paymentId)] ].
Proof.
  apply (checkout_metadata_reaches_sender
           Sample.world (Sample.checkout_request (VString "25.99"))
           (Sample.created_params "https://shop.example")
           Sample.signed_webhook
           {| ev_type := "checkout.session.completed";
              ev_data_object := Sample.paid_session |}).
  - vm_compute. left. reflexivity.
  - reflexivity.
  - reflexivity.
  - reflexivity.
  - reflexivity.
Defined.

(** *** GET /verify-payment/:sessionId, continued *)

Lemma get_verify_payment_refused W req :
  get_verify_payment W req
  = if (sessionId req =? "")%string
       || (Z.of_nat (String.length (sessionId req)) <? 10)
    then (Normal (json 400 (error_body "Valid session ID is required")), [])
    else if negb (prefix "cs_" (sessionId req))
    then (Normal (json 400 (error_body "Invalid session ID format")), [])
    else get_verify_payment W req.
Proof.
  unfold get_verify_payment at 1. cbn zeta. unfold startsWith.
  destruct ((sessionId req =? "")%string
            || (Z.of_nat (String.length (sessionId req)) <? 10)) eqn:E1;
    [reflexivity |].
  destruct (negb (prefix "cs_" (sessionId req))) eqn:E2; [reflexivity |].
  unfold get_verify_payment, startsWith. cbn zeta. rewrite E1, E2. reflexivity.
Qed.

Lemma get_verify_payment_malformed W req :
  (String.length (sessionId req) < 10)%nat
  \/ prefix "cs_" (sessionId req) = false ->
  exists message,
    get_verify_payment W req = (Normal (json 400 (error_body message)), []).
Proof.
  intros H. rewrite get_verify_payment_refused.
  destruct ((sessionId req =? "")%string
            || (Z.of_nat (String.length (sessionId req)) <? 10)) eqn:E1;
    [eexists; reflexivity |].
  destruct (negb (prefix "cs_" (sessionId req))) eqn:E2;
    [eexists; reflexivity |].
  exfalso. apply orb_false_iff in E1. destruct E1 as [_ E1].
  apply Z.ltb_ge in E1. apply negb_false_iff in E2.
  destruct H as [H | H]; [lia | congruence].
Qed.

(** X6. A session id of fewer than ten characters, or one that does not
    start with [cs_], is refused with 400 and the processor is not asked;
    the length is checked first. *)
Theorem get_verify_payment_malformed_id :
  forall (W : World) (req : VerifyRequest),
    (String.length (sessionId req) < 10)%nat
    \/ prefix "cs_" (sessionId req) = false ->
    completion (get_verify_payment W req)
    = Normal {| status := 400;
                body := BodyJson
                  (VObject
                     [("status", VString "error");
                      ("message",
                       VString (if (String.length (sessionId req) <? 10)%nat
                                then "Valid session ID is required"
                                else "Invalid session ID format"))]) |}
    /\ trace (get_verify_payment W req) = [].
Proof.
  intros W req H. rewrite get_verify_payment_refused.
  destruct (Nat.ltb_spec (String.length (sessionId req)) 10) as [Hlt | Hge].
  - assert (E : (Z.of_nat (String.length (sessionId req)) <? 10) = true)
      by (apply Z.ltb_lt; lia).
    rewrite E, orb_true_r. split; reflexivity.
  - destruct H as [H | H]; [lia |].
    assert (E1 : (sessionId req =? "")%string = false).
    { destruct (sessionId req); [simpl in Hge; lia | reflexivity]. }
    assert (E2 : (Z.of_nat (String.length (sessionId req)) <? 10) = false)
      by (apply Z.ltb_ge; lia).
    rewrite E1, E2, H. split; reflexivity.
Qed.

Lemma get_verify_payment_malformed_id_witness :
  let req := Sample.verify_request "pi_3Nabcdefghijk" in
  completion (get_verify_payment Sample.world req)
  = Normal {| status := 400;
              body := BodyJson
                (VObject [("status", VString "error");
                          ("message", VString "Invalid session ID format")]) |}
  /\ trace (get_verify_payment Sample.world req) = [].
Proof.
  apply (get_verify_payment_malformed_id
           Sample.world (Sample.verify_request "pi_3Nabcdefghijk")).
  right. reflexivity.
Defined.

Lemma well_formed_session_id_dec (s : string) :
  {well_formed_session_id s}
  + {(String.length s < 10)%nat \/ prefix "cs_" s = false}.
Proof.
  unfold well_formed_session_id.
  destruct (le_lt_dec 10 (String.length s)) as [Hge | Hlt]; [| right; left; exact Hlt].
  destruct (prefix "cs_" s) eqn:E; [left; split; auto | right; right; reflexivity].
Qed.

(** X7. Every [GET /verify-payment/:sessionId] request gets a response.
    A 400 is a request that never reached the processor; every other
    response is a 200, a 404 or a 500 after exactly one retrieval, of the
    id of the route and with the payment intent and line items expanded. *)
Theorem get_verify_payment_processor_reached :
  forall (W : World) (req : VerifyRequest),
    exists resp,
      completion (get_verify_payment W req) = Normal resp
      /\ ((status resp = 400
           /\ retrieve_calls (trace (get_verify_payment W req)) = [])
          \/ ((status resp = 200 \/ status resp = 404 \/ status resp = 500)
              /\ retrieve_calls (trace (get_verify_payment W req))
                 = [(sessionId req, ["payment_intent"; "line_items"])])).
Proof.
  intros W req.
  destruct (well_formed_session_id_dec (sessionId req)) as [Hwf | Hbad].
  - rewrite (get_verify_payment_asked W req Hwf).
    destruct (stripe_checkout_sessions_retrieve W _ _) as [error | session].
    + destruct (is_not_found error);
        (eexists; split; [reflexivity |]; right; split; [| reflexivity]);
        [right; left | right; right]; reflexivity.
    + eexists. split; [reflexivity |]. right. split; [left |]; reflexivity.
  - destruct (get_verify_payment_malformed W req Hbad) as [message ->].
    eexists. split; [reflexivity |]. left. split; reflexivity.
Qed.

Lemma js_or_null_text (o : option string) :
  null_or_text (js_or (of_option_string o) VNull).
Proof.
  destruct o as [[| c s] |]; unfold js_or; cbn.
  - left. reflexivity.
  - right. eexists. split; [reflexivity | discriminate].
  - left. reflexivity.
Qed.

Lemma js_or_null_text_string (s : string) :
  null_or_text (js_or (VString s) VNull).
Proof.
  destruct s as [| c s]; unfold js_or; cbn.
  - left. reflexivity.
  - right. eexists. split; [reflexivity | discriminate].
Qed.

Lemma null_or_text_null : null_or_text VNull.
Proof. left. reflexivity. Qed.

(** X8. In a success response [customerDetails] always has the two
    properties [email] and [name], and each is [null] or a non-empty
    string: an undisclosed customer, a [null] property and an empty
    string all come out as [null]. *)
Theorem get_verify_payment_customerDetails :
  forall (W : World) (req : VerifyRequest) (session : Session),
    well_formed_session_id (sessionId req) ->
    stripe_checkout_sessions_retrieve W (sessionId req)
      ["payment_intent"; "line_items"] = inr session ->
    exists resp e n,
      completion (get_verify_payment W req) = Normal resp
      /\ body_field "customerDetails" resp
         = Some (VObject [("email", e); ("name", n)])
      /\ null_or_text e /\ null_or_text n.
Proof.
  intros W req session Hid Hok.
  rewrite (get_verify_payment_asked W req Hid), Hok.
  do 3 eexists. split; [reflexivity |]. split; [reflexivity |].
  destruct (customer_details session) as [d |].
  - split; apply js_or_null_text.
  - split; apply null_or_text_null.
Qed.

Lemma get_verify_payment_customerDetails_witness :
  exists resp e n,
    completion (get_verify_payment Outage.world_disclosed
                  (Sample.verify_request "cs_test_a1b2c3d4e5")) = Normal resp
    /\ body_field "customerDetails" resp
       = Some (VObject [("email", e); ("name", n)])
    /\ null_or_text e /\ null_or_text n.
Proof.
  apply (get_verify_payment_customerDetails
           Outage.world_disclosed (Sample.verify_request "cs_test_a1b2c3d4e5")
           Outage.disclosed_session).
  - split; [cbn; lia | reflexivity].
  - reflexivity.
Defined.

(** An empty name is reported as [null]. *)
Example get_verify_payment_empty_name :
  verify_customerDetails Outage.disclosed_session
  = VObject [("email", VString "p1@example.org"); ("name", VNull)].
Proof. reflexivity. Qed.

(** X9. [paymentDetails] is [null] for every session that is not paid.
    For a paid session it is an object with [paymentMethod], [paymentId]
    and [receiptUrl], each [null] or a non-empty string. *)
Theorem get_verify_payment_paymentDetails :
  forall (W : World) (req : VerifyRequest) (session : Session),
    well_formed_session_id (sessionId req) ->
    stripe_checkout_sessions_retrieve W (sessionId req)
      ["payment_intent"; "line_items"] = inr session ->
    exists resp,
      completion (get_verify_payment W req) = Normal resp
      /\ ((payment_status session <> "paid"
           /\ body_field "paymentDetails" resp = Some VNull)
          \/ (payment_status session = "paid"
              /\ exists m i r,
                   body_field "paymentDetails" resp
                   = Some (VObject [("paymentMethod", m);
                                    ("paymentId", i);
                                    ("receiptUrl", r)])
                   /\ null_or_text m /\ null_or_text i /\ null_or_text r)).
Proof.
  intros W req session Hid Hok.
  rewrite (get_verify_payment_asked W req Hid), Hok.
  eexists. split; [reflexivity |].
  cbn [body_field body json get_field String.eqb Ascii.eqb Bool.eqb].
  unfold verify_paymentDetails.
  destruct (String.eqb_spec (payment_status session) "paid") as [Hp | Hp].
  - right. split; [exact Hp |]. do 3 eexists. split; [reflexivity |].
    destruct (payment_intent session) as [i |];
      [| repeat split; apply null_or_text_null].
    split; [| split].
    + destruct (payment_method_types i) as [[| first rest] |];
        try apply null_or_text_null. apply js_or_null_text_string.
    + apply js_or_null_text_string.
    + destruct (charges i) as [[| first rest] |];
        try apply null_or_text_null. apply js_or_null_text.
  - left. split; [exact Hp | reflexivity].
Qed.

Lemma get_verify_payment_paymentDetails_witness :
  exists resp,
    completion (get_verify_payment Outage.world_disclosed
                  (Sample.verify_request "cs_test_a1b2c3d4e5")) = Normal resp
    /\ ((payment_status Outage.disclosed_session <> "paid"
         /\ body_field "paymentDetails" resp = Some VNull)
        \/ (payment_status Outage.disclosed_session = "paid"
            /\ exists m i r,
                 body_field "paymentDetails" resp
                 = Some (VObject [("paymentMethod", m);
                                  ("paymentId", i);
                                  ("receiptUrl", r)])
                 /\ null_or_text m /\ null_or_text i /\ null_or_text r)).
Proof.
  apply (get_verify_payment_paymentDetails
           Outage.world_disclosed (Sample.verify_request "cs_test_a1b2c3d4e5")
           Outage.disclosed_session).
  - split; [cbn; lia | reflexivity].
  - reflexivity.
Defined.

Example get_verify_payment_disclosed_details :
  verify_paymentDetails Outage.disclosed_session
  = VObject [("paymentMethod", VString "card");
             ("paymentId", VString "pi_3Nabc");
             ("receiptUrl", VNull)].
Proof. reflexivity. Qed.

(** X10. Outside development mode a 500 from [/verify-payment] has one
    fixed body, whatever error the processor raised. *)
Theorem get_verify_payment_500_discloses_nothing :
  forall (W : World) (req : VerifyRequest) (resp : Response),
    process_env W "NODE_ENV" <> VString "development" ->
    completion (get_verify_payment W req) = Normal resp ->
    status resp = 500 ->
    body resp
    = BodyJson
        (VObject [("status", VString "error");
                  ("message", VString "Failed to verify payment status");
                  ("details", VString "Internal server error")]).
Proof.
  intros W req resp Henv Hc Hst.
  pose proof (fun error => error_details_hidden W error Henv) as Hdet.
  destruct (well_formed_session_id_dec (sessionId req)) as [Hwf | Hbad].
  - rewrite (get_verify_payment_asked W req Hwf) in Hc.
    destruct (stripe_checkout_sessions_retrieve W _ _) as [error | session].
    + destruct (is_not_found error); inversion Hc; subst; [discriminate |].
      cbn. rewrite Hdet. reflexivity.
    + inversion Hc; subst. discriminate.
  - destruct (get_verify_payment_malformed W req Hbad) as [message H].
    rewrite H in Hc. inversion Hc; subst. discriminate.
Qed.

Lemma get_verify_payment_500_discloses_nothing_witness :
  let run :=
    get_verify_payment Outage.world_processor_down
      (Sample.verify_request "cs_test_a1b2c3d4e5") in
  exists resp,
    completion run = Normal resp
    /\ status resp = 500
    /\ body resp
       = BodyJson
           (VObject [("status", VString "error");
                     ("message", VString "Failed to verify payment status");
                     ("details", VString "Internal server error")]).
Proof.
  exists (json 500
            [("status", VString "error");
             ("message", VString "Failed to verify payment status");
             ("details", VString "Internal server error")]).
  split; [vm_compute; reflexivity |]. split; [reflexivity |].
  apply (get_verify_payment_500_discloses_nothing
           Outage.world_processor_down
           (Sample.verify_request "cs_test_a1b2c3d4e5")).
  - cbn. discriminate.
  - vm_compute. reflexivity.
  - reflexivity.
Defined.

(** *** The webhook and the sender together *)

Lemma mail_calls_app (t u : list Effect) :
  mail_calls (t ++ u) = (mail_calls t ++ mail_calls u)%list.
Proof. apply flat_map_app. Qed.

Lemma log_lines_app (t u : list Effect) :
  log_lines (t ++ u) = (log_lines t ++ log_lines u)%list.
Proof. apply flat_map_app. Qed.

(** The payment data of a session can be turned into a message exactly
    when the two properties read from the metadata convert to strings:
    the amount is a Number and the id a string. *)
Lemma confirmation_notifiable h session fields p u :
  ToString h (prop "serverProvider" fields) = inr p ->
  ToString h (prop "username" fields) = inr u ->
  notifiable h (confirmation_of session fields).
Proof.
  intros Hp Hu. unfold notifiable, confirmation_of. cbn.
  repeat split; eexists; (eassumption || reflexivity).
Qed.

(** The run of the handler with the sender of [utils/emailService.js]
    on a verified, paid session with metadata. *)
Lemma handleWebhook_paid W req event fields :
  stripe_webhooks_constructEvent W (raw_body req)
    (prop "stripe-signature" (headers req))
    (process_env W "STRIPE_WEBHOOK_SECRET") = inr event ->
  ev_type event = "checkout.session.completed" ->
  payment_status (ev_data_object event) = "paid" ->
  metadata (ev_data_object event) = Some fields ->
  let session := ev_data_object event in
  let paymentData := confirmation_of session fields in
  handleWebhook W req
  = (Normal send_empty,
     (SenderInvoked paymentData
      :: trace (sendPaymentConfirmation W (VObject paymentData))
      ++ [ConsoleLog ("Payment confirmation email sent for payment: "
                      ++ sess_id session) []])%list).
Proof.
  intros Hev Hty Hpaid Hmeta session paymentData. unfold handleWebhook.
  rewrite (handleWebhook_with_verified W _ req event Hev).
  rewrite Hty, Hpaid, Hmeta. cbn [String.eqb Ascii.eqb Bool.eqb andb].
  cbn zeta. fold session. fold paymentData.
  destruct (notifiable_dec (host W) paymentData) as [Hy | Hn].
  - destruct (sendPaymentConfirmation_notifiable W paymentData Hy)
      as (s & p & u & mail & _ & _ & _ & _ & _ & _ & _ & ->).
    destruct (transporter_sendMail W mail); reflexivity.
  - destruct (sendPaymentConfirmation_not_notifiable W paymentData Hn) as [e ->].
    reflexivity.
Qed.

(** X11. For a verified, paid 'checkout.session.completed' event whose
    metadata is an object with printable [serverProvider] and [username]
    (strings, as the processor stores them, or absent), exactly one
    message is handed to the mail transport.  It goes to the fixed
    operator address, its subject names the provider, the username and
    the first eight characters of the session id, and the session id
    rides in the [X-Transaction-ID] and [Message-ID] headers.  The
    response is 200 whether or not the transport accepts it. *)
Theorem handleWebhook_sends_one_mail :
  forall (W : World) (req : WebhookRequest) (event : Event)
         (fields : JsObject) (p u : string),
    stripe_webhooks_constructEvent W (raw_body req)
      (prop "stripe-signature" (headers req))
      (process_env W "STRIPE_WEBHOOK_SECRET") = inr event ->
    ev_type event = "checkout.session.completed" ->
    payment_status (ev_data_object event) = "paid" ->
    metadata (ev_data_object event) = Some fields ->
    ToString (host W) (prop "serverProvider" fields) = inr p ->
    ToString (host W) (prop "username" fields) = inr u ->
    let session := ev_data_object event in
    exists mail,
      mail_calls (trace (handleWebhook W req)) = [mail]
      /\ mail_to mail = "storemf69@gmail.com"
      /\ mail_from mail = process_env W "EMAIL_USER"
      /\ mail_subject mail
         = "New Payment Received - " ++ p ++ " - " ++ u
           ++ " - ID: " ++ substring 0 8 (sess_id session)
      /\ mail_headers mail
         = [("X-Transaction-ID", VString (sess_id session));
            ("Message-ID",
             VString ("<payment-" ++ sess_id session ++ "@bigwin.gold>"))]
      /\ completion (handleWebhook W req)
         = Normal {| status := 200; body := BodyEmpty |}.
Proof.
  intros W req event fields p u Hev Hty Hpaid Hmeta Hp Hu session.
  rewrite (handleWebhook_paid W req event fields Hev Hty Hpaid Hmeta).
  cbn zeta. fold session.
  destruct (sendPaymentConfirmation_notifiable W (confirmation_of session fields)
              (confirmation_notifiable _ session fields p u Hp Hu))
    as (s & p' & u' & mail & Hs & Hp' & Hu' & Hto & Hfrom & Hsub & Hhead & ->).
  cbn in Hs, Hp', Hu'.
  assert (s = sess_id session) by congruence.
  assert (p' = p) by congruence. assert (u' = u) by congruence. subst s p' u'.
  exists mail. split.
  - destruct (transporter_sendMail W mail); reflexivity.
  - repeat split; assumption.
Qed.

Lemma handleWebhook_sends_one_mail_witness :
  exists mail,
    mail_calls (trace (handleWebhook Sample.world Sample.signed_webhook)) = [mail]
    /\ mail_to mail = "storemf69@gmail.com"
    /\ mail_from mail = VUndefined
    /\ mail_subject mail = "New Payment Received - Orion - player1 - ID: cs_test_"
    /\ mail_headers mail
       = [("X-Transaction-ID", VString "cs_test_a1b2c3d4e5");
          ("Message-ID", VString "<payment-cs_test_a1b2c3d4e5@bigwin.gold>")]
    /\ completion (handleWebhook Sample.world Sample.signed_webhook)
       = Normal {| status := 200; body := BodyEmpty |}.
Proof.
  exact (handleWebhook_sends_one_mail
           Sample.world Sample.signed_webhook
           {| ev_type := "checkout.session.completed";
              ev_data_object := Sample.paid_session |}
           [("requestId", VString "9f3c");
            ("userIp", VString "10.0.0.1");
            ("username", VString "player1");
            ("serverProvider", VString "Orion")]
           "Orion" "player1"
           eq_refl eq_refl eq_refl eq_refl eq_refl eq_refl).
Defined.

(** X12. No webhook request causes more than one message, and none is
    sent unless the signature verifies and the event is a paid
    'checkout.session.completed'. *)
Theorem handleWebhook_mail_only_when_paid :
  forall (W : World) (req : WebhookRequest),
    mail_calls (trace (handleWebhook W req)) = []
    \/ exists event mail,
         stripe_webhooks_constructEvent W (raw_body req)
           (prop "stripe-signature" (headers req))
           (process_env W "STRIPE_WEBHOOK_SECRET") = inr event
         /\ ev_type event = "checkout.session.completed"
         /\ payment_status (ev_data_object event) = "paid"
         /\ mail_calls (trace (handleWebhook W req)) = [mail].
Proof.
  intros W req.
  destruct (stripe_webhooks_constructEvent W (raw_body req)
              (prop "stripe-signature" (headers req))
              (process_env W "STRIPE_WEBHOOK_SECRET")) as [err | event] eqn:Hev.
  - left. unfold handleWebhook, handleWebhook_with. rewrite Hev. reflexivity.
  - destruct (String.eqb_spec (ev_type event) "checkout.session.completed")
      as [Hty | Hty].
    2:{ left. unfold handleWebhook.
        rewrite (handleWebhook_with_verified W _ req event Hev).
        apply String.eqb_neq in Hty. rewrite Hty. reflexivity. }
    destruct (String.eqb_spec (payment_status (ev_data_object event)) "paid")
      as [Hpaid | Hpaid].
    2:{ left. unfold handleWebhook.
        rewrite (handleWebhook_with_verified W _ req event Hev).
        apply String.eqb_neq in Hpaid. rewrite Hpaid, andb_false_r. reflexivity. }
    destruct (metadata (ev_data_object event)) as [fields |] eqn:Hmeta.
    2:{ left. unfold handleWebhook.
        rewrite (handleWebhook_with_verified W _ req event Hev).
        rewrite Hty, Hpaid, Hmeta. reflexivity. }
    rewrite (handleWebhook_paid W req event fields Hev Hty Hpaid Hmeta).
    cbn zeta.
    destruct (notifiable_dec (host W)
                (confirmation_of (ev_data_object event) fields)) as [Hy | Hn].
    + destruct (sendPaymentConfirmation_notifiable W _ Hy)
        as (s & p & u & mail & _ & _ & _ & _ & _ & _ & _ & ->).
      right. exists event, mail. repeat split; try assumption.
      destruct (transporter_sendMail W mail); reflexivity.
    + destruct (sendPaymentConfirmation_not_notifiable W _ Hn) as [e ->].
      left. reflexivity.
Qed.

(** X13. When the mail transport throws, the sender logs the failure and
    returns [false]; the handler ignores that result, so the line
    'Payment confirmation email sent for payment: <id>' is written all
    the same, and the response is 200.  The session's metadata is an
    object here; whether its properties can be printed does not matter,
    since the sender logs that failure under the same line. *)
Theorem handleWebhook_logs_success_after_failure :
  forall (W : World) (req : WebhookRequest) (event : Event) (fields : JsObject),
    stripe_webhooks_constructEvent W (raw_body req)
      (prop "stripe-signature" (headers req))
      (process_env W "STRIPE_WEBHOOK_SECRET") = inr event ->
    ev_type event = "checkout.session.completed" ->
    payment_status (ev_data_object event) = "paid" ->
    metadata (ev_data_object event) = Some fields ->
    (forall mail, exists err, transporter_sendMail W mail = inl err) ->
    log_lines (trace (handleWebhook W req))
    = ["Error sending payment confirmation email:";
       "Payment confirmation email sent for payment: "
       ++ sess_id (ev_data_object event)]
    /\ completion (handleWebhook W req)
       = Normal {| status := 200; body := BodyEmpty |}.
Proof.
  intros W req event fields Hev Hty Hpaid Hmeta Hdown.
  rewrite (handleWebhook_paid W req event fields Hev Hty Hpaid Hmeta).
  cbn zeta. split; [| reflexivity].
  destruct (notifiable_dec (host W)
              (confirmation_of (ev_data_object event) fields)) as [Hy | Hn].
  - destruct (sendPaymentConfirmation_notifiable W _ Hy)
      as (s & p & u & mail & _ & _ & _ & _ & _ & _ & _ & ->).
    destruct (Hdown mail) as [err ->]. reflexivity.
  - destruct (sendPaymentConfirmation_not_notifiable W _ Hn) as [e ->].
    reflexivity.
Qed.

Lemma handleWebhook_logs_success_after_failure_witness :
  log_lines (trace (handleWebhook Sample.world_smtp_down Sample.signed_webhook))
  = ["Error sending payment confirmation email:";
     "Payment confirmation email sent for payment: cs_test_a1b2c3d4e5"]
  /\ completion (handleWebhook Sample.world_smtp_down Sample.signed_webhook)
     = Normal {| status := 200; body := BodyEmpty |}.
Proof.
  apply (handleWebhook_logs_success_after_failure
           Sample.world_smtp_down Sample.signed_webhook
           {| ev_type := "checkout.session.completed";
              ev_data_object := Sample.paid_session |}
           [("requestId", VString "9f3c");
            ("userIp", VString "10.0.0.1");
            ("username", VString "player1");
            ("serverProvider", VString "Orion")]).
  - reflexivity.
  - reflexivity.
  - reflexivity.
  - reflexivity.
  - intros mail. exists Sample.smtp_down. reflexivity.
Defined.

(** *** The Notification Sender, continued *)

Lemma not_notifiable_cases h fields :
  ~ notifiable h fields ->
  (forall s, prop "paymentId" fields <> VString s)
  \/ (exists e, ToString h (prop "serverProvider" fields) = inl e)
  \/ (exists e, ToString h (prop "username" fields) = inl e)
  \/ (exists e, ToString h (prop "amount" fields) = inl e).
Proof.
  intros Hn.
  destruct (VString_dec (prop "paymentId" fields)) as [[s Hs] | Hid];
    [| left; exact Hid].
  destruct (ToString h (prop "serverProvider" fields)) as [e | p] eqn:Hp;
    [right; left; eexists; reflexivity |].
  destruct (ToString h (prop "username" fields)) as [e | u] eqn:Hu;
    [right; right; left; eexists; reflexivity |].
  destruct (ToString h (prop "amount" fields)) as [e | a] eqn:Ha;
    [right; right; right; eexists; reflexivity |].
  exfalso. apply Hn. repeat split; eexists; eassumption.
Qed.

(** X14. The transport is reached exactly when the message can be
    built: [paymentId] is a string and [serverProvider], [username] and
    [amount] convert to strings; the message then goes to the operator
    address and carries the id in [X-Transaction-ID].  When [paymentId]
    is anything else (absent, [null], a number), or one of the three
    fields cannot be converted, no message is sent and the result is
    [false]. *)
Theorem sendPaymentConfirmation_sends_when_built :
  forall (W : World) (fields : JsObject),
    let run := sendPaymentConfirmation W (VObject fields) in
    (exists s p u a mail,
       prop "paymentId" fields = VString s
       /\ ToString (host W) (prop "serverProvider" fields) = inr p
       /\ ToString (host W) (prop "username" fields) = inr u
       /\ ToString (host W) (prop "amount" fields) = inr a
       /\ mail_calls (trace run) = [mail]
       /\ mail_to mail = "storemf69@gmail.com"
       /\ prop "X-Transaction-ID" (mail_headers mail) = VString s)
    \/ (((forall s, prop "paymentId" fields <> VString s)
         \/ (exists e, ToString (host W) (prop "serverProvider" fields) = inl e)
         \/ (exists e, ToString (host W) (prop "username" fields) = inl e)
         \/ (exists e, ToString (host W) (prop "amount" fields) = inl e))
        /\ mail_calls (trace run) = []
        /\ completion run = Normal false).
Proof.
  intros W fields run. subst run.
  destruct (notifiable_dec (host W) fields) as [Hy | Hn].
  - left. pose proof Hy as (_ & _ & _ & [a Ha]).
    destruct (sendPaymentConfirmation_notifiable W fields Hy)
      as (s & p & u & mail & Hs & Hp & Hu & Hto & _ & _ & Hhead & ->).
    exists s, p, u, a, mail.
    repeat (split; [assumption |]).
    split; [destruct (transporter_sendMail W mail); reflexivity |].
    split; [exact Hto |]. rewrite Hhead. reflexivity.
  - right. split; [exact (not_notifiable_cases _ _ Hn) |].
    destruct (sendPaymentConfirmation_not_notifiable W fields Hn) as [e ->].
    split; reflexivity.
Qed.

(** A payment without an id is not notified, although the transport works. *)
Example sendPaymentConfirmation_without_id :
  sendPaymentConfirmation Sample.world
    (VObject [("serverProvider", VString "Orion"); ("username", VString "player1");
              ("amount", VNumber (of_Z 25))])
  = (Normal false,
     [ConsoleError "Error sending payment confirmation email:"
        (Some (TypeError "Cannot read properties of undefined (reading 'substring')"))]).
Proof. reflexivity. Qed.

Example sendPaymentConfirmation_null_id :
  sendPaymentConfirmation Sample.world
    (VObject [("serverProvider", VString "Orion"); ("username", VString "player1");
              ("amount", VNumber (of_Z 25)); ("paymentId", VNull)])
  = (Normal false,
     [ConsoleError "Error sending payment confirmation email:"
        (Some (TypeError "Cannot read properties of null (reading 'substring')"))]).
Proof. reflexivity. Qed.

(** *** utils/emailService.js, earlier revision *)

Lemma legacy_mailOptions_built W sp un amount pid a p u i :
  ToString (host W) amount = inr a ->
  ToString (host W) sp = inr p ->
  ToString (host W) un = inr u ->
  ToString (host W) pid = inr i ->
  legacy_mailOptions W sp un amount pid
  = (Normal
       {| mail_from := process_env W "EMAIL_USER";
          mail_to := "storemf69@gmail.com";
          mail_subject := "New Payment Received";
          mail_headers := [];
          mail_html :=
            html_text (toFixed2 (host W) (parseFloat_string a)) p u i
              (Date_toLocaleString (host W)) [] |},
     []).
Proof.
  intros Ha Hp Hu Hi.
  unfold legacy_mailOptions, legacy_payment_html, to_string, parseFloat.
  rewrite Ha, Hp, Hu, Hi. reflexivity.
Qed.

Lemma legacy_sendPaymentConfirmation_sent W fields mail :
  legacy_mailOptions W (prop "serverProvider" fields) (prop "username" fields)
    (prop "amount" fields) (prop "paymentId" fields)
  = (Normal mail, []) ->
  legacy_sendPaymentConfirmation W (VObject fields)
  = match transporter_sendMail W mail with
    | inr _ =>
        (Normal true,
         [SendMail mail;
          ConsoleLog "Payment confirmation email sent to exmarine@gmail.com" []])
    | inl err =>
        (Normal false,
         [SendMail mail;
          ConsoleError "Error sending payment confirmation email:" (Some err)])
    end.
Proof.
  intros H. unfold legacy_sendPaymentConfirmation. cbn [destructure].
  unfold bind at 1. cbn [ret]. rewrite H. unfold external.
  cbn [bind emit app].
  destruct (transporter_sendMail W mail) as [err | []]; reflexivity.
Qed.

(** X15. The earlier sender needs no [paymentId]: whenever the four
    fields convert to strings, and an absent field prints as
    ['undefined'], exactly one message with the fixed subject goes to the
    operator address, and the result is [true] exactly when the
    transport accepts it. *)
Theorem legacy_sendPaymentConfirmation_sends_without_id :
  forall (W : World) (fields : JsObject) (a p u i : string),
    ToString (host W) (prop "amount" fields) = inr a ->
    ToString (host W) (prop "serverProvider" fields) = inr p ->
    ToString (host W) (prop "username" fields) = inr u ->
    ToString (host W) (prop "paymentId" fields) = inr i ->
    let run := legacy_sendPaymentConfirmation W (VObject fields) in
    exists mail,
      mail_calls (trace run) = [mail]
      /\ mail_to mail = "storemf69@gmail.com"
      /\ mail_subject mail = "New Payment Received"
      /\ completion run
         = Normal (match transporter_sendMail W mail with
                   | inr _ => true
                   | inl _ => false
                   end).
Proof.
  intros W fields a p u i Ha Hp Hu Hi run. subst run.
  pose proof (legacy_mailOptions_built W _ _ _ _ a p u i Ha Hp Hu Hi) as Hb.
  rewrite (legacy_sendPaymentConfirmation_sent W fields _ Hb).
  match type of Hb with _ = (Normal ?m, _) => exists m end.
  destruct (transporter_sendMail W _) eqn:E; repeat split.
Qed.

(** The payment without an id that the current sender does not notify. *)
Lemma legacy_sendPaymentConfirmation_sends_without_id_witness :
  let run :=
    legacy_sendPaymentConfirmation Sample.world
      (VObject [("serverProvider", VString "Orion");
                ("username", VString "player1");
                ("amount", VNumber (of_Z 25))]) in
  exists mail,
    mail_calls (trace run) = [mail]
    /\ mail_to mail = "storemf69@gmail.com"
    /\ mail_subject mail = "New Payment Received"
    /\ completion run
       = Normal (match transporter_sendMail Sample.world mail with
                 | inr _ => true
                 | inl _ => false
                 end).
Proof.
  exact (legacy_sendPaymentConfirmation_sends_without_id
           Sample.world
           [("serverProvider", VString "Orion");
            ("username", VString "player1");
            ("amount", VNumber (of_Z 25))]
           "25" "Orion" "player1" "undefined"
           eq_refl eq_refl eq_refl eq_refl).
Defined.

(** X16. Whenever the body of the message can be built, the earlier
    sender is [sendEmail] to the operator address with the fixed subject
    and that body: same result, same message to the transport. *)
Theorem legacy_sendPaymentConfirmation_is_sendEmail :
  forall (W : World) (fields : JsObject) (html : string),
    legacy_payment_html W (prop "serverProvider" fields)
      (prop "username" fields) (prop "amount" fields)
      (prop "paymentId" fields)
    = (Normal html, []) ->
    let general := sendEmail W "storemf69@gmail.com" "New Payment Received" html in
    let special := legacy_sendPaymentConfirmation W (VObject fields) in
    completion special = completion general
    /\ mail_calls (trace special) = mail_calls (trace general)
    /\ filter is_external_call (trace special)
       = filter is_external_call (trace general).
Proof.
  intros W fields html Hhtml general special. subst general special.
  rewrite (legacy_sendPaymentConfirmation_sent W fields
             {| mail_from := process_env W "EMAIL_USER";
                mail_to := "storemf69@gmail.com";
                mail_subject := "New Payment Received";
                mail_headers := [];
                mail_html := html |}).
  - unfold sendEmail, external. cbn zeta. cbn [bind emit app].
    destruct (transporter_sendMail W _) as [e | []]; repeat split.
  - unfold legacy_mailOptions. rewrite Hhtml. reflexivity.
Qed.

Lemma legacy_sendPaymentConfirmation_is_sendEmail_witness :
  let fields :=
    [("serverProvider", VString "Orion");
     ("username", VString "player1");
     ("amount", VNumber (of_Z 25))] in
  let html :=
    html_text "25.00" "Orion" "player1" "undefined"
      "11/14/2023, 10:13:20 PM" [] in
  let general :=
    sendEmail Sample.world "storemf69@gmail.com" "New Payment Received" html in
  let special := legacy_sendPaymentConfirmation Sample.world (VObject fields) in
  completion special = completion general
  /\ mail_calls (trace special) = mail_calls (trace general)
  /\ filter is_external_call (trace special)
     = filter is_external_call (trace general).
Proof.
  apply (legacy_sendPaymentConfirmation_is_sendEmail
           Sample.world
           [("serverProvider", VString "Orion");
            ("username", VString "player1");
            ("amount", VNumber (of_Z 25))]).
  vm_compute. reflexivity.
Defined.

(** [sendEmail] never throws: a transport failure is a [false]. *)
Lemma sendEmail_returns_boolean W to subject html :
  exists mail,
    mail_calls (trace (sendEmail W to subject html)) = [mail]
    /\ mail_to mail = to /\ mail_subject mail = subject /\ mail_html mail = html
    /\ completion (sendEmail W to subject html)
       = Normal (match transporter_sendMail W mail with
                 | inr _ => true
                 | inl _ => false
                 end).
Proof.
  unfold sendEmail, external. cbn zeta. eexists.
  destruct (transporter_sendMail W _) as [e | []] eqn:E;
    (split; [reflexivity |]); cbn; rewrite ?E; repeat split.
Qed.

(** *** routes/paymentRoutes.js: the router *)

Lemma frontend_or_default_set W :
  ToBoolean (process_env W "FRONTEND_URL") = true ->
  frontend_or_default W = process_env W "FRONTEND_URL".
Proof. intros H. unfold frontend_or_default, js_or. rewrite H. reflexivity. Qed.

(** X17. When [FRONTEND_URL] is set (to a non-empty string) the router's
    [POST /checkout] and the one of [index.js] are the same handler: same
    response, same calls, in the same order, for every request. *)
Theorem router_post_checkout_agrees :
  forall (W : World) (req : CheckoutRequest),
    ToBoolean (process_env W "FRONTEND_URL") = true ->
    router_post_checkout W req = post_checkout W req.
Proof.
  intros W req H.
  unfold router_post_checkout, post_checkout, router_checkout_params,
    checkout_params, amount_refused.
  rewrite (frontend_or_default_set W H). reflexivity.
Qed.

Lemma router_post_checkout_agrees_witness :
  router_post_checkout Sample.world (Sample.checkout_request (VString "25.99"))
  = post_checkout Sample.world (Sample.checkout_request (VString "25.99")).
Proof.
  apply (router_post_checkout_agrees
           Sample.world (Sample.checkout_request (VString "25.99"))).
  reflexivity.
Defined.

(** Where the router sends the payer back to. *)
Lemma router_checkout_params_urls W req sp un a params t :
  router_checkout_params W req sp un a = (Normal params, t) ->
  exists frontend,
    ToString (host W) (frontend_or_default W) = inr frontend
    /\ success_url params
       = frontend ++ "/payment-success?session_id={CHECKOUT_SESSION_ID}"
    /\ cancel_url params = frontend ++ "/payment-cancel".
Proof.
  unfold router_checkout_params, to_string.
  destruct (ToString (host W) sp) as [e | p]; [discriminate |].
  destruct (ToString (host W) un) as [e | u]; [discriminate |].
  destruct (ToString (host W) (frontend_or_default W)) as [e | f];
    [discriminate |].
  cbn. intros H. inversion H; subst. exists f. repeat split.
Qed.

Lemma router_post_checkout_create_calls W req :
  create_calls (trace (router_post_checkout W req)) = []
  \/ exists a params,
       router_checkout_params W req (prop "serverProvider" (req_body req))
         (prop "username" (req_body req)) a
       = (Normal params, [])
       /\ create_calls (trace (router_post_checkout W req)) = [params].
Proof.
  unfold router_post_checkout. cbn zeta.
  destruct (negb (ToBoolean (prop "serverProvider" (req_body req)))
            || negb (ToBoolean (prop "username" (req_body req)))
            || negb (ToBoolean (prop "amount" (req_body req))));
    [left; reflexivity |].
  destruct (parseFloat (host W) (prop "amount" (req_body req))) as [e | a];
    [left; reflexivity |].
  cbn [lift bind ret emit app].
  destruct (isNaN a || leb a (of_Z 0) || gtb a (of_Z 10000));
    [left; reflexivity |].
  destruct (router_checkout_params W req (prop "serverProvider" (req_body req))
              (prop "username" (req_body req)) a) as [[params | e] t] eqn:Hp.
  - assert (Ht : t = []).
    { revert Hp. unfold router_checkout_params, to_string.
      destruct (ToString (host W) (prop "serverProvider" (req_body req)));
        [discriminate |].
      destruct (ToString (host W) (prop "username" (req_body req)));
        [discriminate |].
      destruct (ToString (host W) (frontend_or_default W)); [discriminate |].
      cbn. intros H. inversion H. reflexivity. }
    subst t. right. exists a, params. split; [exact Hp |].
    unfold external. cbn [bind emit app].
    destruct (stripe_checkout_sessions_create W params); reflexivity.
  - left.
    assert (Ht : t = []).
    { revert Hp. unfold router_checkout_params, to_string.
      destruct (ToString (host W) (prop "serverProvider" (req_body req)));
        [cbn; intros H; inversion H; reflexivity |].
      destruct (ToString (host W) (prop "username" (req_body req)));
        [cbn; intros H; inversion H; reflexivity |].
      destruct (ToString (host W) (frontend_or_default W));
        cbn; intros H; inversion H; reflexivity. }
    subst t. reflexivity.
Qed.

(** X18. When [FRONTEND_URL] is not set, the handler of [index.js] asks
    the processor to send the payer back to the literal address
    [undefined/payment-success?...] (and [undefined/payment-cancel]),
    while the router falls back to [http://localhost:5173]. *)
Theorem checkout_redirects_without_frontend_url :
  forall (W : World) (req : CheckoutRequest) (p q : CreateParams),
    process_env W "FRONTEND_URL" = VUndefined ->
    In p (create_calls (trace (post_checkout W req))) ->
    In q (create_calls (trace (router_post_checkout W req))) ->
    success_url p = "undefined/payment-success?session_id={CHECKOUT_SESSION_ID}"
    /\ cancel_url p = "undefined/payment-cancel"
    /\ success_url q
       = "http://localhost:5173/payment-success?session_id={CHECKOUT_SESSION_ID}"
    /\ cancel_url q = "http://localhost:5173/payment-cancel".
Proof.
  intros W req p q Henv Hp Hq.
  assert (He : environment W "FRONTEND_URL" = None).
  { unfold process_env in Henv.
    destruct (environment W "FRONTEND_URL"); [discriminate | reflexivity]. }
  destruct (post_checkout_create_calls W req) as [Hc | (a & built & _ & Hb & Hc)];
    rewrite Hc in Hp; [contradiction |].
  destruct (router_post_checkout_create_calls W req) as [Hr | (a' & built' & Hb' & Hr)];
    rewrite Hr in Hq; [contradiction |].
  destruct Hp as [<- | []]. destruct Hq as [<- | []].
  destruct (checkout_params_built W req _ _ _ _ _ Hb)
    as (_ & _ & _ & _ & _ & _ & _ & _ & -> & ->).
  destruct (router_checkout_params_urls W req _ _ _ _ _ Hb')
    as (f & Hf & -> & ->).
  unfold frontend_or_default, js_or in Hf. rewrite Henv in Hf. cbn in Hf.
  inversion Hf; subst. rewrite He. repeat split.
Qed.

Lemma checkout_redirects_without_frontend_url_witness :
  let p := Sample.created_params "undefined" in
  let q := Sample.created_params "http://localhost:5173" in
  success_url p = "undefined/payment-success?session_id={CHECKOUT_SESSION_ID}"
  /\ cancel_url p = "undefined/payment-cancel"
  /\ success_url q
     = "http://localhost:5173/payment-success?session_id={CHECKOUT_SESSION_ID}"
  /\ cancel_url q = "http://localhost:5173/payment-cancel".
Proof.
  apply (checkout_redirects_without_frontend_url
           Outage.world_no_frontend (Sample.checkout_request (VString "25.99"))).
  - reflexivity.
  - vm_compute. left. reflexivity.
  - vm_compute. left. reflexivity.
Defined.

(** The run of the router's verification handler for a non-empty id. *)
Lemma router_get_verify_payment_asked W currency req :
  sessionId req <> "" ->
  router_get_verify_payment W currency req
  = match stripe_checkout_sessions_retrieve W (sessionId req) [] with
    | inr session =>
        (Normal (json 200
                   [("status", VString "success");
                    ("paymentStatus", VString (payment_status session));
                    ("paymentDetails", router_paymentDetails currency session)]),
         [StripeSessionsRetrieve (sessionId req) []])
    | inl error =>
        (Normal (json 500 (error_body "Failed to verify payment")),
         [StripeSessionsRetrieve (sessionId req) [];
          ConsoleError "Error verifying payment:" (Some error)])
    end.
Proof.
  intros Hne. unfold router_get_verify_payment, external. cbn zeta.
  apply String.eqb_neq in Hne. rewrite Hne.
  destruct (stripe_checkout_sessions_retrieve W (sessionId req) [])
    as [error | session]; [reflexivity |].
  cbn. destruct (String.eqb_spec (payment_status session) "paid") as [-> | _];
    reflexivity.
Qed.

(** X19. The router's [GET /verify-payment/:sessionId] has no not-found
    case: every error of the processor, the unknown session included,
    gives the same 500 'Failed to verify payment', without details. *)
Theorem router_get_verify_payment_error_500 :
  forall (W : World) (currency : Session -> JsValue)
         (req : VerifyRequest) (error : JsError),
    sessionId req <> "" ->
    stripe_checkout_sessions_retrieve W (sessionId req) [] = inl error ->
    completion (router_get_verify_payment W currency req)
    = Normal {| status := 500;
                body := BodyJson
                  (VObject [("status", VString "error");
                            ("message", VString "Failed to verify payment")]) |}.
Proof.
  intros W currency req error Hne Herr.
  rewrite (router_get_verify_payment_asked W currency req Hne), Herr.
  reflexivity.
Qed.

Lemma router_get_verify_payment_error_500_witness :
  completion (router_get_verify_payment Sample.world Outage.usd
                (Sample.verify_request "cs_test_unknown000"))
  = Normal {| status := 500;
              body := BodyJson
                (VObject [("status", VString "error");
                          ("message", VString "Failed to verify payment")]) |}.
Proof.
  apply (router_get_verify_payment_error_500
           Sample.world Outage.usd (Sample.verify_request "cs_test_unknown000")
           (Sample.unknown_session "cs_test_unknown000")).
  - discriminate.
  - reflexivity.
Defined.

(** X20. The router reports the amount as a Number, [amount_total / 100],
    for every session: the two branches on the payment status build the
    same response, and a session without an amount is reported as [0]
    where [index.js] reports [null]. *)
Theorem router_get_verify_payment_success :
  forall (W : World) (currency : Session -> JsValue)
         (req : VerifyRequest) (session : Session),
    sessionId req <> "" ->
    stripe_checkout_sessions_retrieve W (sessionId req) [] = inr session ->
    completion (router_get_verify_payment W currency req)
    = Normal {| status := 200;
                body := BodyJson
                  (VObject
                     [("status", VString "success");
                      ("paymentStatus", VString (payment_status session));
                      ("paymentDetails",
                       VObject
                         [("amount",
                           VNumber (match amount_total session with
                                    | Some a => div (of_Z a) (of_Z 100)
                                    | None => S754_zero false
                                    end));
                          ("currency", currency session)])]) |}.
Proof.
  intros W currency req session Hne Hok.
  rewrite (router_get_verify_payment_asked W currency req Hne), Hok.
  unfold router_paymentDetails, amount_total_number.
  destruct (amount_total session); reflexivity.
Qed.

Lemma router_get_verify_payment_success_witness :
  completion (router_get_verify_payment Sample.world Outage.usd
                (Sample.verify_request "cs_test_a1b2c3d4e5"))
  = Normal {| status := 200;
              body := BodyJson
                (VObject
                   [("status", VString "success");
                    ("paymentStatus", VString "paid");
                    ("paymentDetails",
                     VObject [("amount", VNumber (div (of_Z 2599) (of_Z 100)));
                              ("currency", VString "usd")])]) |}.
Proof.
  apply (router_get_verify_payment_success
           Sample.world Outage.usd (Sample.verify_request "cs_test_a1b2c3d4e5")
           Sample.paid_session).
  - discriminate.
  - reflexivity.
Defined.

(** *** index.js, earlier revision *)

Lemma legacy_get_verify_payment_asked W req :
  sessionId req <> "" ->
  let expand := ["payment_intent"; "line_items"] in
  legacy_get_verify_payment W req
  = match stripe_checkout_sessions_retrieve W (sessionId req) expand with
    | inr session =>
        (Normal (json 200 [("status", VString "success");
                           ("paymentStatus", VString (payment_status session));
                           ("amount", verify_amount W session);
                           ("customerDetails", verify_customerDetails session)]),
         [StripeSessionsRetrieve (sessionId req) expand])
    | inl error =>
        (Normal (json 500
                   [("status", VString "error");
                    ("message", VString "Failed to verify payment status");
                    ("details", VString (err_message error))]),
         [StripeSessionsRetrieve (sessionId req) expand;
          ConsoleError "Error verifying payment:" (Some error)])
    end.
Proof.
  intros Hne expand. unfold legacy_get_verify_payment, external. cbn zeta.
  apply String.eqb_neq in Hne. rewrite Hne. fold expand.
  destruct (stripe_checkout_sessions_retrieve W (sessionId req) expand);
    reflexivity.
Qed.

Lemma well_formed_nonempty (s : string) :
  well_formed_session_id s -> s <> "".
Proof. intros [Hlen _] ->. simpl in Hlen. lia. Qed.

(** X21. On a well-formed session id that the processor knows, the
    current handler answers what the earlier revision answered, plus
    [paymentDetails]: [status], [paymentStatus], [amount] and
    [customerDetails] are the same. *)
Theorem get_verify_payment_extends_legacy :
  forall (W : World) (req : VerifyRequest) (session : Session),
    well_formed_session_id (sessionId req) ->
    stripe_checkout_sessions_retrieve W (sessionId req)
      ["payment_intent"; "line_items"] = inr session ->
    exists old new,
      completion (legacy_get_verify_payment W req) = Normal old
      /\ completion (get_verify_payment W req) = Normal new
      /\ status old = status new
      /\ Forall (fun k => body_field k old = body_field k new
                          /\ body_has k new = true)
           ["status"; "paymentStatus"; "customerDetails"]
      /\ body_field "amount" old = body_field "amount" new
      /\ body_field "paymentDetails" old = None
      /\ body_has "paymentDetails" new = true.
Proof.
  intros W req session Hid Hok.
  rewrite (legacy_get_verify_payment_asked W req (well_formed_nonempty _ Hid)).
  rewrite (get_verify_payment_asked W req Hid), Hok.
  do 2 eexists. split; [reflexivity |]. split; [reflexivity |].
  split; [reflexivity |]. split.
  - repeat constructor.
  - split; [reflexivity |]. split; [reflexivity |].
    cbn. unfold verify_paymentDetails.
    destruct (payment_status session =? "paid")%string; reflexivity.
Qed.

Lemma get_verify_payment_extends_legacy_witness :
  exists old new,
    completion (legacy_get_verify_payment Sample.world
                  (Sample.verify_request "cs_test_a1b2c3d4e5")) = Normal old
    /\ completion (get_verify_payment Sample.world
                     (Sample.verify_request "cs_test_a1b2c3d4e5")) = Normal new
    /\ status old = status new
    /\ Forall (fun k => body_field k old = body_field k new
                        /\ body_has k new = true)
         ["status"; "paymentStatus"; "customerDetails"]
    /\ body_field "amount" old = body_field "amount" new
    /\ body_field "paymentDetails" old = None
    /\ body_has "paymentDetails" new = true.
Proof.
  apply (get_verify_payment_extends_legacy
           Sample.world (Sample.verify_request "cs_test_a1b2c3d4e5")
           Sample.paid_session).
  - split; [cbn; lia | reflexivity].
  - reflexivity.
Defined.

(** X22. The earlier revision asks the processor for every non-empty id,
    and on any error of the processor answers 500 with the error's own
    message in [details], in every mode; an unknown session is such a
    500, not a 404. *)
Theorem legacy_get_verify_payment_discloses_error :
  forall (W : World) (req : VerifyRequest) (error : JsError),
    sessionId req <> "" ->
    stripe_checkout_sessions_retrieve W (sessionId req)
      ["payment_intent"; "line_items"] = inl error ->
    completion (legacy_get_verify_payment W req)
    = Normal {| status := 500;
                body := BodyJson
                  (VObject [("status", VString "error");
                            ("message", VString "Failed to verify payment status");
                            ("details", VString (err_message error))]) |}
    /\ retrieve_calls (trace (legacy_get_verify_payment W req))
       = [(sessionId req, ["payment_intent"; "line_items"])].
Proof.
  intros W req error Hne Herr.
  rewrite (legacy_get_verify_payment_asked W req Hne), Herr.
  split; reflexivity.
Qed.

Lemma legacy_get_verify_payment_discloses_error_witness :
  let req := Sample.verify_request "unknown" in
  completion (legacy_get_verify_payment Sample.world req)
  = Normal {| status := 500;
              body := BodyJson
                (VObject [("status", VString "error");
                          ("message", VString "Failed to verify payment status");
                          ("details",
                           VString "No such checkout.session: unknown")]) |}
  /\ retrieve_calls (trace (legacy_get_verify_payment Sample.world req))
     = [("unknown", ["payment_intent"; "line_items"])].
Proof.
  apply (legacy_get_verify_payment_discloses_error
           Sample.world (Sample.verify_request "unknown")
           (Sample.unknown_session "unknown")).
  - discriminate.
  - reflexivity.
Defined.

(* ================================================================= *)
(** ** Rounding to a Number *)

Lemma bracket_of_loc (m : Z) (l : location) (N D : Z) :
  0 < D -> 0 <= N -> m = N / D -> l = loc_of (N mod D) D ->
  bracket (shr_record_of_loc m l) N D.
Proof.
  intros HD HN Hm Hl. repeat split; try assumption.
  - rewrite shr_record_of_loc_m. exact Hm.
  - rewrite <- Hl. destruct l as [| []]; reflexivity.
Qed.

Lemma loc_of_half (b r D : Z) (m : Z) :
  0 <= r < D -> b = 0 \/ b = 1 ->
  loc_of_shr_record (Build_shr_record m (b =? 1) (negb (r =? 0)))
  = loc_of (b * D + r) (2 * D).
Proof.
  intros Hr Hb. unfold loc_of, loc_of_shr_record.
  destruct (Z.eqb_spec (b * D + r) 0) as [E | E];
    destruct (Z.eqb_spec r 0) as [Er | Er];
    destruct Hb as [-> | ->]; cbn [Z.eqb negb]; try lia; try reflexivity;
    destruct (Z.compare_spec (2 * (1 * D + r)) (2 * D));
    destruct (Z.compare_spec (2 * (0 * D + r)) (2 * D));
    try lia; reflexivity.
Qed.

Lemma shr_1_bracket (rec : shr_record) (N D : Z) :
  bracket rec N D -> bracket (shr_1 rec) N (2 * D).
Proof.
  intros (HD & HN & Hm & Hl).
  pose proof (Z.div_mod N D ltac:(lia)) as Hdm.
  pose proof (Z.mod_pos_bound N D HD) as Hr.
  assert (Hq : 0 <= N / D) by (apply Z.div_pos; lia).
  assert (Hcase :
    forall b q', (b = 0 \/ b = 1) -> N / D = 2 * q' + b ->
      N / (2 * D) = q' /\ N mod (2 * D) = b * D + N mod D).
  { intros b q' Hb Hq'.
    assert (E : N = (2 * D) * q' + (b * D + N mod D)) by nia.
    split.
    - symmetry. apply Z.div_unique with (b * D + N mod D); [left; nia | exact E].
    - symmetry. apply Z.mod_unique with q'; [left; nia | exact E]. }
  destruct rec as [m rb sb]. cbn [shr_m] in Hm.
  assert (Hs : orb rb sb = negb (N mod D =? 0)).
  { unfold loc_of in Hl.
    destruct (N mod D =? 0); destruct rb, sb; cbn in Hl |- *;
      try reflexivity; try discriminate. }
  assert (Hgoal : forall b q', (b = 0 \/ b = 1) -> N / D = 2 * q' + b ->
            bracket (Build_shr_record q' (b =? 1) (orb rb sb)) N (2 * D)).
  { intros b q' Hb Hq'.
    destruct (Hcase b q' Hb Hq') as [E1 E2].
    repeat split; try lia.
    - cbn [shr_m]. symmetry. exact E1.
    - rewrite E2, Hs. apply loc_of_half; assumption. }
  rewrite <- Hm in Hgoal, Hq.
  destruct m as [| [p | p |] | p]; try lia; cbn [shr_1].
  - apply (Hgoal 0 0); [left; reflexivity | lia].
  - apply (Hgoal 1 (Z.pos p)); [right; reflexivity | lia].
  - apply (Hgoal 0 (Z.pos p)); [left; reflexivity | lia].
  - apply (Hgoal 1 0); [right; reflexivity | lia].
Qed.

Lemma iter_shr_1_bracket (n : positive) :
  forall rec N D, bracket rec N D ->
    bracket (iter_pos shr_1 n rec) N (D * 2 ^ Z.pos n).
Proof.
  assert (E0 : forall n, 2 ^ Z.pos n~0 = 2 ^ Z.pos n * 2 ^ Z.pos n).
  { intros k. rewrite <- Z.pow_add_r by lia. f_equal. lia. }
  assert (E1 : forall n, 2 ^ Z.pos n~1 = 2 * (2 ^ Z.pos n * 2 ^ Z.pos n)).
  { intros k. rewrite <- Z.pow_add_r, <- Z.pow_succ_r by lia. f_equal. lia. }
  induction n as [n IH | n IH |]; intros rec N D H; simpl iter_pos.
  - apply shr_1_bracket in H. apply IH in H. apply IH in H.
    rewrite E1. replace (D * (2 * (2 ^ Z.pos n * 2 ^ Z.pos n)))
      with (2 * D * 2 ^ Z.pos n * 2 ^ Z.pos n) by ring. exact H.
  - apply IH in H. apply IH in H.
    rewrite E0. replace (D * (2 ^ Z.pos n * 2 ^ Z.pos n))
      with (D * 2 ^ Z.pos n * 2 ^ Z.pos n) by ring. exact H.
  - apply shr_1_bracket in H.
    replace (D * 2 ^ 1) with (2 * D) by (rewrite Z.pow_1_r; ring). exact H.
Qed.

Lemma Zdigits2_bounds (m : Z) :
  0 < m -> 2 ^ (Zdigits2 m - 1) <= m < 2 ^ Zdigits2 m.
Proof.
  intros Hm. rewrite (Zdigits2_log2 m Hm).
  replace (Z.log2 m + 1 - 1) with (Z.log2 m) by lia.
  replace (Z.log2 m + 1) with (Z.succ (Z.log2 m)) by lia.
  apply Z.log2_spec. exact Hm.
Qed.

Lemma Zdigits2_unique (m d : Z) :
  0 < d -> 2 ^ (d - 1) <= m < 2 ^ d -> Zdigits2 m = d.
Proof.
  intros Hd H.
  assert (Hm : 0 < m).
  { apply Z.lt_le_trans with (2 ^ (d - 1)); [apply Z.pow_pos_nonneg; lia | lia]. }
  rewrite (Zdigits2_log2 m Hm).
  rewrite (Z.log2_unique m (d - 1)); [lia | lia |].
  replace (Z.succ (d - 1)) with d by lia. exact H.
Qed.

Lemma Zdigits2_shiftr (m n : Z) :
  0 < m -> 0 <= n < Zdigits2 m -> Zdigits2 (m / 2 ^ n) = Zdigits2 m - n.
Proof.
  intros Hm Hn.
  rewrite (Zdigits2_log2 m Hm) in Hn |- *.
  assert (Hq : 0 < m / 2 ^ n).
  { apply Z.div_str_pos. split; [apply Z.pow_pos_nonneg; lia |].
    apply Z.le_trans with (2 ^ Z.log2 m).
    - apply Z.pow_le_mono_r; lia.
    - apply Z.log2_spec. exact Hm. }
  rewrite (Zdigits2_log2 _ Hq).
  rewrite <- Z.shiftr_div_pow2 by lia.
  rewrite Z.log2_shiftr by exact Hm. lia.
Qed.

(** The first step of [binary_round_aux] on a mantissa of at least 53
    bits, away from the subnormal range: the shift leaves 53 bits and
    keeps the bracket. *)
Lemma shr_fexp_spec (m e : Z) (l : location) (N D : Z) :
  0 < D -> 0 < m -> m = N / D -> l = loc_of (N mod D) D ->
  53 <= Zdigits2 m -> -1074 <= Zdigits2 m + e - 53 ->
  exists rec,
    shr_fexp prec emax m e l = (rec, e + (Zdigits2 m - 53))
    /\ bracket rec N (D * 2 ^ (Zdigits2 m - 53)).
Proof.
  intros HD Hm HmN Hl Hdig Hnorm.
  assert (HN : 0 <= N).
  { destruct (Z.le_gt_cases 0 N) as [H | H]; [exact H |].
    exfalso. assert (N / D < 0) by (apply Z.div_lt_upper_bound; lia). lia. }
  pose proof (bracket_of_loc m l N D HD HN HmN Hl) as Hb.
  unfold shr_fexp, shr.
  assert (En : fexp prec emax (Zdigits2 m + e) - e = Zdigits2 m - 53)
    by (unfold fexp, emin, prec, emax; lia).
  rewrite En.
  destruct (Zdigits2 m - 53) as [| p | p] eqn:Ep; try lia.
  - eexists. split; [f_equal; lia |].
    rewrite Z.pow_0_r, Z.mul_1_r. exact Hb.
  - eexists. split; [reflexivity |].
    apply iter_shr_1_bracket. exact Hb.
Qed.

Lemma round_nearest_even_spec (rec : shr_record) (N D : Z) :
  bracket rec N D ->
  let z := round_nearest_even (shr_m rec) (loc_of_shr_record rec) in
  shr_m rec <= z <= shr_m rec + 1
  /\ - D <= 2 * (z * D - N) <= D.
Proof.
  intros (HD & HN & Hm & Hl) z. subst z.
  pose proof (Z.div_mod N D ltac:(lia)) as Hdm.
  pose proof (Z.mod_pos_bound N D HD) as Hr.
  rewrite Hl, Hm. unfold loc_of.
  destruct (Z.eqb_spec (N mod D) 0) as [E | E]; cbn [round_nearest_even].
  - split; [lia | nia].
  - destruct (Z.compare_spec (2 * (N mod D)) D) as [H | H | H].
    + destruct (Z.even (N / D)); split; try lia; nia.
    + split; [lia | nia].
    + split; [lia | nia].
Qed.

(** Rounding to nearest, ties to even.  If [m] and [l] stand for [N / D]
    and [m] has at least 53 bits, then, away from the subnormals and from
    overflow, [binary_round_aux] returns a finite Number with a 53-bit
    mantissa whose distance to [N / D * 2^e] is at most half a unit in
    the last place. *)
Theorem binary_round_aux_correct
        (s : bool) (m e : Z) (l : location) (N D : Z) :
  0 < D -> 0 < m -> m = N / D -> l = loc_of (N mod D) D ->
  53 <= Zdigits2 m -> -1074 <= Zdigits2 m + e - 53 -> Zdigits2 m + e <= 1023 ->
  exists (m' : positive) (k : Z),
    binary_round_aux prec emax s m e l = S754_finite s m' (e + k)
    /\ Zdigits2 m - 53 <= k <= Zdigits2 m - 52
    /\ 2 ^ 52 <= Z.pos m' < 2 ^ 53
    /\ - (D * 2 ^ k) <= 2 * (Z.pos m' * 2 ^ k * D - N) <= D * 2 ^ k.
Proof.
  intros HD Hm HmN Hl Hdig Hnorm Hover.
  set (n := Zdigits2 m - 53) in *.
  assert (Hn : 0 <= n) by lia.
  assert (Hpn : 0 < 2 ^ n) by (apply Z.pow_pos_nonneg; lia).
  destruct (shr_fexp_spec m e l N D HD Hm HmN Hl Hdig Hnorm) as [rec1 [E1 B1]].
  fold n in E1, B1.
  unfold binary_round_aux. rewrite E1.
  destruct (round_nearest_even_spec rec1 N (D * 2 ^ n) B1) as [Hz Herr].
  set (z := round_nearest_even (shr_m rec1) (loc_of_shr_record rec1)) in *.
  assert (Hm1 : shr_m rec1 = m / 2 ^ n).
  { destruct B1 as (_ & _ & B & _). rewrite B, HmN.
    rewrite Z.div_div by lia. reflexivity. }
  assert (Hd1 : Zdigits2 (shr_m rec1) = 53).
  { rewrite Hm1, Zdigits2_shiftr by lia. lia. }
  assert (Hm1pos : 0 < shr_m rec1).
  { rewrite Hm1. apply Z.div_str_pos. split; [lia |].
    pose proof (Zdigits2_bounds m Hm) as Hb.
    apply Z.le_trans with (2 ^ (Zdigits2 m - 1)); [| lia].
    apply Z.pow_le_mono_r; lia. }
  pose proof (Zdigits2_bounds _ Hm1pos) as Hb1. rewrite Hd1 in Hb1.
  change (53 - 1) with 52 in Hb1.
  assert (Hzpos : 0 < z) by lia.
  assert (Hzcase : z < 2 ^ 53 \/ z = 2 ^ 53) by lia.
  assert (Hdz : Zdigits2 z = 53 \/ (Zdigits2 z = 54 /\ z = 2 ^ 53)).
  { destruct Hzcase as [H | H].
    - left. apply Zdigits2_unique; [lia |]. change (53 - 1) with 52. lia.
    - right. split; [| exact H]. rewrite H. reflexivity. }
  assert (Hz1 : z = z / 1) by (rewrite Z.div_1_r; reflexivity).
  assert (Hzl : loc_Exact = loc_of (z mod 1) 1)
    by (rewrite Z.mod_1_r; reflexivity).
  assert (Hdz53 : 53 <= Zdigits2 z) by (destruct Hdz as [-> | [-> _]]; lia).
  assert (Hnorm2 : -1074 <= Zdigits2 z + (e + n) - 53) by lia.
  destruct (shr_fexp_spec z (e + n) loc_Exact z 1 ltac:(lia) Hzpos Hz1 Hzl
              Hdz53 Hnorm2) as [rec2 [E2 B2]].
  rewrite E2.
  destruct B2 as (_ & _ & B2 & _). rewrite Z.mul_1_l in B2.
  destruct Hdz as [Hd | [Hd Hz53]].
  - rewrite Hd in B2, E2 |- *. change (53 - 53) with 0 in *.
    rewrite Z.pow_0_r, Z.div_1_r in B2. rewrite B2.
    pose proof (Zdigits2_bounds z Hzpos) as Hbz. rewrite Hd in Hbz.
    change (53 - 1) with 52 in Hbz.
    destruct z as [| pz | pz]; try lia.
    assert (Hle : (e + n + 0 <=? emax - prec) = true)
      by (apply Z.leb_le; unfold emax, prec; lia).
    rewrite Hle. exists pz, n. split; [f_equal; lia |].
    split; [lia |]. split; [lia |].
    replace (Z.pos pz * 2 ^ n * D) with (Z.pos pz * (D * 2 ^ n)) by ring.
    exact Herr.
  - rewrite Hd in B2, E2 |- *. change (54 - 53) with 1 in *.
    rewrite Hz53 in B2. change (2 ^ 53 / 2 ^ 1) with (2 ^ 52) in B2.
    rewrite B2. change (2 ^ 52) with (Z.pos (Z.to_pos (2 ^ 52))).
    assert (Hle : (e + n + 1 <=? emax - prec) = true)
      by (apply Z.leb_le; unfold emax, prec; lia).
    rewrite Hle. exists (Z.to_pos (2 ^ 52)), (n + 1).
    split; [f_equal; lia |]. split; [lia |].
    split; [change (Z.pos (Z.to_pos (2 ^ 52))) with (2 ^ 52); lia |].
    change (Z.pos (Z.to_pos (2 ^ 52))) with (2 ^ 52).
    rewrite Z.pow_add_r, Z.pow_1_r by lia.
    rewrite Hz53 in Herr.
    replace (2 ^ 52 * (2 ^ n * 2) * D) with (2 ^ 53 * (D * 2 ^ n))
      by (change (2 ^ 53) with (2 ^ 52 * 2); ring).
    lia.
Qed.

Lemma new_location_loc_of (nb k : Z) :
  0 < nb -> 0 <= k < nb -> new_location nb k = loc_of k nb.
Proof.
  intros Hnb Hk. unfold new_location, new_location_even, new_location_odd, loc_of.
  destruct (Z.even nb) eqn:Ev; [reflexivity |].
  destruct (k =? 0); [reflexivity |]. f_equal.
  assert (Hodd : Z.odd nb = true) by (rewrite <- Z.negb_even, Ev; reflexivity).
  apply Z.odd_spec in Hodd. destruct Hodd as [c Hc].
  destruct (Z.compare_spec (2 * k + 1) nb);
    destruct (Z.compare_spec (2 * k) nb); try reflexivity; lia.
Qed.

(** The quotient and the location that [SFdiv_core_binary] hands to the
    rounding: the dividend is shifted so that the quotient has 53 or 54
    bits. *)
Lemma SFdiv_core_value (m1 e1 m2 e2 : Z) :
  0 < m1 -> 0 < m2 ->
  Zdigits2 m1 < Zdigits2 m2 + 53 ->
  -1074 <= Zdigits2 m1 + e1 - (Zdigits2 m2 + e2) - 53 ->
  let sh := 53 + Zdigits2 m2 - Zdigits2 m1 in
  SFdiv_core_binary prec emax m1 e1 m2 e2
  = (m1 * 2 ^ sh / m2, e1 - e2 - sh, new_location m2 ((m1 * 2 ^ sh) mod m2)).
Proof.
  intros H1 H2 Hd Hnorm sh.
  assert (Hsh : 0 < sh) by (subst sh; lia).
  unfold SFdiv_core_binary.
  assert (Ee : Z.min (fexp prec emax (Zdigits2 m1 + e1 - (Zdigits2 m2 + e2)))
                     (e1 - e2) = e1 - e2 - sh).
  { unfold fexp, emin, prec, emax. subst sh. lia. }
  rewrite Ee. replace (e1 - e2 - (e1 - e2 - sh)) with sh by lia.
  assert (Esh : match sh with
                | Z.pos _ => Z.shiftl m1 sh
                | 0 => m1
                | Z.neg _ => 0
                end = m1 * 2 ^ sh).
  { destruct sh eqn:E; try lia. rewrite Z.shiftl_mul_pow2 by lia. reflexivity. }
  rewrite Esh. unfold Z.div, Z.modulo.
  destruct (Z.div_eucl (m1 * 2 ^ sh) m2). reflexivity.
Qed.

(** Division of two positive mantissas: the quotient is rounded once. *)
Lemma div_core_round (s : bool) (m1 e1 m2 e2 : Z) :
  0 < m1 -> 0 < m2 ->
  Zdigits2 m1 < Zdigits2 m2 + 53 ->
  -1074 <= Zdigits2 m1 + e1 - (Zdigits2 m2 + e2) - 53 ->
  Zdigits2 m1 + e1 - (Zdigits2 m2 + e2) <= 1022 ->
  let sh := 53 + Zdigits2 m2 - Zdigits2 m1 in
  exists (m' : positive) (k : Z),
    (let '(mz, ez, lz) := SFdiv_core_binary prec emax m1 e1 m2 e2 in
     binary_round_aux prec emax s mz ez lz)
    = S754_finite s m' (e1 - e2 - sh + k)
    /\ 0 <= k <= 2
    /\ 2 ^ 52 <= Z.pos m' < 2 ^ 53
    /\ - (m2 * 2 ^ k) <= 2 * (Z.pos m' * 2 ^ k * m2 - m1 * 2 ^ sh) <= m2 * 2 ^ k.
Proof.
  intros H1 H2 Hd Hnorm Hover sh.
  pose proof (Zdigits2_bounds m1 H1) as B1.
  pose proof (Zdigits2_bounds m2 H2) as B2.
  assert (Hd1 : 0 < Zdigits2 m1)
    by (rewrite Zdigits2_log2 by lia; pose proof (Z.log2_nonneg m1); lia).
  assert (Hd2 : 0 < Zdigits2 m2)
    by (rewrite Zdigits2_log2 by lia; pose proof (Z.log2_nonneg m2); lia).
  assert (Hsh : 0 < sh) by (subst sh; lia).
  assert (Hpow : 0 < 2 ^ sh) by (apply Z.pow_pos_nonneg; lia).
  rewrite (SFdiv_core_value m1 e1 m2 e2 H1 H2 Hd Hnorm). fold sh.
  set (Nn := m1 * 2 ^ sh).
  assert (HNn : 0 < Nn) by (subst Nn; nia).
  pose proof (Z.div_mod Nn m2 ltac:(lia)) as Hdm.
  pose proof (Z.mod_pos_bound Nn m2 H2) as Hr.
  assert (Hlow : 2 ^ 52 <= Nn / m2).
  { apply Z.div_le_lower_bound; [lia |].
    assert (E : 2 ^ (Zdigits2 m1 - 1) * 2 ^ sh = 2 ^ 52 * 2 ^ Zdigits2 m2).
    { rewrite <- !Z.pow_add_r by lia. f_equal. lia. }
    subst Nn. nia. }
  assert (Hhigh : Nn / m2 < 2 ^ 54).
  { apply Z.div_lt_upper_bound; [lia |].
    assert (E : 2 ^ Zdigits2 m1 * 2 ^ sh = 2 ^ 54 * 2 ^ (Zdigits2 m2 - 1)).
    { rewrite <- !Z.pow_add_r by lia. f_equal. lia. }
    subst Nn. nia. }
  assert (Hdq : Zdigits2 (Nn / m2) = 53 \/ Zdigits2 (Nn / m2) = 54).
  { destruct (Z.lt_ge_cases (Nn / m2) (2 ^ 53)).
    - left. apply Zdigits2_unique; [lia |]. change (53 - 1) with 52. lia.
    - right. apply Zdigits2_unique; [lia |]. change (54 - 1) with 53. lia. }
  assert (Hloc : new_location m2 (Nn mod m2) = loc_of (Nn mod m2) m2)
    by (apply new_location_loc_of; lia).
  assert (Hq0 : 0 < Nn / m2) by lia.
  assert (Hg1 : 53 <= Zdigits2 (Nn / m2)) by lia.
  assert (Hg2 : -1074 <= Zdigits2 (Nn / m2) + (e1 - e2 - sh) - 53)
    by (subst sh; lia).
  assert (Hg3 : Zdigits2 (Nn / m2) + (e1 - e2 - sh) <= 1023)
    by (subst sh; lia).
  destruct (binary_round_aux_correct s (Nn / m2) (e1 - e2 - sh)
              (new_location m2 (Nn mod m2)) Nn m2
              H2 Hq0 eq_refl Hloc Hg1 Hg2 Hg3)
    as (m' & k & E & Hk & Hm' & Herr).
  exists m', k. split; [exact E |].
  split; [lia |]. split; [lia |]. exact Herr.
Qed.

(** *** Amounts with two decimals *)

(** The Number nearest to [N / 100], for [N] hundredths up to 10000.00:
    a 53-bit mantissa, an exponent fixed by the size of [N], and an error
    of at most half a unit in the last place. *)
Lemma hundredths_number (N : positive) :
  Z.pos N <= 1000000 ->
  exists (m : positive) (k : Z),
    of_decimal false (Z.pos N) (-2)
    = S754_finite false m (Zdigits2 (Z.pos N) - 60 + k)
    /\ 0 <= k <= 2
    /\ 1 <= Zdigits2 (Z.pos N) <= 20
    /\ 2 ^ 52 <= Z.pos m < 2 ^ 53
    /\ - (100 * 2 ^ k)
       <= 2 * (Z.pos m * 2 ^ k * 100 - Z.pos N * 2 ^ (60 - Zdigits2 (Z.pos N)))
       <= 100 * 2 ^ k.
Proof.
  intros HN.
  assert (Hd : 1 <= Zdigits2 (Z.pos N) <= 20).
  { rewrite Zdigits2_log2 by lia.
    pose proof (Z.log2_nonneg (Z.pos N)).
    assert (Z.log2 (Z.pos N) < 20); [| lia].
    apply Z.log2_lt_pow2; [lia |]. change (2 ^ 20) with 1048576. lia. }
  assert (H7 : Zdigits2 100 = 7) by reflexivity.
  destruct (div_core_round false (Z.pos N) 0 100 0)
    as (m & k & E & Hk & Hm & Herr); try lia.
  rewrite H7 in E, Herr.
  exists m, k. split.
  - etransitivity; [exact E |]. f_equal. lia.
  - split; [lia |]. split; [lia |]. split; [lia |].
    replace (60 - Zdigits2 (Z.pos N)) with (53 + 7 - Zdigits2 (Z.pos N)) by lia.
    lia.
Qed.

Lemma of_Z_100 : of_Z 100 = S754_finite false 7036874417766400 (-46).
Proof. reflexivity. Qed.

Lemma of_Z_10000 : of_Z 10000 = S754_finite false 5497558138880000 (-39).
Proof. reflexivity. Qed.

(** Such an amount passes the validation of [/checkout]. *)
Lemma hundredths_accepted (N : positive) :
  Z.pos N <= 1000000 ->
  amount_refused (of_decimal false (Z.pos N) (-2)) = false.
Proof.
  intros HN.
  destruct (hundredths_number N HN) as (m & k & E & Hk & Hd & Hm & Herr).
  rewrite E. unfold amount_refused. cbn [isNaN orb].
  change (leb (S754_finite false m (Zdigits2 (Z.pos N) - 60 + k)) (of_Z 0))
    with false. cbn [orb].
  unfold gtb. rewrite of_Z_10000. unfold SFltb, SFcompare.
  set (sh := 60 - Zdigits2 (Z.pos N)) in *.
  assert (Hsh : 0 <= sh) by (subst sh; lia).
  assert (Hp : 0 < 2 ^ sh) by (apply Z.pow_pos_nonneg; lia).
  assert (Hk' : k = 0 \/ k = 1 \/ k = 2) by lia.
  destruct (Z.compare_spec (-39) (Zdigits2 (Z.pos N) - 60 + k)) as [He | He | He];
    [| exfalso | reflexivity].
  - (* same exponent: compare the mantissas *)
    rewrite Pos.compare_cont_spec. cbn [Pos.switch_Eq].
    destruct (Pos.compare_spec 5497558138880000 m) as [H | H | H];
      [reflexivity | exfalso | reflexivity].
    assert (Es : sh = 39 + k) by (subst sh; lia).
    rewrite Es in Herr. rewrite Z.pow_add_r in Herr by lia.
    change (2 ^ 39) with 549755813888 in Herr.
    assert (Hpk : 0 < 2 ^ k) by (apply Z.pow_pos_nonneg; lia).
    assert (Z.pos m >= 5497558138880001) by lia.
    nia.
  - (* a larger exponent is out of reach *)
    assert (Es : sh <= 38 + k) by (subst sh; lia).
    assert (Hle : 2 ^ sh <= 2 ^ (38 + k)) by (apply Z.pow_le_mono_r; lia).
    rewrite Z.pow_add_r in Hle by lia.
    change (2 ^ 38) with 274877906944 in Hle.
    change (2 ^ 52) with 4503599627370496 in Hm.
    assert (Hpk : 0 < 2 ^ k) by (apply Z.pow_pos_nonneg; lia).
    nia.
Qed.

(** [Math.round(x * 100)] gives back the hundredths: the two roundings,
    of [N / 100] to a Number and of the product, stay far below one
    half. *)
Lemma hundredths_minor_units (N : positive) :
  Z.pos N <= 1000000 ->
  Math_round (mul (of_decimal false (Z.pos N) (-2)) (of_Z 100)) = of_Z (Z.pos N).
Proof.
  intros HN.
  destruct (hundredths_number N HN) as (m & k & E & Hk & Hd & Hm & Herr).
  rewrite E, of_Z_100. unfold mul, SFmul. cbn [xorb].
  set (ea := Zdigits2 (Z.pos N) - 60 + k) in *.
  set (P := Z.pos (m * 7036874417766400)).
  assert (HP : P = Z.pos m * 7036874417766400) by (subst P; lia).
  assert (HPlow : 2 ^ 104 <= P).
  { rewrite HP. change (2 ^ 104) with (2 ^ 52 * 2 ^ 52).
    change (2 ^ 52) with 4503599627370496 in *. nia. }
  assert (HPhigh : P < 2 ^ 106).
  { rewrite HP. change (2 ^ 106) with (2 ^ 53 * 2 ^ 53).
    change (2 ^ 53) with 9007199254740992 in *. nia. }
  assert (HdP : Zdigits2 P = 105 \/ Zdigits2 P = 106).
  { destruct (Z.lt_ge_cases P (2 ^ 105)).
    - left. apply Zdigits2_unique; [lia |]. change (105 - 1) with 104. lia.
    - right. apply Zdigits2_unique; [lia |]. change (106 - 1) with 105. lia. }
  assert (HP0 : 0 < P) by lia.
  assert (HP1 : P = P / 1) by (rewrite Z.div_1_r; reflexivity).
  assert (HPl : loc_Exact = loc_of (P mod 1) 1)
    by (rewrite Z.mod_1_r; reflexivity).
  destruct (binary_round_aux_correct false P (ea + -46) loc_Exact P 1
              ltac:(lia) HP0 HP1 HPl ltac:(lia) ltac:(subst ea; lia)
              ltac:(subst ea; lia))
    as (mp & k' & Ep & Hk' & Hmp & Herr').
  rewrite Ep. clear Ep.
  assert (Hk'r : 52 <= k' <= 54) by lia.
  set (ep := ea + -46 + k').
  assert (Hep : ep < 0) by (subst ep ea; lia).
  unfold Math_round.
  destruct (Z.leb_spec 0 ep) as [Hc | _]; [lia |].
  cbn [cond_Zopp]. unfold of_Z. f_equal.
  destruct ep as [| pj | pj] eqn:Ej; try lia.
  cbn [round_half_up_scaled]. rewrite Pos2Z.inj_pow.
  change (Z.pos 2) with 2.
  set (J := 2 ^ Z.pos pj).
  assert (HJ : 0 < J) by (apply Z.pow_pos_nonneg; lia).
  (* the exponents add up: 2^(60 - d) = J * 2^(k + k' - 46) *)
  assert (Hsum : 60 - Zdigits2 (Z.pos N) = Z.pos pj + (k + k' - 46))
    by (subst ea; lia).
  rewrite Hsum in Herr. rewrite Z.pow_add_r in Herr by lia. fold J in Herr.
  rewrite Z.mul_1_l in Herr'. rewrite Z.mul_1_r in Herr'. rewrite HP in Herr'.
  assert (HJbig : 2 ^ 30 <= J).
  { subst J. apply Z.pow_le_mono_r; lia. }
  change (2 ^ 30) with 1073741824 in HJbig.
  symmetry.
  apply Z.div_unique with (2 * Z.pos mp + J - Z.pos N * (2 * J)); [| ring].
  left.
  assert (Hkc : k = 0 \/ k = 1 \/ k = 2) by lia.
  assert (Hkc' : k' = 52 \/ k' = 53 \/ k' = 54) by lia.
  destruct Hkc as [-> | [-> | ->]]; destruct Hkc' as [-> | [-> | ->]];
    cbn [Z.add Z.sub Z.opp Z.pos_sub Pos.add Pos.succ Pos.pred_double] in Herr;
    repeat match type of Herr with
           | context [2 ^ ?c] =>
               let v := eval vm_compute in (2 ^ c) in change (2 ^ c) with v in Herr
           end;
    repeat match type of Herr' with
           | context [2 ^ ?c] =>
               let v := eval vm_compute in (2 ^ c) in change (2 ^ c) with v in Herr'
           end;
    nia.
Qed.

(** *** Printing and reading decimal digits *)

Lemma digits_stop (s : string) (acc n : Z) :
  starts_with_digit s = false -> digits s acc n = (acc, n, s).
Proof.
  destruct s as [| c s]; [reflexivity |]. cbn. intros ->. reflexivity.
Qed.

Lemma digits_string_of_uint (d : Decimal.uint) :
  forall rest acc n,
    starts_with_digit rest = false ->
    digits (NilEmpty.string_of_uint d ++ rest) acc n
    = (uint_acc d acc, n + Z.of_nat (Decimal.nb_digits d), rest).
Proof.
  induction d; intros rest acc n Hrest;
    try (cbn [NilEmpty.string_of_uint append digits uint_acc Decimal.nb_digits];
         change (is_digit _) with true; cbn iota;
         rewrite IHd by exact Hrest;
         f_equal; f_equal; lia).
  cbn. rewrite digits_stop by exact Hrest. f_equal. f_equal. lia.
Qed.

Lemma uint_acc_pos (d : Decimal.uint) :
  forall acc, uint_acc d (Z.pos acc) = Z.pos (Pos.of_uint_acc d acc).
Proof.
  induction d; intros acc; cbn [uint_acc Pos.of_uint_acc];
    try reflexivity;
    match goal with
    | |- uint_acc _ ?a = _ =>
        match goal with
        | |- _ = Z.pos (Pos.of_uint_acc _ ?b) =>
            replace a with (Z.pos b) by lia; apply IHd
        end
    end.
Qed.

Lemma uint_acc_0 (d : Decimal.uint) : uint_acc d 0 = Z.of_N (Pos.of_uint d).
Proof.
  induction d; cbn [uint_acc Pos.of_uint]; try reflexivity;
    try (change (10 * 0 + 0) with 0; exact IHd);
    match goal with
    | |- uint_acc _ ?a = _ =>
        let v := eval cbv in a in
        change a with v; rewrite uint_acc_pos; reflexivity
    end.
Qed.

Lemma of_nonneg_uint (z : Z) :
  of_nonneg z = NilEmpty.string_of_uint (N.to_uint (Z.to_N z))
  /\ N.to_uint (Z.to_N z) <> Decimal.Nil.
Proof.
  unfold of_nonneg.
  assert (H : N.to_uint (Z.to_N z) <> Decimal.Nil).
  { destruct (Z.to_N z) as [| p]; [discriminate |].
    apply DecimalPos.Unsigned.to_uint_nonnil. }
  split; [| exact H].
  destruct (N.to_uint (Z.to_N z)); [contradiction | reflexivity ..].
Qed.

(** Reading back the digits that [of_nonneg] prints gives the number. *)
Lemma digits_of_nonneg (z : Z) (rest : string) :
  0 <= z -> starts_with_digit rest = false ->
  exists len,
    0 < len /\ digits (of_nonneg z ++ rest) 0 0 = (z, len, rest).
Proof.
  intros Hz Hrest.
  destruct (of_nonneg_uint z) as [-> Hnil].
  rewrite digits_string_of_uint by exact Hrest.
  exists (Z.of_nat (Decimal.nb_digits (N.to_uint (Z.to_N z)))). split.
  - destruct (N.to_uint (Z.to_N z)); [contradiction | cbn; lia ..].
  - rewrite uint_acc_0.
    change (Pos.of_uint (N.to_uint (Z.to_N z)))
      with (N.of_uint (N.to_uint (Z.to_N z))).
    rewrite DecimalN.Unsigned.of_to, Z2N.id by exact Hz. reflexivity.
Qed.

Lemma append_empty_r (s : string) : s ++ "" = s.
Proof. induction s as [| c s IH]; cbn; [reflexivity | now rewrite IH]. Qed.

Lemma digits_single (d : Z) (rest : string) (acc n : Z) :
  0 <= d <= 9 ->
  digits (of_nonneg d ++ rest) acc n = digits rest (10 * acc + d) (n + 1).
Proof.
  intros Hd.
  assert (H : d = 0 \/ d = 1 \/ d = 2 \/ d = 3 \/ d = 4
              \/ d = 5 \/ d = 6 \/ d = 7 \/ d = 8 \/ d = 9) by lia.
  repeat (destruct H as [-> | H]; [reflexivity |]). subst d. reflexivity.
Qed.

(** A numeral starts with a digit: no white space to skip, no sign, and
    not the word [Infinity]. *)
Lemma parseFloat_string_numeral (z : Z) (rest : string) :
  parseFloat_string (of_nonneg z ++ rest)
  = (let '(ip, ni, r1) := digits (of_nonneg z ++ rest) 0 0 in
     match r1 with
     | String "." r2 =>
         let '(m, nf, r3) := digits r2 ip 0 in
         if (ni =? 0) && (nf =? 0) then NaN
         else of_decimal false m (exponent_part r3 - nf)
     | _ => if ni =? 0 then NaN else of_decimal false ip (exponent_part r1)
     end)
  /\ of_nonneg z ++ rest <> "".
Proof.
  destruct (of_nonneg_uint z) as [-> Hnil].
  destruct (N.to_uint (Z.to_N z)); [contradiction | ..];
    (split; [reflexivity | discriminate]).
Qed.

(** Reading an amount printed with two decimals: the Number nearest to
    [N / 100]. *)
Lemma parseFloat_string_hundredths (N : Z) :
  0 <= N ->
  parseFloat_string (hundredths N) = of_decimal false N (-2)
  /\ hundredths N <> "".
Proof.
  intros HN. unfold hundredths.
  destruct (parseFloat_string_numeral (N / 100)
              ("." ++ of_nonneg (N mod 100 / 10) ++ of_nonneg (N mod 10)))
    as [-> Hne].
  split; [| exact Hne].
  destruct (digits_of_nonneg (N / 100)
              ("." ++ of_nonneg (N mod 100 / 10) ++ of_nonneg (N mod 10)))
    as (len & Hlen & ->); [apply Z.div_pos; lia | reflexivity |].
  cbn [append].
  rewrite <- (append_empty_r (of_nonneg (N mod 10))).
  rewrite digits_single by (Z.div_mod_to_equations; lia).
  rewrite digits_single by (Z.div_mod_to_equations; lia).
  cbn [digits].
  assert (Hl : (len =? 0) = false) by (apply Z.eqb_neq; lia).
  rewrite Hl. cbn [andb exponent_part].
  f_equal; try reflexivity; Z.div_mod_to_equations; lia.
Qed.

(** X23. An amount written with two decimals, from ["0.01"] to
    ["10000.00"], in a request whose [serverProvider] and [username] are
    present and printable, is accepted, and the processor is asked for
    exactly that many minor units: neither the reading of the decimal
    string as a Number nor the product with 100 loses a cent. *)
Theorem post_checkout_two_decimals_exact :
  forall (W : World) (req : CheckoutRequest) (N : Z) (p u : string),
    1 <= N <= 1000000 ->
    ToBoolean (prop "serverProvider" (req_body req)) = true ->
    ToBoolean (prop "username" (req_body req)) = true ->
    ToString (host W) (prop "serverProvider" (req_body req)) = inr p ->
    ToString (host W) (prop "username" (req_body req)) = inr u ->
    prop "amount" (req_body req) = VString (hundredths N) ->
    exists params,
      create_calls (trace (post_checkout W req)) = [params]
      /\ map unit_amount (line_items params) = [of_Z N].
Proof.
  intros W req N p u HN Hsp Hun Hp Hu Ha.
  destruct (parseFloat_string_hundredths N ltac:(lia)) as [Hparse Hne].
  destruct N as [| n | n]; try lia.
  destruct (post_checkout_printable W req (hundredths (Z.pos n)) p u
              Hsp Hun Hp Hu Ha Hne)
    as (log & params & Hparams & (text & args & ->) & Hrun).
  { rewrite Hparse. apply hundredths_accepted. lia. }
  exists params. split.
  - rewrite Hrun. destruct (stripe_checkout_sessions_create W params);
      reflexivity.
  - destruct (checkout_params_built W req _ _ _ _ _ Hparams)
      as (p' & u' & _ & _ & _ & _ & _ & -> & _).
    rewrite Hparse, hundredths_minor_units by lia. reflexivity.
Qed.

Lemma post_checkout_two_decimals_exact_witness :
  exists params,
    create_calls (trace (post_checkout Sample.world
                           (Sample.checkout_request (VString "25.99"))))
    = [params]
    /\ map unit_amount (line_items params) = [of_Z 2599].
Proof.
  apply (post_checkout_two_decimals_exact
           Sample.world (Sample.checkout_request (VString "25.99")) 2599
           "Orion" "player1").
  - lia.
  - reflexivity.
  - reflexivity.
  - reflexivity.
  - reflexivity.
  - reflexivity.
Defined.

(** *** Integers as Numbers, and amounts shown with two decimals *)

Lemma binary_round_aux_canonical (s : bool) (m : positive) (e : Z) :
  Zdigits2 (Z.pos m) = 53 -> -1074 <= e <= 971 ->
  binary_round_aux prec emax s (Z.pos m) e loc_Exact = S754_finite s m e.
Proof.
  intros Hd He. unfold binary_round_aux, shr_fexp, shr.
  rewrite Hd.
  assert (E : fexp prec emax (53 + e) - e = 0)
    by (unfold fexp, emin, prec, emax; lia).
  rewrite E. cbn [shr_record_of_loc shr_m loc_of_shr_record round_nearest_even].
  rewrite Hd, E. cbn [shr_record_of_loc shr_m].
  assert (Hle : (e <=? emax - prec) = true)
    by (apply Z.leb_le; unfold emax, prec; lia).
  rewrite Hle. reflexivity.
Qed.

Lemma pos_iter_xO (p d : positive) :
  Z.pos (Pos.iter xO p d) = Z.pos p * 2 ^ Z.pos d.
Proof.
  induction d as [| d IH] using Pos.peano_ind.
  - cbn [Pos.iter]. rewrite Z.pow_1_r. lia.
  - rewrite Pos.iter_succ, Pos2Z.inj_xO, IH, Pos2Z.inj_succ, Z.pow_succ_r by lia.
    ring.
Qed.

(** An integer below [2^53] is a Number: [of_Z] is exact on it, with the
    mantissa shifted up to 53 bits. *)
Lemma of_Z_exact (a : positive) :
  Zdigits2 (Z.pos a) <= 53 ->
  exists m : positive,
    of_Z (Z.pos a) = S754_finite false m (Zdigits2 (Z.pos a) - 53)
    /\ Z.pos m = Z.pos a * 2 ^ (53 - Zdigits2 (Z.pos a))
    /\ Zdigits2 (Z.pos m) = 53.
Proof.
  intros Hd.
  pose proof (Zdigits2_bounds (Z.pos a) ltac:(lia)) as Hb.
  set (d := Zdigits2 (Z.pos a)) in *.
  assert (Hd0 : 1 <= d).
  { subst d. cbn. lia. }
  unfold of_Z, binary_normalize, binary_round.
  change (Z.pos (digits2_pos a)) with d.
  assert (Ef : fexp prec emax (d + 0) = d - 53)
    by (unfold fexp, emin, prec, emax; lia).
  rewrite Ef. unfold shl_align.
  destruct (d - 53 - 0) as [| k | k] eqn:Ek; try lia.
  - assert (d = 53) by lia.
    rewrite binary_round_aux_canonical by (fold d; lia).
    exists a. split; [f_equal; lia |].
    split; [| fold d; lia].
    replace (53 - d) with 0 by lia. rewrite Z.pow_0_r. lia.
  - assert (Hk : Z.pos k = 53 - d) by lia.
    assert (Hm : Z.pos (Pos.iter xO a k) = Z.pos a * 2 ^ (53 - d))
      by (rewrite pos_iter_xO, Hk; reflexivity).
    assert (Hdm : Zdigits2 (Z.pos (Pos.iter xO a k)) = 53).
    { apply Zdigits2_unique; [lia |]. rewrite Hm. change (53 - 1) with 52.
      assert (E1 : 2 ^ 52 = 2 ^ (d - 1) * 2 ^ (53 - d))
        by (rewrite <- Z.pow_add_r by lia; f_equal; lia).
      assert (E2 : 2 ^ 53 = 2 ^ d * 2 ^ (53 - d))
        by (rewrite <- Z.pow_add_r by lia; f_equal; lia).
      assert (0 < 2 ^ (53 - d)) by (apply Z.pow_pos_nonneg; lia).
      rewrite E1, E2. nia. }
    rewrite binary_round_aux_canonical by (try exact Hdm; lia).
    exists (Pos.iter xO a k). split; [reflexivity |]. split; assumption.
Qed.

Lemma of_Z_10_21 : of_Z (10 ^ 21) = S754_finite false 7629394531250000 17.
Proof. reflexivity. Qed.

(** [(a / 100).toFixed(2)] prints [a] hundredths, for every [a] from 1 to
    [10^15]: the division is rounded once, by far less than half a
    hundredth. *)
Lemma toFixed2_hundredths (h : Host) (a : positive) :
  Z.pos a <= 10 ^ 15 ->
  toFixed2 h (div (of_Z (Z.pos a)) (of_Z 100)) = hundredths (Z.pos a).
Proof.
  intros Ha.
  assert (Hd : 1 <= Zdigits2 (Z.pos a) <= 50).
  { rewrite Zdigits2_log2 by lia.
    pose proof (Z.log2_nonneg (Z.pos a)).
    assert (Z.log2 (Z.pos a) < 50); [| lia].
    apply Z.log2_lt_pow2; [lia |].
    change (2 ^ 50) with 1125899906842624. change (10 ^ 15) with 1000000000000000 in Ha.
    lia. }
  destruct (of_Z_exact a ltac:(lia)) as (ma & Ea & Hma & Hdma).
  set (d := Zdigits2 (Z.pos a)) in *.
  rewrite Ea, of_Z_100. unfold div, SFdiv. cbn [xorb].
  assert (H100 : Zdigits2 7036874417766400 = 53) by reflexivity.
  destruct (div_core_round false (Z.pos ma) (d - 53) 7036874417766400 (-46))
    as (mx & k & E & Hk & Hmx & Herr); try lia.
  rewrite Hdma, H100 in E, Herr.
  change (53 + 53 - 53) with 53 in E, Herr.
  etransitivity; [apply f_equal; exact E |].
  set (ex := d - 53 - -46 - 53 + k).
  assert (Hex : ex = d - 60 + k) by (subst ex; lia).
  unfold toFixed2. rewrite of_Z_10_21.
  assert (Hcmp : leb (S754_finite false 7629394531250000 17)
                     (S754_finite false mx ex) = false).
  { unfold leb, SFleb, SFcompare.
    destruct (Z.compare_spec 17 ex); solve [lia | reflexivity]. }
  rewrite Hcmp. cbn [append]. f_equal.
  destruct ex as [| pj | pj] eqn:Ej; try lia.
  cbn [round_half_up_scaled]. rewrite Pos2Z.inj_pow. change (Z.pos 2) with 2.
  set (J := 2 ^ Z.pos pj).
  assert (HJ : 2 ^ 7 <= J) by (subst J; apply Z.pow_le_mono_r; lia).
  change (2 ^ 7) with 128 in HJ.
  rewrite Hma in Herr.
  assert (Hsum : 53 - d + 53 = Z.pos pj + (46 + k)) by lia.
  assert (Hpow : 2 ^ (53 - d) * 2 ^ 53 = J * 2 ^ (46 + k)).
  { rewrite <- Z.pow_add_r by lia. rewrite Hsum.
    rewrite Z.pow_add_r by lia. reflexivity. }
  replace (Z.pos a * 2 ^ (53 - d) * 2 ^ 53)
    with (Z.pos a * J * 2 ^ (46 + k)) in Herr
    by (rewrite <- Z.mul_assoc, <- Hpow; ring).
  symmetry.
  apply Z.div_unique with (2 * (Z.pos mx * 100) + J - Z.pos a * (2 * J)); [| ring].
  left.
  assert (Hkc : k = 0 \/ k = 1 \/ k = 2) by lia.
  destruct Hkc as [-> | [-> | ->]];
    cbn [Z.add Pos.add Pos.succ] in Herr;
    repeat match type of Herr with
           | context [2 ^ ?c] =>
               let v := eval vm_compute in (2 ^ c) in change (2 ^ c) with v in Herr
           end;
    nia.
Qed.

(** X24. For a session of [a] minor units, [1 <= a <= 10^15], the
    verification response shows [a] with two decimals: the units, a
    point, and the two digits of the hundredths. *)
Theorem get_verify_payment_amount_two_decimals :
  forall (W : World) (req : VerifyRequest) (session : Session) (a : Z),
    well_formed_session_id (sessionId req) ->
    stripe_checkout_sessions_retrieve W (sessionId req)
      ["payment_intent"; "line_items"] = inr session ->
    amount_total session = Some a ->
    1 <= a <= 10 ^ 15 ->
    exists resp,
      completion (get_verify_payment W req) = Normal resp
      /\ body_field "amount" resp
         = Some (VString (of_nonneg (a / 100) ++ "."
                          ++ of_nonneg (a mod 100 / 10) ++ of_nonneg (a mod 10))).
Proof.
  intros W req session a Hid Hok Ha Hr.
  rewrite (get_verify_payment_asked W req Hid), Hok.
  eexists. split; [reflexivity |].
  cbn [body_field body json get_field String.eqb Ascii.eqb Bool.eqb].
  unfold verify_amount. rewrite Ha, of_Z_truthy.
  destruct a as [| p | p]; try lia. cbn [Z.eqb negb].
  rewrite toFixed2_hundredths by exact (proj2 Hr). reflexivity.
Qed.

Lemma get_verify_payment_amount_two_decimals_witness :
  exists resp,
    completion (get_verify_payment Sample.world
                  (Sample.verify_request "cs_test_a1b2c3d4e5")) = Normal resp
    /\ body_field "amount" resp = Some (VString "25.99").
Proof.
  apply (get_verify_payment_amount_two_decimals
           Sample.world (Sample.verify_request "cs_test_a1b2c3d4e5")
           Sample.paid_session 2599).
  - split; [cbn; lia | reflexivity].
  - reflexivity.
  - reflexivity.
  - lia.
Defined.

Lemma of_Z_inj (a b : positive) :
  Zdigits2 (Z.pos a) <= 53 -> Zdigits2 (Z.pos b) <= 53 ->
  of_Z (Z.pos a) = of_Z (Z.pos b) -> a = b.
Proof.
  intros Ha Hb E.
  destruct (of_Z_exact a Ha) as (ma & Ea & Hma & _).
  destruct (of_Z_exact b Hb) as (mb & Eb & Hmb & _).
  rewrite Ea, Eb in E.
  assert (He : Zdigits2 (Z.pos a) - 53 = Zdigits2 (Z.pos b) - 53) by congruence.
  assert (Hm : ma = mb) by congruence.
  assert (Hd : Zdigits2 (Z.pos a) = Zdigits2 (Z.pos b)) by lia.
  rewrite Hd in Hma. subst mb.
  assert (0 < 2 ^ (53 - Zdigits2 (Z.pos b))) by (apply Z.pow_pos_nonneg; lia).
  assert (Z.pos a = Z.pos b) by nia. congruence.
Qed.

Lemma Zdigits2_le_53 (a : Z) : 0 < a <= 10 ^ 15 -> Zdigits2 a <= 53.
Proof.
  intros Ha. rewrite Zdigits2_log2 by lia.
  assert (Z.log2 a < 50); [| lia].
  apply Z.log2_lt_pow2; [lia |].
  change (2 ^ 50) with 1125899906842624.
  change (10 ^ 15) with 1000000000000000 in Ha. lia.
Qed.

(** X25. From checkout to verification.  A client submits an amount
    written with two decimals; the session created for it has the total
    the processor was asked for.  Verifying that session shows the very
    string the client submitted. *)
Theorem checkout_amount_shown_by_verify :
  forall (W : World) (creq : CheckoutRequest) (params : CreateParams)
         (vreq : VerifyRequest) (session : Session) (N a : Z),
    1 <= N <= 1000000 ->
    prop "amount" (req_body creq) = VString (hundredths N) ->
    In params (create_calls (trace (post_checkout W creq))) ->
    1 <= a <= 10 ^ 15 ->
    amount_total session = Some a ->
    map unit_amount (line_items params) = [of_Z a] ->
    well_formed_session_id (sessionId vreq) ->
    stripe_checkout_sessions_retrieve W (sessionId vreq)
      ["payment_intent"; "line_items"] = inr session ->
    exists resp,
      completion (get_verify_payment W vreq) = Normal resp
      /\ body_field "amount" resp = Some (prop "amount" (req_body creq)).
Proof.
  intros W creq params vreq session N a HN Ha Hin Hr Htot Hunit Hid Hok.
  assert (HaN : a = N).
  { destruct (post_checkout_create_calls W creq)
      as [Hc | (x & built & Hx & Hb & Hc)];
      rewrite Hc in Hin; [contradiction |].
    destruct Hin as [<- | []].
    destruct (checkout_params_built W creq _ _ _ _ _ Hb)
      as (p' & u' & _ & _ & _ & _ & _ & Hcents & _).
    rewrite Hcents in Hunit.
    rewrite Ha in Hx. unfold parseFloat in Hx. cbn [ToString] in Hx.
    inversion Hx; subst x.
    destruct (parseFloat_string_hundredths N ltac:(lia)) as [Hparse _].
    rewrite Hparse in Hunit.
    destruct N as [| n | n]; try lia. destruct a as [| p | p]; try lia.
    rewrite hundredths_minor_units in Hunit by lia.
    inversion Hunit as [E]. f_equal. symmetry.
    apply of_Z_inj; [| | exact E];
      apply Zdigits2_le_53; change (10 ^ 15) with 1000000000000000 in *; lia. }
  subst a.
  rewrite (get_verify_payment_asked W vreq Hid), Hok.
  eexists. split; [reflexivity |].
  cbn [body_field body json get_field String.eqb Ascii.eqb Bool.eqb].
  unfold verify_amount. rewrite Htot, of_Z_truthy, Ha.
  destruct N as [| p | p]; try lia. cbn [Z.eqb negb].
  rewrite toFixed2_hundredths by exact (proj2 Hr). reflexivity.
Qed.

Lemma checkout_amount_shown_by_verify_witness :
  exists resp,
    completion (get_verify_payment Sample.world
                  (Sample.verify_request "cs_test_a1b2c3d4e5")) = Normal resp
    /\ body_field "amount" resp = Some (VString "25.99").
Proof.
  apply (checkout_amount_shown_by_verify
           Sample.world (Sample.checkout_request (VString "25.99"))
           (Sample.created_params "https://shop.example")
           (Sample.verify_request "cs_test_a1b2c3d4e5")
           Sample.paid_session 2599 2599).
  - lia.
  - reflexivity.
  - vm_compute. left. reflexivity.
  - lia.
  - reflexivity.
  - vm_compute. reflexivity.
  - split; [cbn; lia | reflexivity].
  - reflexivity.
Defined.

(** *** Amounts with a minus sign *)

Lemma binary_round_aux_sign (s : bool) (m e : Z) (l : location) :
  match binary_round_aux prec emax s m e l with
  | S754_zero s' | S754_infinity s' | S754_finite s' _ _ => s' = s
  | S754_nan => True
  end.
Proof.
  unfold binary_round_aux.
  destruct (shr_fexp prec emax m e l) as [r1 e1].
  destruct (shr_fexp prec emax _ e1 loc_Exact) as [r2 e2].
  destruct (shr_m r2); [reflexivity | | exact I].
  destruct (e2 <=? emax - prec); reflexivity.
Qed.

Lemma of_decimal_sign (s : bool) (m e : Z) :
  match of_decimal s m e with
  | S754_zero s' | S754_infinity s' | S754_finite s' _ _ => s' = s
  | S754_nan => True
  end.
Proof.
  unfold of_decimal, of_ratio, binary_round.
  destruct m as [| p | p]; try reflexivity.
  destruct e as [| q | q].
  - destruct (shl_align _ _ _). apply binary_round_aux_sign.
  - destruct (shl_align _ _ _). apply binary_round_aux_sign.
  - destruct (SFdiv_core_binary _ _ _ _ _ _) as [[mz ez] lz].
    apply binary_round_aux_sign.
Qed.

(** What follows a minus sign is never accepted: the literal is
    negative, a negative zero, [-Infinity] or NaN. *)
Lemma minus_refused (r : string) :
  amount_refused (unsigned_literal true r) = true.
Proof.
  assert (H : forall x,
             match x with
             | S754_zero s' | S754_infinity s' | S754_finite s' _ _ => s' = true
             | S754_nan => True
             end -> amount_refused x = true).
  { intros [s' | s' | | s' m e] Hx; try subst s'; reflexivity. }
  unfold unsigned_literal.
  destruct (prefix "Infinity" r); [reflexivity |].
  destruct (digits r 0 0) as [[ip ni] r1].
  destruct r1 as [| c r2].
  - destruct (ni =? 0); [reflexivity | apply H, of_decimal_sign].
  - assert (Hdef : amount_refused
                     (if ni =? 0 then NaN
                      else of_decimal true ip (exponent_part (String c r2)))
                   = true)
      by (destruct (ni =? 0); [reflexivity | apply H, of_decimal_sign]).
    destruct c as [[] [] [] [] [] [] [] []]; try exact Hdef.
    destruct (digits r2 ip 0) as [[m nf] r3].
    destruct ((ni =? 0) && (nf =? 0)); [reflexivity | apply H, of_decimal_sign].
Qed.

(** X26. An amount string whose first character after leading white
    space is a minus sign is refused with 400 and the processor is not
    asked, whatever follows the sign. *)
Theorem post_checkout_minus_sign_refused :
  forall (W : World) (req : CheckoutRequest) (s r : string),
    prop "amount" (req_body req) = VString s ->
    trimStart s = String "-" r ->
    exists message,
      completion (post_checkout W req)
      = Normal {| status := 400;
                  body := BodyJson (VObject [("status", VString "error");
                                             ("message", VString message)]) |}
      /\ create_calls (trace (post_checkout W req)) = [].
Proof.
  intros W req s r Ha Hs.
  assert (Hpf : parseFloat (host W) (prop "amount" (req_body req))
                = inr (unsigned_literal true r)).
  { rewrite Ha. unfold parseFloat, parseFloat_string. cbn [ToString].
    rewrite Hs. reflexivity. }
  pose proof (minus_refused r) as Href.
  checkout_cases W req; try congruence;
    rewrite Hrun; eexists; split; reflexivity.
Qed.

Lemma post_checkout_minus_sign_refused_witness :
  let req := Sample.checkout_request (VString " -25.99") in
  exists message,
    completion (post_checkout Sample.world req)
    = Normal {| status := 400;
                body := BodyJson (VObject [("status", VString "error");
                                           ("message", VString message)]) |}
    /\ create_calls (trace (post_checkout Sample.world req)) = [].
Proof.
  apply (post_checkout_minus_sign_refused
           Sample.world (Sample.checkout_request (VString " -25.99"))
           " -25.99" "25.99").
  - reflexivity.
  - reflexivity.
Defined.

(** *** The amount handed to the Notification Sender *)

Lemma loc_of_scale (r D c : Z) :
  0 < c -> loc_of (r * c) (D * c) = loc_of r D.
Proof.
  intros Hc. unfold loc_of.
  destruct (Z.eqb_spec (r * c) 0); destruct (Z.eqb_spec r 0); try nia;
    try reflexivity.
  f_equal.
  destruct (Z.compare_spec (2 * (r * c)) (D * c));
    destruct (Z.compare_spec (2 * r) D); try reflexivity; nia.
Qed.

(** [a / 100], computed on Numbers, is the Number that the decimal
    string of [a] hundredths denotes: both are one rounding of the same
    quotient. *)
Lemma div_100_is_decimal (a : positive) :
  Z.pos a <= 10 ^ 15 ->
  div (of_Z (Z.pos a)) (of_Z 100) = of_decimal false (Z.pos a) (-2).
Proof.
  intros Ha.
  assert (Hd53 : Zdigits2 (Z.pos a) <= 53) by (apply Zdigits2_le_53; lia).
  assert (Hd : 1 <= Zdigits2 (Z.pos a) <= 50).
  { rewrite Zdigits2_log2 by lia.
    pose proof (Z.log2_nonneg (Z.pos a)).
    assert (Z.log2 (Z.pos a) < 50); [| lia].
    apply Z.log2_lt_pow2; [lia |].
    change (2 ^ 50) with 1125899906842624.
    change (10 ^ 15) with 1000000000000000 in Ha. lia. }
  destruct (of_Z_exact a Hd53) as (ma & Ea & Hma & Hdma).
  set (d := Zdigits2 (Z.pos a)) in *.
  rewrite Ea, of_Z_100. unfold div, SFdiv. cbn [xorb].
  assert (H100 : Zdigits2 7036874417766400 = 53) by reflexivity.
  assert (H7 : Zdigits2 100 = 7) by reflexivity.
  rewrite (SFdiv_core_value (Z.pos ma) (d - 53) 7036874417766400 (-46))
    by (rewrite ?Hdma, ?H100; lia).
  rewrite Hdma, H100. change (53 + 53 - 53) with 53.
  assert (Edec : of_decimal false (Z.pos a) (-2)
                 = (let '(mz, ez, lz) :=
                      SFdiv_core_binary prec emax (Z.pos a) 0 100 0 in
                    binary_round_aux prec emax false mz ez lz))
    by reflexivity.
  rewrite Edec.
  rewrite (SFdiv_core_value (Z.pos a) 0 100 0) by (rewrite ?H7; fold d; lia).
  rewrite H7. fold d.
  assert (Hp : 0 < 2 ^ (53 + 7 - d)) by (apply Z.pow_pos_nonneg; lia).
  assert (Hscale : Z.pos ma * 2 ^ 53 = Z.pos a * 2 ^ (53 + 7 - d) * 2 ^ 46).
  { rewrite Hma. rewrite <- !Z.mul_assoc. f_equal.
    rewrite <- !Z.pow_add_r by lia. f_equal. lia. }
  rewrite Hscale.
  change 7036874417766400 with (100 * 2 ^ 46).
  rewrite Z.div_mul_cancel_r by lia.
  rewrite Z.mul_mod_distr_r by lia.
  pose proof (Z.mod_pos_bound (Z.pos a * 2 ^ (53 + 7 - d)) 100 ltac:(lia)) as Hr.
  rewrite (new_location_loc_of (100 * 2 ^ 46)) by lia.
  rewrite (new_location_loc_of 100) by lia.
  rewrite loc_of_scale by lia.
  f_equal. lia.
Qed.

(** X27. The amount handed to the Notification Sender for a session of
    [a] minor units, [1 <= a <= 10^15], whose metadata is an object, is
    the Number written as [a] hundredths with two decimals: the one
    [parseFloat] reads from that string. *)
Theorem handleWebhook_amount_is_decimal :
  forall (W : World) (req : WebhookRequest) (event : Event)
         (fields : JsObject) (a : Z),
    stripe_webhooks_constructEvent W (raw_body req)
      (prop "stripe-signature" (headers req))
      (process_env W "STRIPE_WEBHOOK_SECRET") = inr event ->
    ev_type event = "checkout.session.completed" ->
    payment_status (ev_data_object event) = "paid" ->
    metadata (ev_data_object event) = Some fields ->
    amount_total (ev_data_object event) = Some a ->
    1 <= a <= 10 ^ 15 ->
    exists paymentData,
      sender_calls (trace (handleWebhook W req)) = [paymentData]
      /\ prop "amount" paymentData
         = VNumber (parseFloat_string
                      (of_nonneg (a / 100) ++ "."
                       ++ of_nonneg (a mod 100 / 10) ++ of_nonneg (a mod 10))).
Proof.
  intros W req event fields a Hev Hty Hpaid Hmeta Ha Hr.
  rewrite (handleWebhook_paid W req event fields Hev Hty Hpaid Hmeta).
  cbn zeta. cbn [trace snd sender_calls flat_map app].
  rewrite sender_calls_app, sendPaymentConfirmation_no_reentry.
  exists (confirmation_of (ev_data_object event) fields). split; [reflexivity |].
  unfold confirmation_of, amount_total_number. rewrite Ha.
  cbn [prop get_field String.eqb Ascii.eqb Bool.eqb].
  destruct (parseFloat_string_hundredths a ltac:(lia)) as [Hparse _].
  unfold hundredths in Hparse. rewrite Hparse.
  destruct a as [| p | p]; try lia.
  rewrite div_100_is_decimal by lia. reflexivity.
Qed.

Lemma handleWebhook_amount_is_decimal_witness :
  exists paymentData,
    sender_calls (trace (handleWebhook Sample.world Sample.signed_webhook))
    = [paymentData]
    /\ prop "amount" paymentData = VNumber (parseFloat_string "25.99").
Proof.
  apply (handleWebhook_amount_is_decimal
           Sample.world Sample.signed_webhook
           {| ev_type := "checkout.session.completed";
              ev_data_object := Sample.paid_session |}
           [("requestId", VString "9f3c");
            ("userIp", VString "10.0.0.1");
            ("username", VString "player1");
            ("serverProvider", VString "Orion")]
           2599).
  - reflexivity.
  - reflexivity.
  - reflexivity.
  - reflexivity.
  - reflexivity.
  - lia.
Defined.

(** *** Whole amounts *)

Lemma whole_number (n : positive) :
  Z.pos n <= 10000 ->
  exists m : positive,
    of_Z (Z.pos n) = S754_finite false m (Zdigits2 (Z.pos n) - 53)
    /\ Z.pos m = Z.pos n * 2 ^ (53 - Zdigits2 (Z.pos n))
    /\ Zdigits2 (Z.pos m) = 53
    /\ 1 <= Zdigits2 (Z.pos n) <= 14.
Proof.
  intros Hn.
  assert (Hd : 1 <= Zdigits2 (Z.pos n) <= 14).
  { rewrite Zdigits2_log2 by lia.
    pose proof (Z.log2_nonneg (Z.pos n)).
    assert (Z.log2 (Z.pos n) < 14); [| lia].
    apply Z.log2_lt_pow2; [lia |]. change (2 ^ 14) with 16384. lia. }
  destruct (of_Z_exact n ltac:(lia)) as (m & E & Hm & Hdm).
  exists m. repeat split; try assumption; lia.
Qed.

Lemma whole_accepted (n : positive) :
  Z.pos n <= 10000 -> amount_refused (of_Z (Z.pos n)) = false.
Proof.
  intros Hn.
  destruct (whole_number n Hn) as (m & E & Hm & Hdm & Hd).
  rewrite E. unfold amount_refused. cbn [isNaN orb].
  change (leb (S754_finite false m (Zdigits2 (Z.pos n) - 53)) (of_Z 0))
    with false. cbn [orb].
  unfold gtb. rewrite of_Z_10000. unfold SFltb, SFcompare.
  destruct (Z.compare_spec (-39) (Zdigits2 (Z.pos n) - 53)) as [He | He | He];
    [| exfalso; lia | reflexivity].
  rewrite Pos.compare_cont_spec. cbn [Pos.switch_Eq].
  destruct (Pos.compare_spec 5497558138880000 m) as [H | H | H];
    [reflexivity | exfalso | reflexivity].
  replace (53 - Zdigits2 (Z.pos n)) with 39 in Hm by lia.
  change (2 ^ 39) with 549755813888 in Hm. lia.
Qed.

Lemma whole_minor_units (n : positive) :
  Z.pos n <= 10000 ->
  Math_round (mul (of_Z (Z.pos n)) (of_Z 100)) = of_Z (100 * Z.pos n).
Proof.
  intros Hn.
  destruct (whole_number n Hn) as (m & E & Hm & Hdm & Hd).
  set (d := Zdigits2 (Z.pos n)) in *.
  rewrite E, of_Z_100. unfold mul, SFmul. cbn [xorb].
  pose proof (Zdigits2_bounds (Z.pos m) ltac:(lia)) as Hbm.
  rewrite Hdm in Hbm. change (53 - 1) with 52 in Hbm.
  set (P := Z.pos (m * 7036874417766400)).
  assert (HP : P = Z.pos m * 7036874417766400) by (subst P; lia).
  assert (HPlow : 2 ^ 104 <= P).
  { rewrite HP. change (2 ^ 104) with (2 ^ 52 * 2 ^ 52).
    change (2 ^ 52) with 4503599627370496 in *. nia. }
  assert (HPhigh : P < 2 ^ 106).
  { rewrite HP. change (2 ^ 106) with (2 ^ 53 * 2 ^ 53).
    change (2 ^ 53) with 9007199254740992 in *. nia. }
  assert (HdP : Zdigits2 P = 105 \/ Zdigits2 P = 106).
  { destruct (Z.lt_ge_cases P (2 ^ 105)).
    - left. apply Zdigits2_unique; [lia |]. change (105 - 1) with 104. lia.
    - right. apply Zdigits2_unique; [lia |]. change (106 - 1) with 105. lia. }
  assert (HP0 : 0 < P) by lia.
  assert (HP1 : P = P / 1) by (rewrite Z.div_1_r; reflexivity).
  assert (HPl : loc_Exact = loc_of (P mod 1) 1)
    by (rewrite Z.mod_1_r; reflexivity).
  destruct (binary_round_aux_correct false P (d - 53 + -46) loc_Exact P 1
              ltac:(lia) HP0 HP1 HPl ltac:(lia) ltac:(lia) ltac:(lia))
    as (mp & k' & Ep & Hk' & Hmp & Herr').
  rewrite Ep. clear Ep.
  set (ep := d - 53 + -46 + k').
  assert (Hep : ep < 0) by (subst ep; lia).
  unfold Math_round.
  destruct (Z.leb_spec 0 ep) as [Hc | _]; [lia |].
  cbn [cond_Zopp]. unfold of_Z. f_equal.
  destruct ep as [| pj | pj] eqn:Ej; try lia.
  cbn [round_half_up_scaled]. rewrite Pos2Z.inj_pow. change (Z.pos 2) with 2.
  set (J := 2 ^ Z.pos pj).
  assert (HJ : 0 < J) by (apply Z.pow_pos_nonneg; lia).
  rewrite Z.mul_1_l in Herr'. rewrite Z.mul_1_r in Herr'. rewrite HP, Hm in Herr'.
  assert (Hsum : 53 - d = Z.pos pj + (k' - 46)) by (subst ep; lia).
  rewrite Hsum in Herr'. rewrite Z.pow_add_r in Herr' by lia. fold J in Herr'.
  symmetry.
  apply Z.div_unique with (2 * Z.pos mp + J - 100 * Z.pos n * (2 * J)); [| ring].
  left.
  assert (Hkc' : k' = 52 \/ k' = 53 \/ k' = 54) by lia.
  destruct Hkc' as [-> | [-> | ->]];
    cbn [Z.add Z.sub Z.opp Z.pos_sub Pos.add Pos.succ Pos.pred_double] in Herr';
    repeat match type of Herr' with
           | context [2 ^ ?c] =>
               let v := eval vm_compute in (2 ^ c) in change (2 ^ c) with v in Herr'
           end;
    nia.
Qed.

Lemma parseFloat_string_whole (z : Z) :
  0 <= z -> parseFloat_string (of_nonneg z) = of_Z z /\ of_nonneg z <> "".
Proof.
  intros Hz.
  rewrite <- (append_empty_r (of_nonneg z)).
  destruct (parseFloat_string_numeral z "") as [-> Hne].
  split; [| exact Hne].
  destruct (digits_of_nonneg z "" Hz eq_refl) as (len & Hlen & ->).
  assert (Hl : (len =? 0) = false) by (apply Z.eqb_neq; lia).
  rewrite Hl. cbn [exponent_part].
  destruct z as [| p | p]; try lia; [reflexivity |].
  unfold of_decimal, of_Z, binary_normalize.
  change (Z.to_pos (10 ^ 0)) with 1%positive. rewrite Pos.mul_1_r. reflexivity.
Qed.

(** X28. A whole amount from ["1"] to ["10000"], in a request whose
    [serverProvider] and [username] are present and printable, is
    accepted, and the processor is asked for exactly one hundred times
    as many minor units. *)
Theorem post_checkout_whole_amount_exact :
  forall (W : World) (req : CheckoutRequest) (n : Z) (p u : string),
    1 <= n <= 10000 ->
    ToBoolean (prop "serverProvider" (req_body req)) = true ->
    ToBoolean (prop "username" (req_body req)) = true ->
    ToString (host W) (prop "serverProvider" (req_body req)) = inr p ->
    ToString (host W) (prop "username" (req_body req)) = inr u ->
    prop "amount" (req_body req) = VString (of_nonneg n) ->
    exists params,
      create_calls (trace (post_checkout W req)) = [params]
      /\ map unit_amount (line_items params) = [of_Z (100 * n)].
Proof.
  intros W req n p u Hn Hsp Hun Hp Hu Ha.
  destruct (parseFloat_string_whole n ltac:(lia)) as [Hparse Hne].
  destruct n as [| k | k]; try lia.
  destruct (post_checkout_printable W req (of_nonneg (Z.pos k)) p u
              Hsp Hun Hp Hu Ha Hne)
    as (log & params & Hparams & (text & args & ->) & Hrun).
  { rewrite Hparse. apply whole_accepted. lia. }
  exists params. split.
  - rewrite Hrun. destruct (stripe_checkout_sessions_create W params);
      reflexivity.
  - destruct (checkout_params_built W req _ _ _ _ _ Hparams)
      as (p' & u' & _ & _ & _ & _ & _ & -> & _).
    rewrite Hparse, whole_minor_units by lia. reflexivity.
Qed.

Lemma post_checkout_whole_amount_exact_witness :
  exists params,
    create_calls (trace (post_checkout Sample.world
                           (Sample.checkout_request (VString "10000"))))
    = [params]
    /\ map unit_amount (line_items params) = [of_Z 1000000].
Proof.
  apply (post_checkout_whole_amount_exact
           Sample.world (Sample.checkout_request (VString "10000")) 10000
           "Orion" "player1").
  - lia.
  - reflexivity.
  - reflexivity.
  - reflexivity.
  - reflexivity.
  - reflexivity.
Defined.
